(** * Document verifier: MRZ decoding, cross-field validation, eligibility

    A shallow embedding of the [MRZParser] and [DocumentValidator] classes,
    of the functions of the request handler that do not search the text
    of the page, and the properties of these functions.

    Conventions of the embedding:
    - a JavaScript string is a [string]; a character is its code unit
      (code units up to 255 are covered, the ASCII classes are exact);
    - an integer-valued number is a [Z]; [NaN] is made explicit where a
      number can be one ([jsnum]);
    - a number that results from a division is a double.  It is kept as
      the exact rational it denotes, and every inexact operation goes
      through [Double.fl], rounding to the nearest binary64 value;
    - [new Date()] reads the wall clock: the clock is an explicit
      sequence of future readings threaded through the validator;
    - the functions of the date library are parameters of the validator;
      they read and compare dates in the time zone of the process, which
      is an input of theirs, and so of the validator;
    - the form and the policy come out of [JSON.parse] unvalidated: a
      field of the form that is missing or no string is [None], a list
      of nationalities may be an array, a text or another value, and a
      call of a method that such a value does not have throws. *)

From stdpp Require Import base list.
From Stdlib Require Import ZArith QArith Qround Qpower Lqa Lia Bool.
From Stdlib Require Import Ascii String DecimalString.
From Stdlib Require Floats.

Local Open Scope Z_scope.

(* ===================================================================== *)
(** ** Doubles *)
(* ===================================================================== *)

Module Double.

Local Open Scope Q_scope.

(** [binade x] is the exponent of the leading bit of [x > 0]:
    [2 ^ binade x <= x < 2 ^ (binade x + 1)]. *)
Definition binade (x : Q) : Z :=
  let k := (Z.log2 (Qnum x) - Z.log2 (Zpos (Qden x)))%Z in
  if Qle_bool (2 ^ k) x then k else (k - 1)%Z.

(** Round to the nearest integer, ties to the even one. *)
Definition round_even (x : Q) : Z :=
  let f := Qfloor x in
  match Qcompare (x - inject_Z f) (1 # 2) with
  | Lt => f
  | Gt => (f + 1)%Z
  | Eq => if Z.even f then f else (f + 1)%Z
  end.

(** The 53-bit significand of the double nearest to [x > 0] and its
    exponent. *)
Definition significand (x : Q) : Z := round_even (x / 2 ^ (binade x - 52)).

Definition fl_pos (x : Q) : Q :=
  inject_Z (significand x) * 2 ^ (binade x - 52).

(** Rounding of a rational to binary64, round-to-nearest-even.  The
    exponent range is not limited: the numbers of this program lie
    between [2 ^ -40] and [2 ^ 40]. *)
Definition fl (x : Q) : Q :=
  match Qnum x with
  | Z0 => 0
  | Zpos _ => Qred (fl_pos x)
  | Zneg _ => Qred (- fl_pos (- x))
  end.

(** The operators [/] and [*] on doubles. *)
Definition div (x y : Q) : Q := fl (x / y).
Definition mul (x y : Q) : Q := fl (x * y).

(** [Math.round]: the nearest integer, ties towards plus infinity. *)
Definition Math_round (x : Q) : Z := Qfloor (x + (1 # 2)).

(** A double literal of the source text. *)
Definition lit (x : Q) : Q := fl x.

(** [x > y] on doubles. *)
Definition gtb (x y : Q) : bool := negb (Qle_bool x y).
Definition ltb (x y : Q) : bool := negb (Qle_bool y x).

(** The rational denoted by a binary64 value of the kernel. *)
Definition of_spec (f : SpecFloat.spec_float) : option Q :=
  match f with
  | SpecFloat.S754_zero _ => Some 0
  | SpecFloat.S754_finite s m e =>
      let v := inject_Z (Zpos m) * 2 ^ e in
      Some (Qred (if s then - v else v))
  | _ => None
  end.

Definition of_float (f : PrimFloat.float) : option Q :=
  of_spec (FloatOps.Prim2SF f).

End Double.

(* ===================================================================== *)
(** ** Validation checks *)
(* ===================================================================== *)

Inductive Status : Type := Pass | Fail | Warning.

Definition Status_eqb (a b : Status) : bool :=
  match a, b with
  | Pass, Pass | Fail, Fail | Warning, Warning => true
  | _, _ => false
  end.

Record ValidationCheck : Type := mkCheck {
  field : string;
  status : Status;
  message : string
}.

Definition len {A} (l : list A) : Z := Z.of_nat (List.length l).

(* ===================================================================== *)
(** ** Strings and numbers of the host language *)
(* ===================================================================== *)

Module JS.

Local Open Scope string_scope.
Local Open Scope Z_scope.

(** A number that may be [NaN]. *)
Inductive jsnum : Type := NaN | Num (n : Z).

Definition num_lt (a b : jsnum) : bool :=
  match a, b with
  | Num x, Num y => x <? y
  | _, _ => false
  end.

Definition num_gt (a b : jsnum) : bool := num_lt b a.

Definition num_add (a b : jsnum) : jsnum :=
  match a, b with
  | Num x, Num y => Num (x + y)
  | _, _ => NaN
  end.

(** [String(n)] for an integer-valued number. *)
Definition Z_toString (n : Z) : string :=
  NilZero.string_of_int (Z.to_int n).

Definition num_toString (a : jsnum) : string :=
  match a with
  | NaN => "NaN"
  | Num n => Z_toString n
  end.

(** A value in a condition: a number is truthy unless it is [0] or [NaN],
    a string unless it is empty. *)
Definition truthy_num (a : jsnum) : bool :=
  match a with
  | NaN => false
  | Num n => negb (n =? 0)
  end.

Definition truthy_str (s : string) : bool :=
  match s with
  | EmptyString => false
  | _ => true
  end.

(** Character classes. *)
Definition code (c : ascii) : N := N_of_ascii c.

Definition between (lo hi : ascii) (c : ascii) : bool :=
  (code lo <=? code c)%N && (code c <=? code hi)%N.

Definition isDigit : ascii -> bool := between "0" "9".
Definition isUpper : ascii -> bool := between "A" "Z".
Definition isFiller (c : ascii) : bool := Ascii.eqb c "<".

(** The class [[A-Z0-9<]]. *)
Definition isMRZChar (c : ascii) : bool := isUpper c || isDigit c || isFiller c.

(** The class [[A-Z0-9]]. *)
Definition isAlnumUpper (c : ascii) : bool := isUpper c || isDigit c.

(** [\s], which is also what [trim] removes: tab, line feed, vertical
    tab, form feed, carriage return, space, no-break space. *)
Definition isSpace (c : ascii) : bool :=
  let n := code c in
  ((9 <=? n) && (n <=? 13) || (n =? 32) || (n =? 160))%N.

Fixpoint forallb (p : ascii -> bool) (s : string) : bool :=
  match s with
  | EmptyString => true
  | String c r => p c && forallb p r
  end.

(** [s.replace(/[class]/g, '')] keeps the characters outside the class;
    [keep p] is that with [p] the complement of the class. *)
Fixpoint keep (p : ascii -> bool) (s : string) : string :=
  match s with
  | EmptyString => EmptyString
  | String c r => if p c then String c (keep p r) else keep p r
  end.

(** [s.replace(/</g, ' ')] *)
Fixpoint map_chars (f : ascii -> ascii) (s : string) : string :=
  match s with
  | EmptyString => EmptyString
  | String c r => String (f c) (map_chars f r)
  end.

Definition filler_to_space (c : ascii) : ascii :=
  if isFiller c then " "%char else c.

Fixpoint drop (n : nat) (s : string) : string :=
  match n, s with
  | O, _ => s
  | S _, EmptyString => EmptyString
  | S n', String _ r => drop n' r
  end.

Fixpoint take (n : nat) (s : string) : string :=
  match n, s with
  | O, _ => EmptyString
  | S _, EmptyString => EmptyString
  | S n', String c r => String c (take n' r)
  end.

(** [s.substring(a, b)]: both indices are clamped to the length and
    swapped when [a > b]. *)
Definition substring (a b : nat) (s : string) : string :=
  let lo := Nat.min a b in
  let hi := Nat.max a b in
  take (hi - lo) (drop lo s).

(** [s.replace(/<+$/, '')]: the trailing run of fillers is removed. *)
Fixpoint strip_trailing_fillers (s : string) : string :=
  match s with
  | EmptyString => EmptyString
  | String c r =>
      if forallb isFiller s then EmptyString
      else String c (strip_trailing_fillers r)
  end.

Fixpoint trim_start (s : string) : string :=
  match s with
  | EmptyString => EmptyString
  | String c r => if isSpace c then trim_start r else s
  end.

Fixpoint trim_end (s : string) : string :=
  match s with
  | EmptyString => EmptyString
  | String c r =>
      if forallb isSpace s then EmptyString else String c (trim_end r)
  end.

(** [s.trim()] *)
Definition trim (s : string) : string := trim_end (trim_start s).

(** [s.split(c)] for a one-character separator: the pieces between the
    occurrences of [c], in order; [cur] is the piece being read, reversed. *)
Fixpoint split_char_from (sep : ascii) (cur : string) (s : string)
  : list string :=
  match s with
  | EmptyString => [cur]
  | String c r =>
      if Ascii.eqb c sep
      then cur :: split_char_from sep EmptyString r
      else split_char_from sep (cur ++ String c EmptyString) r
  end.

Definition split_char (sep : ascii) (s : string) : list string :=
  split_char_from sep EmptyString s.

(** [s.split(c1 c2)] for a two-character separator: the occurrences are
    found from the left and do not overlap. *)
Fixpoint split_pair_from (c1 c2 : ascii) (cur : string) (s : string)
  : list string :=
  match s with
  | EmptyString => [cur]
  | String a r =>
      match r with
      | String b r' =>
          if Ascii.eqb a c1 && Ascii.eqb b c2
          then cur :: split_pair_from c1 c2 EmptyString r'
          else split_pair_from c1 c2 (cur ++ String a EmptyString) r
      | EmptyString => [cur ++ String a EmptyString]
      end
  end.

Definition split_pair (c1 c2 : ascii) (s : string) : list string :=
  split_pair_from c1 c2 EmptyString s.

(** [/^[class]{lo,hi}$/.test(s)]: the repetition takes characters of the
    class as long as it may, and the end of the text must follow. *)
Fixpoint consume (p : ascii -> bool) (budget : nat) (s : string)
  : nat * string :=
  match budget, s with
  | S b, String c r =>
      if p c then let '(k, rest) := consume p b r in (S k, rest)
      else (O, s)
  | _, _ => (O, s)
  end.

Definition test_class_repeat (p : ascii -> bool) (lo hi : nat) (s : string)
  : bool :=
  let '(k, rest) := consume p hi s in
  (lo <=? k)%nat && negb (truthy_str rest).

(** [s.includes(sub)] on texts. *)
Fixpoint str_includes (sub : string) (s : string) : bool :=
  String.prefix sub s
  || match s with
     | EmptyString => false
     | String _ rest => str_includes sub rest
     end.

(** Digits of a numeral in the given radix. *)
Definition digit_value (radix : Z) (c : ascii) : option Z :=
  let n := Z.of_N (code c) in
  let v :=
    if isDigit c then n - 48
    else if isUpper c then n - 65 + 10
    else if between "a" "z" c then n - 97 + 10
    else radix in
  if v <? radix then Some v else None.

Fixpoint parse_digits (radix : Z) (acc : option Z) (s : string) : option Z :=
  match s with
  | EmptyString => acc
  | String c r =>
      match digit_value radix c with
      | Some v =>
          parse_digits radix
            (Some (match acc with Some a => a * radix + v | None => v end)) r
      | None => acc
      end
  end.

(** [parseInt(s)] without a radix: leading white space, a sign, the
    prefix [0x] or [0X] for radix 16, then the longest run of digits;
    [NaN] when that run is empty. *)
Definition parseInt (s : string) : jsnum :=
  let s := trim_start s in
  let '(sign, s) :=
    match s with
    | String "-" r => (-1, r)
    | String "+" r => (1, r)
    | _ => (1, s)
    end in
  let '(radix, s) :=
    match s with
    | String "0" (String "x" r) => (16, r)
    | String "0" (String "X" r) => (16, r)
    | _ => (10, s)
    end in
  match parse_digits radix None s with
  | Some v => Num (sign * v)
  | None => NaN
  end.

End JS.

Import JS.

(* ===================================================================== *)
(** ** MRZParser *)
(* ===================================================================== *)

Record MRZData : Type := mkMRZData {
  mrz_documentType : string;
  mrz_issuingCountry : string;
  mrz_documentNumber : string;
  mrz_dateOfBirth : string;
  mrz_expiryDate : string;
  mrz_nationality : string;
  mrz_surname : string;
  mrz_givenNames : string;
  mrz_sex : string;
  mrz_checksumValid : bool
}.

Module MRZParser.

Local Open Scope string_scope.
Local Open Scope Z_scope.

Definition strlen (s : string) : Z := Z.of_nat (String.length s).

(** [parseDate]: [YYMMDD] to [YYYY-MM-DD], the century chosen at 50. *)
Definition parseDate (dateStr : string) : string :=
  if negb (truthy_str dateStr) || negb (strlen dateStr =? 6) then ""
  else
    let year := parseInt (substring 0 2 dateStr) in
    let month := substring 2 4 dateStr in
    let day := substring 4 6 dateStr in
    let fullYear :=
      if num_lt year (Num 50) then num_add (Num 2000) year
      else num_add (Num 1900) year in
    (num_toString fullYear ++ "-" ++ month ++ "-" ++ day)%string.

Definition weights (i : nat) : Z :=
  match (i mod 3)%nat with
  | O => 7
  | S O => 3
  | _ => 1
  end.

(** The value of one character in the check-digit sum. *)
Definition char_value (char : ascii) : jsnum :=
  if between "0" "9" char then parseInt (String char EmptyString)
  else if between "A" "Z" char then Num (Z.of_N (code char) - 65 + 10)
  else Num 0.

Definition num_mul_add (sum value : jsnum) (w : Z) : jsnum :=
  match value with
  | Num v => num_add sum (Num (v * w))
  | NaN => NaN
  end.

(** The loop of [validateChecksum] from index [i] on, [data] being the
    characters not yet read. *)
Fixpoint checksum_loop (data : string) (i : nat) (sum : jsnum) : jsnum :=
  match data with
  | EmptyString => sum
  | String char rest =>
      checksum_loop rest (S i) (num_mul_add sum (char_value char) (weights i))
  end.

Definition num_mod10 (a : jsnum) : jsnum :=
  match a with
  | Num n => Num (Z.rem n 10)
  | NaN => NaN
  end.

Definition validateChecksum (data checksum : string) : bool :=
  let sum := checksum_loop data 0 (Num 0) in
  let calculatedChecksum := num_toString (num_mod10 sum) in
  String.eqb calculatedChecksum checksum.

(** [names[k]?.replace(/</g, ' ').trim() || ''] *)
Definition name_part (names : list string) (k : nat) : string :=
  match List.nth_error names k with
  | Some n => trim (map_chars filler_to_space n)
  | None => ""
  end.

Definition parseTD3 (line1 line2 : string) : MRZData :=
  let documentType := strip_trailing_fillers (substring 0 2 line1) in
  let issuingCountry := strip_trailing_fillers (substring 2 5 line1) in
  let names := split_pair "<" "<" (substring 5 44 line1) in
  let surname := name_part names 0 in
  let givenNames := name_part names 1 in
  let documentNumber := strip_trailing_fillers (substring 0 9 line2) in
  let documentNumberChecksum := substring 9 10 line2 in
  let nationality := strip_trailing_fillers (substring 10 13 line2) in
  let dateOfBirth := parseDate (substring 13 19 line2) in
  let dobChecksum := substring 19 20 line2 in
  let sex := substring 20 21 line2 in
  let expiryDate := parseDate (substring 21 27 line2) in
  let expiryChecksum := substring 27 28 line2 in
  let checksumValid :=
    validateChecksum (substring 0 9 line2) documentNumberChecksum
    && validateChecksum (substring 13 19 line2) dobChecksum
    && validateChecksum (substring 21 27 line2) expiryChecksum in
  mkMRZData documentType issuingCountry documentNumber dateOfBirth
    expiryDate nationality surname givenNames sex checksumValid.

Definition parseTD1 (line1 line2 line3 : string) : MRZData :=
  let documentType := strip_trailing_fillers (substring 0 2 line1) in
  let issuingCountry := strip_trailing_fillers (substring 2 5 line1) in
  let documentNumber := strip_trailing_fillers (substring 5 14 line1) in
  let dateOfBirth := parseDate (substring 0 6 line2) in
  let sex := substring 7 8 line2 in
  let expiryDate := parseDate (substring 8 14 line2) in
  let nationality := strip_trailing_fillers (substring 15 18 line2) in
  let names := split_pair "<" "<" line3 in
  let surname := name_part names 0 in
  let givenNames := name_part names 1 in
  mkMRZData documentType issuingCountry documentNumber dateOfBirth
    expiryDate nationality surname givenNames sex true.

(** [line.replace(/[^A-Z0-9<]/g, '')] *)
Definition clean (line : string) : string := keep isMRZChar line.

(** [parseMRZ]: [None] is the [null] result. *)
Definition parseMRZ (mrzLines : list string) : option MRZData :=
  if len mrzLines <? 2 then None
  else
    let lines := List.map clean mrzLines in
    match lines with
    | [l0; l1] =>
        if (strlen l0 =? 44) && (strlen l1 =? 44)
        then Some (parseTD3 l0 l1) else None
    | [l0; l1; l2] =>
        if strlen l0 =? 30 then Some (parseTD1 l0 l1 l2) else None
    | _ => None
    end.

(** The loop of [extractMRZFromText] over the trimmed lines. *)
Definition mrzPattern (s : string) : bool := test_class_repeat isMRZChar 28 44 s.

Definition select_line (mrzLines : list string) (line : string) : list string :=
  let cleanLine := keep (fun c => negb (isSpace c)) line in
  if mrzPattern cleanLine then mrzLines ++ [cleanLine] else mrzLines.

Definition extractMRZFromText (text : string) : list string :=
  let lines := List.map trim (split_char "010" text) in
  List.fold_left select_line lines [].

End MRZParser.

(* ===================================================================== *)
(** ** The wall clock, dates and exceptions *)
(* ===================================================================== *)

(** A [Date] object is its time value in milliseconds since the epoch;
    [None] is the invalid date, whose time value is [NaN]. *)
Definition Date : Type := option Z.

(** The readings that [new Date()] will return, the next one first. *)
Definition World : Type := nat -> Z.

Definition advance (w : World) : World := fun n => w (S n).

(** What a block of statements does: it returns or it throws. *)
Inductive outcome (A : Type) : Type :=
| Returned (a : A)
| Thrown.
Arguments Returned {A} a.
Arguments Thrown {A}.

(** Computations that read the clock and may throw. *)
Definition M (A : Type) : Type := World -> outcome A * World.

Definition ret {A} (a : A) : M A := fun w => (Returned a, w).

Definition bind {A B} (m : M A) (k : A -> M B) : M B :=
  fun w =>
    match m w with
    | (Returned a, w') => k a w'
    | (Thrown, w') => (Thrown, w')
    end.

Definition lift {A} (o : outcome A) : M A := fun w => (o, w).

(** [new Date()] *)
Definition newDate : M Date := fun w => (Returned (Some (w O)), advance w).

(** [try { m } catch { h }] *)
Definition try_catch {A} (m : M A) (h : M A) : M A :=
  fun w =>
    match m w with
    | (Returned a, w') => (Returned a, w')
    | (Thrown, w') => h w'
    end.

#[global] Instance M_ret : MRet M := @ret.
#[global] Instance M_bind : MBind M := fun A B k m => bind m k.

(** [isBefore(date, dateToCompare)] compares the time values; a
    comparison with [NaN] is false. *)
Definition isBefore (date dateToCompare : Date) : bool :=
  match date, dateToCompare with
  | Some a, Some b => a <? b
  | _, _ => false
  end.

(* ===================================================================== *)
(** ** DocumentValidator *)
(* ===================================================================== *)

Record ExtractedField : Type := mkField {
  value : string;
  field_confidence : Z
}.

Record ExtractedData : Type := mkExtracted {
  ex_documentNumber : option ExtractedField;
  ex_fullName : option ExtractedField;
  ex_dateOfBirth : option ExtractedField;
  ex_dateOfIssue : option ExtractedField;
  ex_expiryDate : option ExtractedField;
  ex_nationality : option ExtractedField;
  ex_issuingCountry : option ExtractedField;
  ex_sex : option ExtractedField;
  ex_placeOfBirth : option ExtractedField
}.

(** The form and the policy are what [JSON.parse] makes of two texts of
    the request; nothing checks them against their interfaces.  A field
    of the form may be missing or hold a value that is no string: [None]
    is such a field. *)
Record ApplicantForm : Type := mkForm {
  form_name : option string;
  form_dateOfBirth : option string;
  form_passportNumber : option string;
  form_nationality : option string;
  form_intendedVisaType : option string
}.

(** A list of nationalities as it may come out of [JSON.parse]: an array
    (of its elements only the strings can equal a nationality, and only
    they are kept); a text, which has a method [includes] of its own; or
    a truthy value of another kind (a number, [true], an object), which
    has none. *)
Inductive Nationalities : Type :=
| NationalityArray (l : list string)
| NationalityText (s : string)
| NotAList.

(** The numeric bounds of a policy are integers (the form that builds a
    policy reads them with [parseInt]).  The per-visa-type requirements
    are not read by the validator and are left out. *)
Record EligibilityPolicy : Type := mkPolicy {
  minAge : option Z;
  maxAge : option Z;
  allowedNationalities : option Nationalities;
  blockedNationalities : option Nationalities;
  minPassportValidity : option Z
}.

Record Eligibility : Type := mkEligibility {
  eligible : bool;
  confidence : Z;
  reasons : list string
}.

Module DocumentValidator.

Local Open Scope string_scope.
Local Open Scope Z_scope.

(** [extractedData.f?.value] when it is truthy. *)
Definition value_of (f : option ExtractedField) : option string :=
  match f with
  | Some x => if truthy_str (value x) then Some (value x) else None
  | None => None
  end.

(** [policy.b && ...]: an optional numeric bound in a condition counts
    when it is present and truthy. *)
Definition bound (b : option Z) : option Z :=
  match b with
  | Some n => if truthy_num (Num n) then Some n else None
  | None => None
  end.

Definition push {A} (l : list A) (x : A) : list A := l ++ [x].

(** *** Arrays *)

(** [a[i] = v]: an index past the end extends the array, the cells in
    between being holes. *)
Definition array_set {A} (hole : A) (i : nat) (v : A) (a : list A) : list A :=
  if (i <? List.length a)%nat then <[i:=v]> a
  else a ++ replicate (i - List.length a) hole ++ [v].

Definition row (matrix : list (list nat)) (i : nat) : list nat :=
  default [] (matrix !! i).

(** [matrix[i][j]] *)
Definition cell (matrix : list (list nat)) (i j : nat) : nat :=
  default 0%nat (row matrix i !! j).

(** [matrix[i][j] = v]; the row [i] exists whenever the source does this. *)
Definition set_cell (matrix : list (list nat)) (i j v : nat)
  : list (list nat) :=
  <[i := array_set 0%nat j v (row matrix i)]> matrix.

(** [a.charAt(i) === b.charAt(j)] *)
Definition charAt_eqb (a : string) (i : nat) (b : string) (j : nat) : bool :=
  match String.get i a, String.get j b with
  | Some x, Some y => Ascii.eqb x y
  | None, None => true
  | _, _ => false
  end.

Definition min3 (a b c : nat) : nat := Nat.min (Nat.min a b) c.

(** *** levenshteinDistance *)

Definition init_rows (n2 : nat) : list (list nat) :=
  fold_left (fun matrix i => array_set [] i [i] matrix) (seq 0 (S n2)) [].

Definition init_cols (n1 : nat) (matrix : list (list nat)) : list (list nat) :=
  fold_left (fun matrix j => set_cell matrix 0 j j) (seq 0 (S n1)) matrix.

Definition fill_cell (str1 str2 : string) (i : nat)
  (matrix : list (list nat)) (j : nat) : list (list nat) :=
  if charAt_eqb str2 (i - 1) str1 (j - 1)
  then set_cell matrix i j (cell matrix (i - 1) (j - 1))
  else set_cell matrix i j
         (min3 (cell matrix (i - 1) (j - 1) + 1)
               (cell matrix i (j - 1) + 1)
               (cell matrix (i - 1) j + 1)).

Definition fill_row (str1 str2 : string) (matrix : list (list nat)) (i : nat)
  : list (list nat) :=
  fold_left (fill_cell str1 str2 i) (seq 1 (String.length str1)) matrix.

Definition fill (str1 str2 : string) (matrix : list (list nat))
  : list (list nat) :=
  fold_left (fill_row str1 str2) (seq 1 (String.length str2)) matrix.

Definition levenshteinDistance (str1 str2 : string) : nat :=
  let matrix := init_rows (String.length str2) in
  let matrix := init_cols (String.length str1) matrix in
  let matrix := fill str1 str2 matrix in
  cell matrix (String.length str2) (String.length str1).

(** *** calculateSimilarity *)

Definition calculateSimilarity (str1 str2 : string) : Q :=
  let longer :=
    if (String.length str2 <? String.length str1)%nat then str1 else str2 in
  let shorter :=
    if (String.length str2 <? String.length str1)%nat then str2 else str1 in
  if (String.length longer =? 0)%nat then 1%Q
  else
    let editDistance := levenshteinDistance longer shorter in
    Double.div
      (inject_Z (Z.of_nat (String.length longer) - Z.of_nat editDistance))
      (inject_Z (Z.of_nat (String.length longer))).

(** [x.toFixed(0)]: the nearest integer, the larger one at a tie, after
    the sign. *)
Definition toFixed0 (x : Q) : string :=
  if Double.ltb x 0
  then ("-" ++ Z_toString (Qfloor (- x + (1 # 2))))%string
  else Z_toString (Qfloor (x + (1 # 2))).

(** The status of the name rule. *)
Definition name_status (similarity : Q) : Status :=
  if Double.gtb similarity (Double.lit (8 # 10)) then Pass
  else if Double.gtb similarity (Double.lit (6 # 10)) then Warning
  else Fail.

(** *** validateDateFormat *)

(** [/^\d{4}-\d{2}-\d{2}$/.test(date)] *)
Definition iso8601Pattern (date : string) : bool :=
  (String.length date =? 10)%nat
  && forallb isDigit (substring 0 4 date)
  && String.eqb (substring 4 5 date) "-"
  && forallb isDigit (substring 5 7 date)
  && String.eqb (substring 7 8 date) "-"
  && forallb isDigit (substring 8 10 date).

Definition validateDateFormat (date fieldName : string) : ValidationCheck :=
  let isValid := iso8601Pattern date in
  mkCheck fieldName (if isValid then Pass else Fail)
    (if isValid then "Date format is valid (ISO 8601)"
     else "Date format is invalid").

Section Library.

(** The functions of the date library and [String.prototype.toUpperCase].
    The date library reads a date as midnight in the time zone of the
    process and takes its calendar differences in that zone: the zone is
    an input of these functions, and through them of the validator, as
    the clock is. *)
Variable Zone : Type.
Variable parseISO : Zone -> string -> outcome Date.
Variable differenceInYears : Zone -> Date -> Date -> outcome jsnum.
Variable differenceInMonths : Zone -> Date -> Date -> outcome jsnum.
Variable toUpperCase : string -> string.

Definition validateExpiryDate (zone : Zone) (expiryDate : string)
  : M ValidationCheck :=
  try_catch
    (expiry ← lift (parseISO zone expiryDate);
     now ← newDate;
     let isExpired := isBefore expiry now in
     ret (mkCheck "Expiry Date" (if isExpired then Fail else Pass)
            (if isExpired then "Document has expired" else "Document is valid")))
    (ret (mkCheck "Expiry Date" Fail "Unable to parse expiry date")).

Definition calculateAge (zone : Zone) (dateOfBirth : string) : M jsnum :=
  try_catch
    (now ← newDate;
     birth ← lift (parseISO zone dateOfBirth);
     lift (differenceInYears zone now birth))
    (ret (Num 0)).

Definition normalizeString (str : string) : string :=
  keep isAlnumUpper (toUpperCase str).

(** [normalizeString(x)] for a value [x] that may be no string: the call
    [x.toUpperCase()] throws a [TypeError] then. *)
Definition normalizeValue (x : option string) : outcome string :=
  match x with
  | Some str => Returned (normalizeString str)
  | None => Thrown
  end.

(** The rules of [validateDocument], in the order of the source; each
    takes the checks pushed so far. *)

Definition rule_dateOfBirth_format (e : ExtractedData)
  (checks : list ValidationCheck) : list ValidationCheck :=
  match value_of (ex_dateOfBirth e) with
  | Some v => push checks (validateDateFormat v "Date of Birth")
  | None => checks
  end.

Definition rule_expiryDate (zone : Zone) (e : ExtractedData)
  (checks : list ValidationCheck) : M (list ValidationCheck) :=
  match value_of (ex_expiryDate e) with
  | Some v =>
      let checks := push checks (validateDateFormat v "Expiry Date") in
      c ← validateExpiryDate zone v;
      ret (push checks c)
  | None => ret checks
  end.

Definition rule_mrz (e : ExtractedData) (mrzData : option MRZData)
  (checks : list ValidationCheck) : list ValidationCheck :=
  match mrzData with
  | Some mrz =>
      let checks :=
        push checks
          (mkCheck "MRZ Checksum"
             (if mrz_checksumValid mrz then Pass else Fail)
             (if mrz_checksumValid mrz then "MRZ checksums are valid"
              else "MRZ checksum validation failed")) in
      let checks :=
        match value_of (ex_documentNumber e) with
        | Some v =>
            if truthy_str (mrz_documentNumber mrz) then
              let matches :=
                String.eqb (normalizeString v)
                  (normalizeString (mrz_documentNumber mrz)) in
              push checks
                (mkCheck "Document Number"
                   (if matches then Pass else Warning)
                   (if matches then "Document number matches MRZ"
                    else "Document number differs from MRZ"))
            else checks
        | None => checks
        end in
      match value_of (ex_fullName e) with
      | Some v =>
          let extractedName := normalizeString v in
          let mrzName :=
            normalizeString
              (mrz_givenNames mrz ++ " " ++ mrz_surname mrz)%string in
          let similarity := calculateSimilarity extractedName mrzName in
          push checks
            (mkCheck "Name" (name_status similarity)
               ("Name similarity: "
                ++ toFixed0 (Double.mul similarity 100) ++ "%")%string)
      | None => checks
      end
  | None => checks
  end.

(** The first operand of [===] is evaluated first; when the passport
    number of the form is no string it throws, outside any [try] of the
    validator (the handler catches the error and answers 500). *)
Definition rule_form_passport (e : ExtractedData)
  (applicantForm : option ApplicantForm) (checks : list ValidationCheck)
  : outcome (list ValidationCheck) :=
  match applicantForm, value_of (ex_documentNumber e) with
  | Some form, Some v =>
      match normalizeValue (form_passportNumber form) with
      | Returned formNumber =>
          let docMatch := String.eqb formNumber (normalizeString v) in
          Returned
            (push checks
               (mkCheck "Passport Number Match"
                  (if docMatch then Pass else Fail)
                  (if docMatch then "Passport number matches application"
                   else "Passport number does not match application")))
      | Thrown => Thrown
      end
  | _, _ => Returned checks
  end.

(** [applicantForm.dateOfBirth === value]: a value that is no string is
    equal to no string. *)
Definition rule_form_dateOfBirth (e : ExtractedData)
  (applicantForm : option ApplicantForm) (checks : list ValidationCheck)
  : list ValidationCheck :=
  match applicantForm, value_of (ex_dateOfBirth e) with
  | Some form, Some v =>
      let dobMatch :=
        match form_dateOfBirth form with
        | Some d => String.eqb d v
        | None => false
        end in
      push checks
        (mkCheck "Date of Birth Match" (if dobMatch then Pass else Fail)
           (if dobMatch then "Date of birth matches application"
            else "Date of birth does not match application"))
  | _, _ => checks
  end.

(** [policy.minAge && age < policy.minAge] *)
Definition rule_minAge (p : EligibilityPolicy) (age : jsnum)
  (checks : list ValidationCheck) : list ValidationCheck :=
  match bound (minAge p) with
  | Some b =>
      if num_lt age (Num b) then
        push checks
          (mkCheck "Age Requirement" Fail
             ("Applicant is " ++ num_toString age
              ++ " years old, minimum age is " ++ Z_toString b)%string)
      else checks
  | None => checks
  end.

Definition rule_maxAge (p : EligibilityPolicy) (age : jsnum)
  (checks : list ValidationCheck) : list ValidationCheck :=
  match bound (maxAge p) with
  | Some b =>
      if num_gt age (Num b) then
        push checks
          (mkCheck "Age Requirement" Fail
             ("Applicant is " ++ num_toString age
              ++ " years old, maximum age is " ++ Z_toString b)%string)
      else checks
  | None => checks
  end.

Definition rule_age (zone : Zone) (e : ExtractedData)
  (policy : option EligibilityPolicy) (checks : list ValidationCheck)
  : M (list ValidationCheck) :=
  match policy, value_of (ex_dateOfBirth e) with
  | Some p, Some v =>
      age ← calculateAge zone v;
      ret (rule_maxAge p age (rule_minAge p age checks))
  | _, _ => ret checks
  end.

(** A list in a condition: the empty text is falsy, every array is
    truthy. *)
Definition listed (l : option Nationalities) : option Nationalities :=
  match l with
  | Some (NationalityText EmptyString) => None
  | _ => l
  end.

(** [l.includes(s)]: membership in an array, a search in a text, and a
    [TypeError] on a value that has no such method. *)
Definition includes (l : Nationalities) (s : string) : outcome bool :=
  match l with
  | NationalityArray l => Returned (existsb (String.eqb s) l)
  | NationalityText t => Returned (str_includes s t)
  | NotAList => Thrown
  end.

Definition rule_allowed (p : EligibilityPolicy) (nationality : string)
  (checks : list ValidationCheck) : outcome (list ValidationCheck) :=
  match listed (allowedNationalities p) with
  | Some allowed =>
      match includes allowed nationality with
      | Returned found =>
          Returned
            (if negb found then
               push checks
                 (mkCheck "Nationality" Fail
                    ("Nationality " ++ nationality
                     ++ " is not in allowed list")%string)
             else checks)
      | Thrown => Thrown
      end
  | None => Returned checks
  end.

Definition rule_blocked (p : EligibilityPolicy) (nationality : string)
  (checks : list ValidationCheck) : outcome (list ValidationCheck) :=
  match listed (blockedNationalities p) with
  | Some blocked =>
      match includes blocked nationality with
      | Returned found =>
          Returned
            (if found then
               push checks
                 (mkCheck "Nationality" Fail
                    ("Nationality " ++ nationality ++ " is blocked")%string)
             else checks)
      | Thrown => Thrown
      end
  | None => Returned checks
  end.

Definition rule_nationality (e : ExtractedData)
  (policy : option EligibilityPolicy) (checks : list ValidationCheck)
  : outcome (list ValidationCheck) :=
  match policy, value_of (ex_nationality e) with
  | Some p, Some nationality =>
      match rule_allowed p nationality checks with
      | Returned checks => rule_blocked p nationality checks
      | Thrown => Thrown
      end
  | _, _ => Returned checks
  end.

Definition rule_validity (zone : Zone) (e : ExtractedData)
  (policy : option EligibilityPolicy) (checks : list ValidationCheck)
  : M (list ValidationCheck) :=
  match policy with
  | Some p =>
      match bound (minPassportValidity p), value_of (ex_expiryDate e) with
      | Some b, Some v =>
          expiry ← lift (parseISO zone v);
          now ← newDate;
          monthsValid ← lift (differenceInMonths zone expiry now);
          if num_lt monthsValid (Num b) then
            ret (push checks
                   (mkCheck "Passport Validity" Fail
                      ("Passport valid for " ++ num_toString monthsValid
                       ++ " months, requires " ++ Z_toString b
                       ++ " months")%string))
          else ret checks
      | _, _ => ret checks
      end
  | None => ret checks
  end.

(** [zone] is the time zone of the process in which the validator is
    called. *)
Definition validateDocument (zone : Zone) (extractedData : ExtractedData)
  (mrzData : option MRZData) (applicantForm : option ApplicantForm)
  (policy : option EligibilityPolicy) : M (list ValidationCheck) :=
  let checks := [] in
  let checks := rule_dateOfBirth_format extractedData checks in
  checks ← rule_expiryDate zone extractedData checks;
  let checks := rule_mrz extractedData mrzData checks in
  checks ← lift (rule_form_passport extractedData applicantForm checks);
  let checks := rule_form_dateOfBirth extractedData applicantForm checks in
  checks ← rule_age zone extractedData policy checks;
  checks ← lift (rule_nationality extractedData policy checks);
  rule_validity zone extractedData policy checks.

End Library.

Arguments validateExpiryDate {Zone} parseISO zone expiryDate.
Arguments calculateAge {Zone} parseISO differenceInYears zone dateOfBirth.
Arguments rule_expiryDate {Zone} parseISO zone e checks.
Arguments rule_age {Zone} parseISO differenceInYears zone e policy checks.
Arguments rule_validity {Zone} parseISO differenceInMonths zone e policy
  checks.
Arguments validateDocument {Zone} parseISO differenceInYears
  differenceInMonths toUpperCase zone extractedData mrzData applicantForm
  policy.

(** *** assessEligibility *)

(** [checks.filter(c => c.status === s)] *)
Definition with_status (s : Status) (checks : list ValidationCheck)
  : list ValidationCheck :=
  List.filter (fun c => Status_eqb (status c) s) checks.

(** [checks.length || 1] *)
Definition or_one (n : Z) : Z := if n =? 0 then 1 else n.

(** [Math.round(((passed + warnings * 0.5) / total) * 100)]: the counts
    are lengths of arrays, which are doubles without error, and so is
    the half of one and their sum. *)
Definition confidence_of (passed warnings total : Z) : Z :=
  Double.Math_round
    (Double.mul
       (Double.div (inject_Z passed + inject_Z warnings * (1 # 2))%Q
                   (inject_Z total))
       100).

Definition assessEligibility (checks : list ValidationCheck)
  (applicantForm : option ApplicantForm) (policy : option EligibilityPolicy)
  : Eligibility :=
  let failedChecks := with_status Fail checks in
  let warningChecks := with_status Warning checks in
  let passedChecks := with_status Pass checks in
  let eligible := len failedChecks =? 0 in
  let totalChecks := or_one (len checks) in
  let confidence :=
    confidence_of (len passedChecks) (len warningChecks) totalChecks in
  let reasons1 :=
    if 0 <? len failedChecks
    then List.map (fun c => (field c ++ ": " ++ message c)%string) failedChecks
    else [] in
  let reasons2 :=
    if 0 <? len warningChecks
    then List.map (fun c => ("Warning - " ++ field c ++ ": " ++ message c)%string)
           warningChecks
    else [] in
  let reasons3 :=
    if eligible && (0 <? len passedChecks)
    then ["All validation checks passed"%string] else [] in
  mkEligibility eligible confidence (reasons1 ++ reasons2 ++ reasons3).

(** *** generateRecommendations *)

Definition num_ge (a b : jsnum) : bool :=
  match a, b with
  | Num x, Num y => y <=? x
  | _, _ => false
  end.

Definition reject_header : string :=
  "REJECT APPLICATION: Critical validation failures detected".
Definition review_required_header : string :=
  "MANUAL REVIEW REQUIRED: Low confidence in document extraction".
Definition review_recommended_header : string :=
  "MANUAL REVIEW RECOMMENDED: Moderate confidence level".
Definition approve_header : string :=
  "APPROVE: All checks passed with high confidence".

(** The overall confidence is the rounded mean that the request handler
    computes: an integer-valued number. *)
Definition generateRecommendations (checks : list ValidationCheck)
  (eligibility : Eligibility) (overallConfidence : jsnum) : list string :=
  if negb (eligible eligibility) then
    let failedChecks := with_status Fail checks in
    reject_header
    :: List.map (fun check => ("- Address issue: " ++ field check)%string)
         failedChecks
  else if num_lt overallConfidence (Num 60) then
    [review_required_header; "Request higher quality document images"]
  else if num_lt overallConfidence (Num 80) || (confidence eligibility <? 80)
  then
    let warningChecks := with_status Warning checks in
    review_recommended_header
    :: (if 0 <? len warningChecks then ["Verify discrepancies manually"]
        else [])
  else [approve_header; "Proceed with visa processing"].

(** *** generateSummary *)

(** [f?.value || 'Unknown'] *)
Definition value_or_unknown (f : option ExtractedField) : string :=
  match value_of f with
  | Some v => v
  | None => "Unknown"
  end.

(** [reasons.filter(r => !r.startsWith('Warning')).length] *)
Definition non_warning_reasons (reasons : list string) : Z :=
  len (List.filter (fun r => negb (String.prefix "Warning" r)) reasons).

Definition generateSummary (documentType : string) (eligibility : Eligibility)
  (overallConfidence : jsnum) (extractedData : ExtractedData) : string :=
  let name := value_or_unknown (ex_fullName extractedData) in
  let docNum := value_or_unknown (ex_documentNumber extractedData) in
  let nationality := value_or_unknown (ex_nationality extractedData) in
  let status :=
    if eligible eligibility then "ELIGIBLE" else "NOT ELIGIBLE" in
  let confidenceLevel :=
    if num_ge overallConfidence (Num 80) then "HIGH"
    else if num_ge overallConfidence (Num 60) then "MODERATE"
    else "LOW" in
  ("Document verification complete for " ++ documentType ++ " #" ++ docNum
   ++ " (" ++ name ++ ", " ++ nationality ++ "). Status: " ++ status
   ++ " with " ++ confidenceLevel ++ " confidence ("
   ++ num_toString overallConfidence ++ "%). "
   ++ (if eligible eligibility then "All validation checks passed."
       else "Failed checks: "
            ++ Z_toString (non_warning_reasons (reasons eligibility)) ++ ".")
   ++ " "
   ++ (if num_lt overallConfidence (Num 80) then "Manual review recommended."
       else ""))%string.

End DocumentValidator.

(* ===================================================================== *)
(** ** An instance of the library *)
(* ===================================================================== *)

(** The validator is run on concrete inputs with this instance: the
    calendar dates [YYYY-MM-DD] of [parseISO] (the other notations of
    ISO 8601 that the library reads are not needed and are left out),
    the two calendar differences, and the upper-casing of ASCII letters.
    A time zone is its offset from UTC, in minutes to the east (zones
    without daylight saving time).  None of these functions throws.
    The names without a zone are the functions in UTC. *)
Module DateFns.

Local Open Scope string_scope.
Local Open Scope Z_scope.

Definition msPerDay : Z := 86400000.

Definition isLeapYear (y : Z) : bool :=
  ((y mod 4 =? 0) && negb (y mod 100 =? 0)) || (y mod 400 =? 0).

Definition daysInMonth (y m : Z) : Z :=
  if m =? 2 then (if isLeapYear y then 29 else 28)
  else if (m =? 4) || (m =? 6) || (m =? 9) || (m =? 11) then 30
  else 31.

(** Days from 1970-01-01 to the day [d] of month [m] (1 to 12) of year [y]. *)
Definition days_from_civil (y m d : Z) : Z :=
  let y' := if m <=? 2 then y - 1 else y in
  let era := y' / 400 in
  let yoe := y' - era * 400 in
  let doy := (153 * (if 2 <? m then m - 3 else m + 9) + 2) / 5 + d - 1 in
  let doe := yoe * 365 + yoe / 4 - yoe / 100 + doy in
  era * 146097 + doe - 719468.

(** Year, month (1 to 12) and day of a day number. *)
Definition civil_from_days (z : Z) : Z * Z * Z :=
  let z := z + 719468 in
  let era := z / 146097 in
  let doe := z - era * 146097 in
  let yoe := (doe - doe / 1460 + doe / 36524 - doe / 146096) / 365 in
  let doy := doe - (365 * yoe + yoe / 4 - yoe / 100) in
  let mp := (5 * doy + 2) / 153 in
  let d := doy - (153 * mp + 2) / 5 + 1 in
  let m := if mp <? 10 then mp + 3 else mp - 9 in
  let y := yoe + era * 400 in
  (if m <=? 2 then y + 1 else y, m, d).

Definition digits_value (s : string) : Z :=
  match parseInt s with
  | Num n => n
  | NaN => 0
  end.

(** A time zone: minutes to the east of UTC. *)
Definition Zone : Type := Z.

Definition UTC : Zone := 0.
Definition Tokyo : Zone := 540.

(** The offset of a zone, in milliseconds. *)
Definition offset (zone : Zone) : Z := zone * 60000.

(** The time value whose UTC calendar fields are the local ones of [d]. *)
Definition local (zone : Zone) (d : Date) : Date :=
  match d with
  | Some t => Some (t + offset zone)
  | None => None
  end.

(** A date without a time is midnight of that day in the local zone. *)
Definition parseISO_in (zone : Zone) (argument : string) : outcome Date :=
  Returned
    (if DocumentValidator.iso8601Pattern argument then
       let y := digits_value (substring 0 4 argument) in
       let m := digits_value (substring 5 7 argument) in
       let d := digits_value (substring 8 10 argument) in
       if (1 <=? m) && (m <=? 12) && (1 <=? d) && (d <=? daysInMonth y m)
       then Some (days_from_civil y m d * msPerDay - offset zone)
       else None
     else None).

Definition parseISO : string -> outcome Date := parseISO_in UTC.

(** The calendar fields of a time value and the time within its day. *)
Definition fields (t : Z) : Z * Z * Z * Z :=
  let '(y, m, d) := civil_from_days (t / msPerDay) in
  (y, m, d, t mod msPerDay).

(** The time value of calendar fields; a month or a day out of range
    carries over, as [setMonth] and [setDate] do. *)
Definition make (y m d ms : Z) : Z :=
  let y' := y + (m - 1) / 12 in
  let m' := (m - 1) mod 12 + 1 in
  (days_from_civil y' m' 1 + (d - 1)) * msPerDay + ms.

Definition compareAsc (a b : Z) : Z :=
  if a <? b then -1 else if b <? a then 1 else 0.

Definition setFullYear (year : Z) (t : Z) : Z :=
  let '(_, m, d, ms) := fields t in make year m d ms.

(** The differences are taken on the local calendar fields of the two
    dates. *)
Definition differenceInYears_in (zone : Zone) (dateLeft dateRight : Date)
  : outcome jsnum :=
  Returned
    match local zone dateLeft, local zone dateRight with
    | Some l, Some r =>
        let sign := compareAsc l r in
        let '(yl, _, _, _) := fields l in
        let '(yr, _, _, _) := fields r in
        let difference := Z.abs (yl - yr) in
        let l' := setFullYear 1584 l in
        let r' := setFullYear 1584 r in
        let isLastYearNotFull := compareAsc l' r' =? - sign in
        Num (sign * (difference - (if isLastYearNotFull then 1 else 0)))
    | _, _ => NaN
    end.

Definition isLastDayOfMonth (t : Z) : bool :=
  let '(y, m, d, _) := fields t in d =? daysInMonth y m.

Definition differenceInYears : Date -> Date -> outcome jsnum :=
  differenceInYears_in UTC.

Definition differenceInMonths_in (zone : Zone) (dateLeft dateRight : Date)
  : outcome jsnum :=
  Returned
    match local zone dateLeft, local zone dateRight with
    | Some l, Some r =>
        let sign := compareAsc l r in
        let '(yl, ml, dl, msl) := fields l in
        let '(yr, mr, _, _) := fields r in
        let difference := Z.abs ((yl - yr) * 12 + (ml - mr)) in
        if difference <? 1 then Num 0
        else
          let l1 :=
            if (ml =? 2) && (27 <? dl) then make yl ml 30 msl else l in
          let '(y1, m1, d1, ms1) := fields l1 in
          let l2 := make y1 (m1 - sign * difference) d1 ms1 in
          let isLastMonthNotFull := compareAsc l2 r =? - sign in
          let isLastMonthNotFull :=
            if isLastDayOfMonth l && (difference =? 1) && (compareAsc l r =? 1)
            then false else isLastMonthNotFull in
          Num (sign * (difference - (if isLastMonthNotFull then 1 else 0)))
    | _, _ => NaN
    end.

Definition upper_char (c : ascii) : ascii :=
  if between "a" "z" c then ascii_of_N (code c - 32) else c.

Definition differenceInMonths : Date -> Date -> outcome jsnum :=
  differenceInMonths_in UTC.

Definition toUpperCase (s : string) : string := map_chars upper_char s.

Definition validateDocument_in (zone : Zone) :=
  DocumentValidator.validateDocument parseISO_in differenceInYears_in
    differenceInMonths_in toUpperCase zone.

Definition validateDocument := validateDocument_in UTC.

Definition validateExpiryDate :=
  DocumentValidator.validateExpiryDate parseISO_in UTC.

(** The clock stands at [t]. *)
Definition frozen (t : Z) : World := fun _ => t.

(** The clock reads [t] once and [t'] from then on. *)
Definition ticking (t t' : Z) : World :=
  fun n => match n with O => t | S _ => t' end.

(** Midnight of a day, as a time value. *)
Definition midnight (y m d : Z) : Z := days_from_civil y m d * msPerDay.

End DateFns.

(* ===================================================================== *)
(** ** The request handler *)
(* ===================================================================== *)

(** The functions of the route that are free of regular-expression search
    over the whole text, and the block of the handler that completes the
    extracted fields from the MRZ record. *)
Module Route.

Local Open Scope string_scope.
Local Open Scope Z_scope.

(** [/(\d{2})[\/\-](\d{2})[\/\-](\d{4})/] at the start of [s]: the three
    groups. *)
Definition isDateSeparator (c : ascii) : bool :=
  Ascii.eqb c "/" || Ascii.eqb c "-".

Definition dmy_at (s : string) : option (string * string * string) :=
  let d := substring 0 2 s in
  let m := substring 3 5 s in
  let y := substring 6 10 s in
  if (String.length (substring 0 10 s) =? 10)%nat
     && JS.forallb isDigit d
     && JS.forallb isDateSeparator (substring 2 3 s)
     && JS.forallb isDigit m
     && JS.forallb isDateSeparator (substring 5 6 s)
     && JS.forallb isDigit y
  then Some (d, m, y) else None.

(** [s.match(...)]: the match that starts first. *)
Fixpoint match_dmy (s : string) : option (string * string * string) :=
  match dmy_at s with
  | Some groups => Some groups
  | None =>
      match s with
      | EmptyString => None
      | String _ rest => match_dmy rest
      end
  end.

Definition normalizeDate (dateStr : string) : string :=
  if DocumentValidator.iso8601Pattern dateStr then dateStr
  else
    match match_dmy dateStr with
    | Some (d, m, y) => (y ++ "-" ++ m ++ "-" ++ d)%string
    | None => dateStr
    end.

(** [s.startsWith(c)] for a one-character [c]. *)
Definition startsWith (c : ascii) (s : string) : bool :=
  match s with
  | String a _ => Ascii.eqb a c
  | EmptyString => false
  end.

Section Lower.

(** [String.prototype.toLowerCase] *)
Variable toLowerCase : string -> string.

Definition determineDocumentType (text : string) (mrzData : option MRZData)
  : string :=
  let textLower := toLowerCase text in
  let fromMRZ :=
    match mrzData with
    | Some mrz =>
        let docType := mrz_documentType mrz in
        if truthy_str docType then
          if startsWith "P" docType then Some "Passport"
          else if startsWith "I" docType then Some "ID Card"
          else if startsWith "V" docType then Some "Visa"
          else None
        else None
    | None => None
    end in
  match fromMRZ with
  | Some label => label
  | None =>
      if str_includes "passport" textLower then "Passport"
      else if str_includes "visa" textLower then "Visa"
      else if str_includes "identity" textLower
              || str_includes "national id" textLower then "National ID"
      else if str_includes "driving" textLower
              || str_includes "driver" textLower
              || str_includes "licence" textLower then "Driving Licence"
      else "Unknown Document"
  end.

End Lower.

(** [if (!fields.f && v) fields.f = { value: v, confidence: 90 }] *)
Definition fill_field (f : option ExtractedField) (v : string)
  : option ExtractedField :=
  match f with
  | Some _ => f
  | None => if truthy_str v then Some (mkField v 90) else None
  end.

(** [if (!fields.fullName) fields.fullName = { value: v, confidence: 90 }] *)
Definition fill_name (f : option ExtractedField) (v : string)
  : option ExtractedField :=
  match f with
  | Some _ => f
  | None => Some (mkField v 90)
  end.

(** The block of [POST] that follows [// Enhance extracted fields with
    MRZ data]. *)
Definition enhanceWithMRZ (extractedFields : ExtractedData)
  (mrzData : option MRZData) : ExtractedData :=
  match mrzData with
  | Some mrz =>
      mkExtracted
        (fill_field (ex_documentNumber extractedFields)
           (mrz_documentNumber mrz))
        (fill_name (ex_fullName extractedFields)
           (trim (mrz_givenNames mrz ++ " " ++ mrz_surname mrz)))
        (fill_field (ex_dateOfBirth extractedFields) (mrz_dateOfBirth mrz))
        (ex_dateOfIssue extractedFields)
        (fill_field (ex_expiryDate extractedFields) (mrz_expiryDate mrz))
        (fill_field (ex_nationality extractedFields) (mrz_nationality mrz))
        (ex_issuingCountry extractedFields)
        (fill_field (ex_sex extractedFields) (mrz_sex mrz))
        (ex_placeOfBirth extractedFields)
  | None => extractedFields
  end.

End Route.

(* ===================================================================== *)
(** ** The properties, in the words of the specification *)
(* ===================================================================== *)

Module Spec.

Local Open Scope string_scope.
Local Open Scope Z_scope.

(** The canonical passport of ICAO 9303. *)
Definition icao_line1 : string := "P<UTOERIKSSON<<ANNA<MARIA<<<<<<<<<<<<<<<<<<<".
Definition icao_line2 : string := "L898902C36UTO7408122F1204159ZE184226B<<<<<10".

(** The value of a decimal digit character. *)
Definition digit (c : ascii) : Z := Z.of_N (code c) - Z.of_N (code "0").

Definition digit_chars : list ascii :=
  ["0"; "1"; "2"; "3"; "4"; "5"; "6"; "7"; "8"; "9"]%char.

(** The two-digit year of [YYMMDD]. *)
Definition two_digit_year (s : string) : Z :=
  match s with
  | String a (String b _) => 10 * digit a + digit b
  | _ => 0
  end.

(** The century rule: [20YY] when [YY < 50], else [19YY]. *)
Definition full_year (yy : Z) : Z := if yy <? 50 then 2000 + yy else 1900 + yy.

(** The value of a character of a check-digit field: a digit is its
    value, a letter its position in the alphabet plus 10, the filler 0;
    other characters have none. *)
Definition check_value (c : ascii) : option Z :=
  if isDigit c then Some (digit c)
  else if isUpper c then Some (Z.of_N (code c) - Z.of_N (code "A") + 10)
  else if isFiller c then Some 0
  else None.

Definition value_at (data : string) (i : nat) : Z :=
  match String.get i data with
  | Some c => default 0 (check_value c)
  | None => 0
  end.

(** The sum over the positions [i] of [value(char_i) * weights[i mod 3]]. *)
Definition weighted_sum (data : string) : Z :=
  fold_right Z.add 0
    (List.map (fun i => value_at data i * nth (i mod 3) [7; 3; 1] 0)
       (seq 0 (String.length data))).

(** The same sum with the weight cycle entered at position [i]. *)
Definition weight (n : nat) : Z := nth (n mod 3) [7; 3; 1] 0.

Definition weighted_sum_from (i : nat) (data : string) : Z :=
  fold_right Z.add 0
    (List.map (fun k => value_at data k * weight (i + k))
       (seq 0 (String.length data))).

(** The shapes of candidate lines: two lines of 44 characters; three
    lines of 30 characters; three lines the first of which has 30. *)
Definition td3_shape (lines : list string) : Prop :=
  exists l0 l1, lines = [l0; l1]
    /\ String.length l0 = 44%nat /\ String.length l1 = 44%nat.

Definition td1_shape (lines : list string) : Prop :=
  exists l0 l1 l2, lines = [l0; l1; l2]
    /\ String.length l0 = 30%nat /\ String.length l1 = 30%nat
    /\ String.length l2 = 30%nat.

Definition td1_dispatch (lines : list string) : Prop :=
  exists l0 l1 l2, lines = [l0; l1; l2] /\ String.length l0 = 30%nat.

(** A line of the selector qualifies: only characters of [[A-Z0-9<]],
    and a length from 28 to 44. *)
Definition qualifies (s : string) : bool :=
  forallb isMRZChar s
  && (28 <=? String.length s)%nat && (String.length s <=? 44)%nat.

Definition remove_whitespace (s : string) : string :=
  keep (fun c => negb (isSpace c)) s.

(** The edit distance of the prefixes [take i a] and [take j b], by its
    recurrence. *)
Fixpoint distance (a b : string) (i : nat) : nat -> nat :=
  match i with
  | O => fun j => j
  | S i' =>
      fix along (j : nat) : nat :=
        match j with
        | O => S i'
        | S j' =>
            if DocumentValidator.charAt_eqb a i' b j'
            then distance a b i' j'
            else DocumentValidator.min3
                   (distance a b i' j' + 1) (along j' + 1)
                   (distance a b i' (S j') + 1)
        end
  end.

(** A row of the matrix of [levenshteinDistance] once it is filled. *)
Definition filled (str1 str2 : string) (i : nat) : list nat :=
  distance str2 str1 i <$> seq 0 (S (String.length str1)).

(** The edit distance of the textbooks: a substitution costs 1 unless
    the characters are equal. *)
Fixpoint edit_distance (a b : string) (i : nat) : nat -> nat :=
  match i with
  | O => fun j => j
  | S i' =>
      fix along (j : nat) : nat :=
        match j with
        | O => S i'
        | S j' =>
            DocumentValidator.min3
              (edit_distance a b i' j'
               + (if DocumentValidator.charAt_eqb a i' b j' then 0 else 1))
              (along j' + 1)
              (edit_distance a b i' (S j') + 1)
        end
  end.





(** The confidence of the specification: [100 * (pass + warning / 2) /
    total] rounded to the nearest integer, exactly. *)
Definition exact_confidence (passed warnings total : Z) : Z :=
  Double.Math_round
    (100 * (inject_Z passed + (1 # 2) * inject_Z warnings) / inject_Z total)%Q.

Definition count (s : Status) (checks : list ValidationCheck) : Z :=
  len (DocumentValidator.with_status s checks).

(** A policy with one bound replaced. *)
Definition with_minAge (b : option Z) (p : EligibilityPolicy) :=
  mkPolicy b (maxAge p) (allowedNationalities p) (blockedNationalities p)
    (minPassportValidity p).

Definition with_maxAge (b : option Z) (p : EligibilityPolicy) :=
  mkPolicy (minAge p) b (allowedNationalities p) (blockedNationalities p)
    (minPassportValidity p).

Definition with_minPassportValidity (b : option Z) (p : EligibilityPolicy) :=
  mkPolicy (minAge p) (maxAge p) (allowedNationalities p)
    (blockedNationalities p) b.

(** The world after [j] more readings of the clock. *)
Definition later (j : nat) (w : World) : World := Nat.iter j advance w.

(** A computation reads the clock at most [n] times: its result is the
    same in two worlds that agree on their next [n] readings, and it
    leaves both worlds advanced by the same number of readings. *)
Definition reads_at_most {A} (n : nat) (m : M A) : Prop :=
  forall w1 w2,
    (forall k, (k < n)%nat -> w1 k = w2 k) ->
    fst (m w1) = fst (m w2)
    /\ exists j, (j <= n)%nat
         /\ snd (m w1) = later j w1 /\ snd (m w2) = later j w2.

(** The three checks of the expiry rule. *)
Definition expired_check : ValidationCheck :=
  mkCheck "Expiry Date" Fail "Document has expired".
Definition valid_check : ValidationCheck :=
  mkCheck "Expiry Date" Pass "Document is valid".
Definition unparsed_check : ValidationCheck :=
  mkCheck "Expiry Date" Fail "Unable to parse expiry date".

(** Extracted data that holds an expiry date only. *)
Definition only_expiryDate (v : string) : ExtractedData :=
  mkExtracted None None None None (Some (mkField v 90)) None None None None.

(** A clock that gives [t] for its first three readings and [t'] after. *)
Definition three_then (t t' : Z) : World :=
  fun n => if (n <? 3)%nat then t else t'.

(** Checks of a given status, for examples. *)
Definition some_checks (s : Status) (n : nat) : list ValidationCheck :=
  repeat (mkCheck "Rule" s "text") n.

Definition implies (a b : bool) : bool := if a then b else true.

(** The confidence of the code and the exactly rounded one agree on the
    counts [p], [w] out of [t], and on all counts below [n]. *)
Definition agrees (p w t : nat) : bool :=
  implies (p + w <=? t)%nat
    (DocumentValidator.confidence_of (Z.of_nat p) (Z.of_nat w) (Z.of_nat t)
     =? exact_confidence (Z.of_nat p) (Z.of_nat w) (Z.of_nat t))%Z.

Definition agree_below (n : nat) : bool :=
  List.forallb
    (fun t => List.forallb
       (fun p => List.forallb (fun w => agrees p w t) (seq 0 n)) (seq 0 n))
    (seq 1 (n - 1)).

End Spec.

(* ===================================================================== *)
(** ** Encoders, labels and examples for the further properties *)
(* ===================================================================== *)

(** What a record looks like when it is written as the lines of an MRZ,
    so that the decoder can be checked against it; the labels of the
    validator; data for examples. *)
Module Props.

Local Open Scope string_scope.
Local Open Scope Z_scope.

(** The value of a character in the check-digit sum; a character outside
    the alphabet counts as 0. *)
Definition value_of_char (c : ascii) : Z := default 0 (Spec.check_value c).

(** The check digit of a field and its character. *)
Definition check_digit (data : string) : Z := Spec.weighted_sum data mod 10.

Definition digit_char (k : Z) : ascii := ascii_of_N (Z.to_N (k + 48)).


(** [n] fillers. *)
Fixpoint fillers (n : nat) : string :=
  match n with
  | O => EmptyString
  | S k => String "<" (fillers k)
  end.

(** A field value padded with fillers to the width of its field. *)
Definition pad (width : nat) (v : string) : string :=
  v ++ fillers (width - String.length v).

Fixpoint ends_with_filler (s : string) : bool :=
  match s with
  | EmptyString => false
  | String c EmptyString => isFiller c
  | String _ r => ends_with_filler r
  end.

(** The six characters [YYMMDD] of a date [YYYY-MM-DD]. *)
Definition to_mrz_date (iso : string) : string :=
  substring 2 4 iso ++ substring 5 7 iso ++ substring 8 10 iso.

(** The text [YYYY-MM-DD] of eight digits. *)
Definition iso_text (y1 y2 y3 y4 m1 m2 d1 d2 : ascii) : string :=
  String y1 (String y2 (String y3 (String y4 (String "-"
    (String m1 (String m2 (String "-" (String d1 (String d2 ""))))))))).

(** The year of a date [YYYY-MM-DD]. *)
Definition year_of (iso : string) : Z :=
  match iso with
  | String a (String b (String c (String d _))) =>
      1000 * Spec.digit a + 100 * Spec.digit b + 10 * Spec.digit c
      + Spec.digit d
  | _ => 0
  end.
(** The words of a name, joined by [sep]. *)
Fixpoint join (sep : ascii) (words : list string) : string :=
  match words with
  | [] => EmptyString
  | [w] => w
  | w :: rest => w ++ String sep (join sep rest)
  end.

(** A word of a name: capital letters, at least one. *)
Definition is_word (w : string) : Prop :=
  w <> EmptyString /\ JS.forallb isUpper w = true.

(** The name block of a line: the surname, two fillers, the given
    names, fillers up to the width of the block. *)
Definition name_block (surname given : list string) (k : nat) : string :=
  join "<" surname ++ "<<" ++ join "<" given ++ fillers k.

(** The check character of a field. *)
Definition check_char (data : string) : ascii :=
  digit_char (check_digit data).

(** The two lines of a passport: type, country and names; number,
    nationality, dates and sex, each checked field followed by its check
    character, and the sixteen characters that the decoder does not read. *)
Definition encode_line1 (docType country : string)
  (surname given : list string) : string :=
  pad 2 docType ++ pad 3 country
  ++ pad 39 (join "<" surname ++ "<<" ++ join "<" given).

Definition encode_line2 (number nationality dateOfBirth sex expiryDate
  : string) (unread : string) : string :=
  let number := pad 9 number in
  let birth := to_mrz_date dateOfBirth in
  let expiry := to_mrz_date expiryDate in
  number ++ String (check_char number) ""
  ++ pad 3 nationality
  ++ birth ++ String (check_char birth) ""
  ++ sex
  ++ expiry ++ String (check_char expiry) ""
  ++ unread.

(** White space at the end of a text. *)
Fixpoint ends_with_space (s : string) : bool :=
  match s with
  | EmptyString => false
  | String c EmptyString => isSpace c
  | String _ r => ends_with_space r
  end.

(** A value fits a field of the MRZ: it is no longer than the field, it
    does not end with a filler, and it is written in the MRZ alphabet. *)
Definition field_fits (width : nat) (v : string) : Prop :=
  (String.length v <= width)%nat /\ ends_with_filler v = false
  /\ JS.forallb isMRZChar v = true.

(** A date [YYYY-MM-DD] of the hundred years that two digits can name. *)
Definition date_fits (iso : string) : Prop :=
  DocumentValidator.iso8601Pattern iso = true /\ 1950 <= year_of iso <= 2049.

Definition names_fit (width : nat) (surname given : list string) : Prop :=
  Forall is_word surname /\ Forall is_word given
  /\ (String.length (join "<" surname ++ "<<" ++ join "<" given) <= width)%nat.

(** A text of [n] characters of the MRZ alphabet. *)
Definition text_fits (n : nat) (s : string) : Prop :=
  String.length s = n /\ JS.forallb isMRZChar s = true.

(** The first two lines of an identity card: type, country and number;
    the two dates, each followed by a character that the decoder does not
    read, the sex between them, and the nationality. *)
Definition encode_td1_line1 (docType country number unread : string)
  : string :=
  pad 2 docType ++ pad 3 country ++ pad 9 number ++ unread.

Definition encode_td1_line2 (dateOfBirth : string) (check1 : ascii)
  (sex expiryDate : string) (check2 : ascii) (nationality unread : string)
  : string :=
  to_mrz_date dateOfBirth ++ String check1 "" ++ sex
  ++ to_mrz_date expiryDate ++ String check2 "" ++ pad 3 nationality
  ++ unread.

(** The characters of the MRZ alphabet. *)
Definition mrz_chars : list ascii :=
  list_ascii_of_string "ABCDEFGHIJKLMNOPQRSTUVWXYZ0123456789<".

(** The text that [parseDate] writes for the year field [a b]. *)
Definition year_text (a b : ascii) : string :=
  let year := parseInt (String a (String b "")) in
  num_toString
    (if num_lt year (Num 50) then num_add (Num 2000) year
     else num_add (Num 1900) year).

(** The year field can be read as a number: it begins with a digit and
    is not the prefix [0X] of a hexadecimal numeral. *)
Definition year_readable (s : string) : bool :=
  match s with
  | String a (String b _) =>
      isDigit a && negb (Ascii.eqb a "0" && Ascii.eqb b "X")
  | _ => false
  end.

Definition year_text_ok (a b : ascii) : bool :=
  if year_readable (String a (String b ""))
  then (String.length (year_text a b) =? 4)%nat
       && JS.forallb isDigit (year_text a b)
  else String.eqb (year_text a b) "NaN".

Definition year_texts_ok : bool :=
  List.forallb (fun a => List.forallb (year_text_ok a) mrz_chars) mrz_chars.

(** The labels that the validator gives its checks. *)
Definition check_labels : list string :=
  ["Date of Birth"; "Expiry Date"; "MRZ Checksum"; "Document Number"; "Name";
   "Passport Number Match"; "Date of Birth Match"; "Age Requirement";
   "Nationality"; "Passport Validity"].

Definition known_label (c : ValidationCheck) : Prop :=
  In (field c) check_labels.

(** A check under one of the labels [ls]; the labels of the MRZ rule and
    those of the other rules. *)
Definition labelled (ls : list string) (c : ValidationCheck) : Prop :=
  In (field c) ls.

Definition mrz_labels : list string :=
  ["MRZ Checksum"; "Document Number"; "Name"].

Definition other_labels : list string :=
  ["Date of Birth"; "Expiry Date"; "Passport Number Match";
   "Date of Birth Match"; "Age Requirement"; "Nationality";
   "Passport Validity"].

(** The checks [checks] put before the checks that a rule returns. *)
Definition prepend_to (checks : list ValidationCheck)
  (o : outcome (list ValidationCheck)) : outcome (list ValidationCheck) :=
  match o with
  | Returned c => Returned (checks ++ c)%list
  | Thrown => Thrown
  end.

Definition prepend (checks : list ValidationCheck)
  (r : outcome (list ValidationCheck) * World)
  : outcome (list ValidationCheck) * World :=
  (prepend_to checks (fst r), snd r).

(** The two faults of a request that make the validator throw: a
    document number was extracted and the passport number of the form is
    no string; a nationality was extracted and a list of nationalities
    of the policy is a truthy value that is neither an array nor a
    text. *)
Definition form_number_missing (e : ExtractedData)
  (form : option ApplicantForm) : bool :=
  match form, DocumentValidator.value_of (ex_documentNumber e) with
  | Some f, Some _ =>
      match form_passportNumber f with
      | None => true
      | Some _ => false
      end
  | _, _ => false
  end.

Definition is_not_a_list (l : option Nationalities) : bool :=
  match l with
  | Some NotAList => true
  | _ => false
  end.

Definition nationality_list_broken (e : ExtractedData)
  (policy : option EligibilityPolicy) : bool :=
  match policy, DocumentValidator.value_of (ex_nationality e) with
  | Some p, Some _ =>
      is_not_a_list (allowedNationalities p)
      || is_not_a_list (blockedNationalities p)
  | _, _ => false
  end.

(** Examples: the record of the canonical passport, what was read from a
    page, a policy, and a clock. *)
Definition icao_record : MRZData :=
  mkMRZData "P" "UTO" "L898902C3" "1974-08-12" "2012-04-15" "UTO"
    "ERIKSSON" "ANNA MARIA" "F" true.

(** The record of a passport whose name zone holds fillers only. *)
Definition nameless_record : MRZData :=
  mkMRZData "P" "UTO" "L898902C3" "1974-08-12" "2012-04-15" "UTO"
    "" "" "F" true.

Definition read_field (v : string) : option ExtractedField :=
  Some (mkField v 90).

Definition page (number name birth expiry : string) : ExtractedData :=
  mkExtracted (read_field number) (read_field name) (read_field birth) None
    (read_field expiry) None None None None.

Definition nothing_read : ExtractedData :=
  mkExtracted None None None None None None None None None.

(** The form [{}]: none of its fields is there. *)
Definition empty_form : ApplicantForm :=
  mkForm None None None None None.

Definition adults_only : EligibilityPolicy :=
  mkPolicy (Some 18) (Some 100) None None (Some 6).

Definition november_2026 : World :=
  DateFns.frozen (DateFns.midnight 2026 11 1).

(** [String.prototype.toLowerCase] on ASCII letters. *)
Definition lower_char (c : ascii) : ascii :=
  if between "A" "Z" c then ascii_of_N (code c + 32) else c.

Definition toLowerCase (s : string) : string := map_chars lower_char s.

End Props.

(* ===================================================================== *)
(** ** Theorems *)
(* ===================================================================== *)

Module DoubleValidation.
Import Floats.
Local Open Scope float_scope.

(** The rounding model agrees with the binary64 arithmetic of the kernel
    on the computations that matter below. *)
Example fl_agrees_confidence :
  Double.of_float (((11 + 1 * 0.5) / 20) * 100)
  = Some (Double.mul (Double.div (23 # 2) 20) 100).
Proof. vm_compute. reflexivity. Qed.

Example fl_agrees_quotients :
  Double.of_float (7 / 9) = Some (Double.div 7 9)
  /\ Double.of_float (4 / 5) = Some (Double.div 4 5)
  /\ Double.of_float ((1 / 3) * 100) = Some (Double.mul (Double.div 1 3) 100)
  /\ Double.of_float ((15 / 17) * 100)
     = Some (Double.mul (Double.div 15 17) 100).
Proof. vm_compute. repeat split. Qed.

(** The literals [0.8] and [0.6] of the name rule, in hexadecimal. *)
Example fl_agrees_literals :
  Double.of_float 0x1.999999999999ap-1 = Some (Double.lit (8 # 10))
  /\ Double.of_float 0x1.3333333333333p-1 = Some (Double.lit (6 # 10)).
Proof. vm_compute. split; reflexivity. Qed.

End DoubleValidation.

(** *** Rounding to a double *)

Module DoubleFacts.
Import Double.
Local Open Scope Q_scope.

Lemma two_neq_0 : ~ 2 == 0.
Proof. discriminate. Qed.

Lemma pow2_pos (e : Z) : 0 < 2 ^ e.
Proof. apply Qpower_0_lt. reflexivity. Qed.

Lemma pow2_add (a b : Z) : 2 ^ (a + b) == 2 ^ a * 2 ^ b.
Proof. apply Qpower_plus, two_neq_0. Qed.

Lemma pow2_succ (a : Z) : 2 ^ (a + 1) == 2 * 2 ^ a.
Proof. rewrite pow2_add. change (2 ^ 1) with 2. ring. Qed.

Lemma pow2_le (a b : Z) : (a <= b)%Z -> 2 ^ a <= 2 ^ b.
Proof. intros H. apply Qpower_le_compat_l; [exact H | discriminate]. Qed.

Lemma pow2_lt_inv (a b : Z) : 2 ^ a < 2 ^ b -> (a < b)%Z.
Proof. intros H. apply (Qpower_lt_compat_l_inv 2); [exact H | reflexivity]. Qed.

Lemma pow2_Z (n : Z) : (0 <= n)%Z -> inject_Z (2 ^ n) == 2 ^ n.
Proof. intros H. apply (Zpower_Qpower 2 n H). Qed.

Lemma log2_bounds (n : Z) :
  (0 < n)%Z ->
  2 ^ Z.log2 n <= inject_Z n /\ inject_Z n < 2 * 2 ^ Z.log2 n.
Proof.
  intros H. destruct (Z.log2_spec n H) as [Hlo Hhi].
  pose proof (Z.log2_nonneg n) as Hnn.
  rewrite <- pow2_succ.
  rewrite <- !pow2_Z by lia.
  rewrite <- Zle_Qle, <- Zlt_Qlt.
  split; [exact Hlo | ]. replace (Z.log2 n + 1)%Z with (Z.succ (Z.log2 n)) by lia.
  exact Hhi.
Qed.

Lemma binade_spec (x : Q) :
  0 < x -> 2 ^ binade x <= x /\ x < 2 ^ (binade x + 1).
Proof.
  intros Hx. unfold binade.
  destruct x as [a b]. simpl Qnum. simpl Qden.
  assert (0 < a)%Z as Ha.
  { unfold Qlt in Hx. simpl in Hx. lia. }
  destruct (log2_bounds a Ha) as [HAlo HAhi].
  destruct (log2_bounds (Zpos b) eq_refl) as [HBlo HBhi].
  set (la := Z.log2 a) in *. set (lb := Z.log2 (Zpos b)) in *.
  assert (a # b == inject_Z a / inject_Z (Zpos b)) as Hdiv
      by apply Qmake_Qdiv.
  assert (0 < inject_Z (Zpos b)) as HB by reflexivity.
  assert ((a # b) * inject_Z (Zpos b) == inject_Z a) as Hmul.
  { rewrite Hdiv. field. discriminate. }
  set (X := a # b) in *. set (A := inject_Z a) in *.
  set (B := inject_Z (Zpos b)) in *.
  pose proof (pow2_pos (la - lb)) as HK.
  pose proof (pow2_pos lb) as HPB.
  assert (2 ^ (la - lb) * 2 ^ lb == 2 ^ la) as HKB.
  { rewrite <- pow2_add. replace (la - lb + lb)%Z with la by lia. reflexivity. }
  assert (2 ^ (la - lb - 1) * 2 == 2 ^ (la - lb)) as HK1.
  { replace (la - lb)%Z with ((la - lb - 1) + 1)%Z at 2 by lia.
    rewrite pow2_succ. ring. }
  pose proof (pow2_pos (la - lb - 1)) as HK1pos.
  set (K := 2 ^ (la - lb)) in *. set (PA := 2 ^ la) in *.
  set (PB := 2 ^ lb) in *. set (K1 := 2 ^ (la - lb - 1)) in *.
  destruct (Qle_bool K X) eqn:Htest.
  - apply Qle_bool_iff in Htest. split; [exact Htest | ].
    rewrite pow2_succ. fold K.
    apply (Qmult_lt_r _ _ B HB). nra.
  - assert (X < K) as Hlt.
    { apply Qnot_le_lt. intros Hle. apply Qle_bool_iff in Hle. congruence. }
    fold K1. replace (la - lb - 1 + 1)%Z with (la - lb)%Z by lia. fold K.
    split; [ | exact Hlt].
    apply (Qmult_le_r _ _ B HB). nra.
Qed.


Lemma round_even_cases (x : Q) :
  round_even x = Qfloor x
  \/ (round_even x = (Qfloor x + 1)%Z /\ inject_Z (Qfloor x) < x).
Proof.
  unfold round_even.
  destruct (Qcompare_spec (x - inject_Z (Qfloor x)) (1 # 2)) as [H | H | H].
  - destruct (Z.even (Qfloor x)); [left; reflexivity | right].
    split; [reflexivity | lra].
  - left. reflexivity.
  - right. split; [reflexivity | lra].
Qed.

Lemma round_even_le (x : Q) (m : Z) : x <= inject_Z m -> (round_even x <= m)%Z.
Proof.
  intros H. pose proof (Qfloor_le x) as Hfl.
  destruct (round_even_cases x) as [-> | [-> Hlt]].
  - rewrite Zle_Qle. lra.
  - assert (Qfloor x < m)%Z; [ | lia].
    rewrite Zlt_Qlt. lra.
Qed.

Lemma round_even_ge (x : Q) (m : Z) : inject_Z m <= x -> (m <= round_even x)%Z.
Proof.
  intros H.
  assert (m <= Qfloor x)%Z as Hm.
  { rewrite <- (Qfloor_Z m). apply Qfloor_resp_le, H. }
  destruct (round_even_cases x) as [-> | [-> _]]; lia.
Qed.

(** The rounded value of a positive number does not pass a double that
    bounds the number from above. *)
Lemma fl_pos_le (x : Q) (m e : Z) :
  0 < x -> x <= inject_Z m * 2 ^ e ->
  (2 ^ 52 <= m < 2 ^ 53)%Z ->
  fl_pos x <= inject_Z m * 2 ^ e.
Proof.
  intros Hx Hle [Hm1 Hm2].
  destruct (binade_spec x Hx) as [Hb1 Hb2].
  unfold fl_pos, significand.
  set (ex := (binade x - 52)%Z) in *.
  pose proof (pow2_pos ex) as Hpex. pose proof (pow2_pos e) as Hpe.
  assert (2 ^ binade x == 2 ^ 52 * 2 ^ ex) as E1.
  { rewrite <- pow2_add. unfold ex.
    replace (52 + (binade x - 52))%Z with (binade x) by lia. reflexivity. }
  assert (2 ^ (binade x + 1) == 2 ^ 53 * 2 ^ ex) as E2.
  { rewrite <- pow2_add. unfold ex.
    replace (53 + (binade x - 52))%Z with (binade x + 1)%Z by lia. reflexivity. }
  rewrite E1 in Hb1. rewrite E2 in Hb2.
  assert (inject_Z m < 2 ^ 53) as Hm2'.
  { rewrite <- (pow2_Z 53) by lia. rewrite <- Zlt_Qlt. exact Hm2. }
  assert (2 ^ 52 <= inject_Z m) as Hm1'.
  { rewrite <- (pow2_Z 52) by lia. rewrite <- Zle_Qle. exact Hm1. }
  assert (ex <= e)%Z as Hex.
  { assert (2 ^ (52 + ex) < 2 ^ (53 + e)) as Hlt.
    { rewrite !pow2_add. nra. }
    apply pow2_lt_inv in Hlt. lia. }
  assert (x / 2 ^ ex * 2 ^ ex == x) as Hsx.
  { field. intros H0. rewrite H0 in Hpex. discriminate Hpex. }
  destruct (Z.eq_dec ex e) as [Heq | Hne].
  - subst e. apply Qmult_le_compat_r; [ | lra].
    rewrite <- Zle_Qle. apply round_even_le.
    apply (Qmult_le_r _ _ (2 ^ ex) Hpex). lra.
  - assert (round_even (x / 2 ^ ex) <= 2 ^ 53)%Z as Hr.
    { apply round_even_le. rewrite (pow2_Z 53) by lia.
      apply (Qmult_le_r _ _ (2 ^ ex) Hpex). lra. }
    rewrite Zle_Qle in Hr. rewrite (pow2_Z 53) in Hr by lia.
    assert (2 ^ (ex + 1) <= 2 ^ e) as Hp by (apply pow2_le; lia).
    rewrite pow2_succ in Hp.
    change (2 ^ 53) with (2 * 2 ^ 52) in Hr.
    set (R := inject_Z (round_even (x / 2 ^ ex))) in *.
    assert (0 < 2 ^ 52) by reflexivity.
    nra.
Qed.

Lemma fl_pos_nonneg (x : Q) : 0 < x -> 0 <= fl_pos x.
Proof.
  intros Hx. unfold fl_pos, significand.
  pose proof (pow2_pos (binade x - 52)) as Hp.
  apply Qmult_le_0_compat; [ | lra].
  change 0 with (inject_Z 0). rewrite <- Zle_Qle.
  apply round_even_ge. change (inject_Z 0) with 0.
  apply Qle_shift_div_l; lra.
Qed.

Lemma Qnum_pos (x : Q) : (0 < Qnum x)%Z <-> 0 < x.
Proof. unfold Qlt. simpl. lia. Qed.

Lemma fl_nonneg (x : Q) : 0 <= x -> 0 <= fl x.
Proof.
  intros Hx. unfold fl.
  destruct (Qnum x) as [|p|p] eqn:Hn.
  - lra.
  - rewrite Qred_correct. apply fl_pos_nonneg, Qnum_pos. lia.
  - exfalso. unfold Qle in Hx. simpl in Hx. lia.
Qed.

Lemma fl_le (x : Q) (m e : Z) :
  0 <= x -> x <= inject_Z m * 2 ^ e ->
  (2 ^ 52 <= m < 2 ^ 53)%Z ->
  fl x <= inject_Z m * 2 ^ e.
Proof.
  intros Hx Hle Hm. unfold fl.
  destruct (Qnum x) as [|p|p] eqn:Hn.
  - pose proof (pow2_pos e).
    assert (0 < inject_Z m).
    { change 0 with (inject_Z 0). rewrite <- Zlt_Qlt. lia. }
    nra.
  - rewrite Qred_correct. apply fl_pos_le; auto. apply Qnum_pos. lia.
  - exfalso. unfold Qle in Hx. simpl in Hx. lia.
Qed.

Lemma fl_le_1 (x : Q) : 0 <= x -> x <= 1 -> fl x <= 1.
Proof.
  intros H0 H1.
  assert (inject_Z (2 ^ 52) * 2 ^ (-52) == 1) as E by reflexivity.
  rewrite <- E. apply fl_le; [exact H0 | rewrite E; exact H1 | lia].
Qed.

Lemma fl_le_100 (x : Q) : 0 <= x -> x <= 100 -> fl x <= 100.
Proof.
  intros H0 H1.
  assert (inject_Z (100 * 2 ^ 46) * 2 ^ (-46) == 100) as E by reflexivity.
  rewrite <- E. apply fl_le; [exact H0 | rewrite E; exact H1 | lia].
Qed.



Lemma binade_unique (x : Q) (b : Z) :
  0 < x -> 2 ^ b <= x -> x < 2 ^ (b + 1) -> binade x = b.
Proof.
  intros Hx H1 H2. destruct (binade_spec x Hx) as [B1 B2].
  assert (2 ^ b < 2 ^ (binade x + 1)) as L1 by lra.
  assert (2 ^ binade x < 2 ^ (b + 1)) as L2 by lra.
  apply pow2_lt_inv in L1, L2. lia.
Qed.

Lemma binade_proper (x y : Q) : 0 < x -> x == y -> binade x = binade y.
Proof.
  intros Hx Heq. assert (0 < y) as Hy by (rewrite <- Heq; exact Hx).
  destruct (binade_spec y Hy) as [B1 B2].
  apply binade_unique; [exact Hx | rewrite Heq; exact B1 | rewrite Heq; exact B2].
Qed.

Lemma round_even_proper (x y : Q) : x == y -> round_even x = round_even y.
Proof.
  intros Heq. unfold round_even.
  rewrite (Qfloor_comp x y Heq).
  assert (x - inject_Z (Qfloor y) == y - inject_Z (Qfloor y)) as E
      by (rewrite Heq; reflexivity).
  rewrite (Qcompare_comp _ _ E (1 # 2) (1 # 2) (Qeq_refl _)).
  reflexivity.
Qed.

Lemma fl_pos_proper (x y : Q) : 0 < x -> x == y -> fl_pos x == fl_pos y.
Proof.
  intros Hx Heq. unfold fl_pos, significand.
  rewrite (binade_proper x y Hx Heq).
  rewrite (round_even_proper (x / 2 ^ (binade y - 52)) (y / 2 ^ (binade y - 52)))
    by (rewrite Heq; reflexivity).
  reflexivity.
Qed.

(** Equal rationals round to the same double. *)
Lemma fl_proper (x y : Q) : x == y -> fl x = fl y.
Proof.
  intros Heq. unfold fl.
  destruct (Qnum x) as [|p|p] eqn:Hx, (Qnum y) as [|q|q] eqn:Hy;
    try reflexivity;
    try (exfalso; unfold Qeq in Heq; rewrite Hx, Hy in Heq; simpl in Heq; lia).
  - apply Qred_complete, fl_pos_proper; [apply Qnum_pos; lia | exact Heq].
  - apply Qred_complete.
    assert (- x == - y) as Hneg by (rewrite Heq; reflexivity).
    rewrite (fl_pos_proper (- x) (- y)); [reflexivity | | exact Hneg].
    apply Qnum_pos. simpl. lia.
Qed.

End DoubleFacts.

Section MRZ.
Import MRZParser.
Local Open Scope string_scope.
Local Open Scope Z_scope.

(** *** The canonical example *)

(** C5: the TD3 pair of ICAO 9303 decodes to type P, country UTO, surname
    ERIKSSON, given names ANNA MARIA, number L898902C3, nationality UTO,
    date of birth 1974-08-12, sex F, expiry 2012-04-15, with valid check
    digits. *)
Theorem parseMRZ_icao_example :
  parseMRZ [Spec.icao_line1; Spec.icao_line2]
  = Some
      {| mrz_documentType := "P";
         mrz_issuingCountry := "UTO";
         mrz_documentNumber := "L898902C3";
         mrz_dateOfBirth := "1974-08-12";
         mrz_expiryDate := "2012-04-15";
         mrz_nationality := "UTO";
         mrz_surname := "ERIKSSON";
         mrz_givenNames := "ANNA MARIA";
         mrz_sex := "F";
         mrz_checksumValid := true |}.
Proof. vm_compute. reflexivity. Qed.

(** *** Dates *)

Lemma isDigit_cases (c : ascii) : isDigit c = true -> In c Spec.digit_chars.
Proof.
  destruct c as [b0 b1 b2 b3 b4 b5 b6 b7].
  destruct b0, b1, b2, b3, b4, b5, b6, b7; vm_compute;
    intros H; try discriminate H; tauto.
Qed.

Lemma parseDate_year (a b : ascii) (rest : string) :
  isDigit a = true -> isDigit b = true ->
  String.length rest = 4%nat ->
  parseDate (String a (String b rest))
  = (Z_toString (Spec.full_year (10 * Spec.digit a + Spec.digit b))
     ++ "-" ++ substring 0 2 rest ++ "-" ++ substring 2 4 rest)%string.
Proof.
  intros Ha Hb Hrest.
  destruct rest as [|c3 [|c4 [|c5 [|c6 [|? ?]]]]]; try discriminate Hrest.
  apply isDigit_cases in Ha. apply isDigit_cases in Hb.
  unfold Spec.digit_chars in Ha, Hb. simpl in Ha, Hb.
  repeat (destruct Ha as [<- | Ha]; [ | ]); try contradiction;
    repeat (destruct Hb as [<- | Hb]; [ | ]); try contradiction;
    vm_compute; reflexivity.
Qed.

(** C6: a six-digit date [YYMMDD] decodes to [YYYY-MM-DD] with the year
    [20YY] when [YY < 50] and [19YY] otherwise; 49 gives 2049 and 50
    gives 1950. *)
Theorem parseDate_century (s : string) :
  String.length s = 6%nat -> JS.forallb isDigit s = true ->
  parseDate s
  = (Z_toString (Spec.full_year (Spec.two_digit_year s))
     ++ "-" ++ substring 2 4 s ++ "-" ++ substring 4 6 s)%string
  /\ (Spec.two_digit_year s < 50 ->
      Spec.full_year (Spec.two_digit_year s) = 2000 + Spec.two_digit_year s)
  /\ (50 <= Spec.two_digit_year s ->
      Spec.full_year (Spec.two_digit_year s) = 1900 + Spec.two_digit_year s)
  /\ Spec.full_year 49 = 2049 /\ Spec.full_year 50 = 1950.
Proof.
  intros Hlen Hdig.
  destruct s as [|a [|b rest]]; try discriminate Hlen.
  simpl in Hdig. apply andb_prop in Hdig as [Ha Hdig].
  apply andb_prop in Hdig as [Hb _].
  split.
  - rewrite parseDate_year; auto.
    simpl in Hlen. lia.
  - unfold Spec.full_year. repeat split; intros; try reflexivity.
    + destruct (Z.ltb_spec (Spec.two_digit_year (String a (String b rest))) 50);
        [reflexivity | lia].
    + destruct (Z.ltb_spec (Spec.two_digit_year (String a (String b rest))) 50);
        [lia | reflexivity].
Qed.

Lemma parseDate_century_witness :
  parseDate "490812" = "2049-08-12" /\ parseDate "500812" = "1950-08-12".
Proof.
  split.
  - destruct (parseDate_century "490812" eq_refl eq_refl) as [H _].
    rewrite H. vm_compute. reflexivity.
  - destruct (parseDate_century "500812" eq_refl eq_refl) as [H _].
    rewrite H. vm_compute. reflexivity.
Defined.

(** *** Check digits *)

Lemma weights_weight (i : nat) : weights i = Spec.weight i.
Proof.
  unfold weights, Spec.weight.
  pose proof (Nat.mod_upper_bound i 3 ltac:(lia)) as H.
  destruct (i mod 3)%nat as [|[|[|k]]]; try reflexivity; lia.
Qed.

Lemma weight_pos (n : nat) : 0 < Spec.weight n.
Proof.
  unfold Spec.weight.
  pose proof (Nat.mod_upper_bound n 3 ltac:(lia)) as H.
  destruct (n mod 3)%nat as [|[|[|k]]]; simpl; lia.
Qed.

Lemma weighted_sum_from_cons (i : nat) (c : ascii) (r : string) :
  Spec.weighted_sum_from i (String c r)
  = default 0 (Spec.check_value c) * Spec.weight i + Spec.weighted_sum_from (S i) r.
Proof.
  unfold Spec.weighted_sum_from. simpl String.length.
  rewrite <- cons_seq, <- seq_shift. simpl.
  rewrite Nat.add_0_r. f_equal.
  rewrite List.map_map. f_equal.
  apply List.map_ext. intros k.
  unfold Spec.value_at. simpl. f_equal. f_equal. lia.
Qed.

Lemma weighted_sum_from_0 (data : string) :
  Spec.weighted_sum_from 0 data = Spec.weighted_sum data.
Proof. reflexivity. Qed.

Lemma parseInt_digit (c : ascii) :
  isDigit c = true -> parseInt (String c EmptyString) = Num (Spec.digit c).
Proof.
  intros H. apply isDigit_cases in H. unfold Spec.digit_chars in H.
  simpl in H.
  repeat (destruct H as [<- | H]; [vm_compute; reflexivity | ]).
  contradiction.
Qed.

Lemma isMRZChar_check_value (c : ascii) :
  isMRZChar c = true -> exists v, Spec.check_value c = Some v /\ 0 <= v.
Proof.
  unfold isMRZChar, Spec.check_value. intros H.
  destruct (isDigit c) eqn:Hd.
  - eexists; split; [reflexivity | ].
    unfold isDigit, between in Hd. apply andb_prop in Hd as [Hlo _].
    apply N.leb_le in Hlo. unfold Spec.digit. lia.
  - destruct (isUpper c) eqn:Hu.
    + eexists; split; [reflexivity | ].
      unfold isUpper, between in Hu. apply andb_prop in Hu as [Hlo _].
      apply N.leb_le in Hlo. lia.
    + simpl in H. rewrite H. eexists; split; [reflexivity | lia].
Qed.

Lemma char_value_spec (c : ascii) (v : Z) :
  Spec.check_value c = Some v -> char_value c = Num v.
Proof.
  unfold Spec.check_value, char_value.
  change (between "0" "9" c) with (isDigit c).
  change (between "A" "Z" c) with (isUpper c).
  destruct (isDigit c) eqn:Hd.
  - intros [= <-]. apply parseInt_digit, Hd.
  - destruct (isUpper c).
    + intros [= <-]. reflexivity.
    + destruct (isFiller c); intros [= <-]. reflexivity.
Qed.

Lemma checksum_loop_sum (data : string) :
  forall (i : nat) (acc : Z),
    JS.forallb isMRZChar data = true ->
    checksum_loop data i (Num acc) = Num (acc + Spec.weighted_sum_from i data).
Proof.
  induction data as [|c r IH]; intros i acc H.
  - simpl. f_equal. unfold Spec.weighted_sum_from. simpl. lia.
  - simpl in H. apply andb_prop in H as [Hc Hr].
    destruct (isMRZChar_check_value c Hc) as (v & Hv & _).
    simpl. rewrite (char_value_spec c v Hv). simpl.
    rewrite IH by exact Hr.
    rewrite weighted_sum_from_cons, Hv, weights_weight. simpl.
    f_equal. lia.
Qed.

Lemma weighted_sum_from_nonneg (data : string) :
  forall i, JS.forallb isMRZChar data = true -> 0 <= Spec.weighted_sum_from i data.
Proof.
  induction data as [|c r IH]; intros i H.
  - unfold Spec.weighted_sum_from. simpl. lia.
  - simpl in H. apply andb_prop in H as [Hc Hr].
    destruct (isMRZChar_check_value c Hc) as (v & Hv & Hpos).
    rewrite weighted_sum_from_cons, Hv. simpl.
    specialize (IH (S i) Hr). pose proof (weight_pos i). nia.
Qed.

(** C2: on data over digits, capital letters and the filler, the check
    passes exactly when the decimal text of the weighted sum modulo 10,
    with the weights 7, 3, 1 by position, is the check character. *)
Theorem validateChecksum_weighted_sum (data : string) (chk : ascii) :
  JS.forallb isMRZChar data = true ->
  (validateChecksum data (String chk EmptyString) = true
   <-> Z_toString (Spec.weighted_sum data mod 10) = String chk EmptyString)
  /\ Spec.check_value "7" = Some 7
  /\ Spec.check_value "A" = Some 10
  /\ Spec.check_value "Z" = Some 35
  /\ Spec.check_value "<" = Some 0.
Proof.
  intros H. split; [ | repeat split].
  unfold validateChecksum.
  rewrite (checksum_loop_sum data 0 0 H), weighted_sum_from_0. simpl.
  pose proof (weighted_sum_from_nonneg data 0%nat H) as Hpos.
  rewrite weighted_sum_from_0 in Hpos.
  rewrite Z.rem_mod_nonneg by lia.
  apply String.eqb_eq.
Qed.

Lemma validateChecksum_weighted_sum_witness :
  validateChecksum "L898902C3" "6" = true
  /\ Spec.weighted_sum "L898902C3" = 316.
Proof.
  split.
  - apply (validateChecksum_weighted_sum "L898902C3" "6"%char eq_refl).
    vm_compute. reflexivity.
  - vm_compute. reflexivity.
Defined.

(** *** The shapes of the decoder *)

Lemma strlen_eqb (s : string) (n : nat) :
  (strlen s =? Z.of_nat n) = true <-> String.length s = n.
Proof. unfold strlen. rewrite Z.eqb_eq. lia. Qed.

(** What the decoder does on every input: a record comes back exactly
    for two cleaned lines of 44 characters, or for three cleaned lines
    the first of which has 30. *)
Lemma parseMRZ_dispatch (mrzLines : list string) :
  is_Some (parseMRZ mrzLines)
  <-> Spec.td3_shape (List.map clean mrzLines)
      \/ Spec.td1_dispatch (List.map clean mrzLines).
Proof.
  unfold parseMRZ, Spec.td3_shape, Spec.td1_dispatch.
  destruct mrzLines as [|a [|b [|c [|d rest]]]]; simpl.
  - split; [intros [x Hx]; discriminate | ].
    intros [(?&?&H&_) | (?&?&?&H&_)]; discriminate.
  - split; [intros [x Hx]; discriminate | ].
    intros [(?&?&H&_) | (?&?&?&H&_)]; discriminate.
  - change 44 with (Z.of_nat 44).
    destruct (strlen (clean a) =? Z.of_nat 44) eqn:Ha;
      destruct (strlen (clean b) =? Z.of_nat 44) eqn:Hb; simpl.
    + apply strlen_eqb in Ha, Hb. split; [ | intros _; eexists; reflexivity].
      intros _. left. eauto.
    + split; [intros [x Hx]; discriminate | ].
      intros [(?&?&[= <- <-]&_&H2) | (?&?&?&H&_)]; [ | discriminate].
      apply strlen_eqb in H2. congruence.
    + split; [intros [x Hx]; discriminate | ].
      intros [(?&?&[= <- <-]&H1&_) | (?&?&?&H&_)]; [ | discriminate].
      apply strlen_eqb in H1. congruence.
    + split; [intros [x Hx]; discriminate | ].
      intros [(?&?&[= <- <-]&H1&_) | (?&?&?&H&_)]; [ | discriminate].
      apply strlen_eqb in H1. congruence.
  - change 30 with (Z.of_nat 30).
    destruct (strlen (clean a) =? Z.of_nat 30) eqn:Ha.
    + apply strlen_eqb in Ha. split; [ | intros _; eexists; reflexivity].
      intros _. right. eauto.
    + split; [intros [x Hx]; discriminate | ].
      intros [(?&?&H&_) | (?&?&?&[= <- <- <-]&H1)]; [discriminate | ].
      apply strlen_eqb in H1. congruence.
  - destruct (len (a :: b :: c :: d :: rest) <? 2);
      (split; [intros [x Hx]; discriminate | ]);
      intros [(?&?&H&_) | (?&?&?&H&_)]; discriminate.
Qed.

(** C3, at an input where the decoder departs from the stated shapes:
    three candidate lines of 30, 28 and 30 characters, which are neither
    two lines of 44 nor three lines of 30, are decoded as an identity
    card. *)
Theorem parseMRZ_td1_short_second_line :
  let lines :=
    ["I<UTOD231458907<<<<<<<<<<<<<<<";
     "7408122F1204159UTO<<<<<<<<<<";
     "ERIKSSON<<ANNA<MARIA<<<<<<<<<<"] in
  List.map String.length (List.map clean lines) = [30; 28; 30]%nat
  /\ ~ Spec.td3_shape (List.map clean lines)
  /\ ~ Spec.td1_shape (List.map clean lines)
  /\ extractMRZFromText
       "I<UTOD231458907<<<<<<<<<<<<<<<
7408122F1204159UTO<<<<<<<<<<
ERIKSSON<<ANNA<MARIA<<<<<<<<<<" = lines
  /\ parseMRZ lines
     = Some
         {| mrz_documentType := "I";
            mrz_issuingCountry := "UTO";
            mrz_documentNumber := "D23145890";
            mrz_dateOfBirth := "1974-08-12";
            mrz_expiryDate := "2012-04-15";
            mrz_nationality := "UTO";
            mrz_surname := "ERIKSSON";
            mrz_givenNames := "ANNA MARIA";
            mrz_sex := "F";
            mrz_checksumValid := true |}.
Proof.
  cbv zeta.
  split; [vm_compute; reflexivity | ].
  split.
  { intros (l0 & l1 & H & _). vm_compute in H. discriminate H. }
  split.
  { intros (l0 & l1 & l2 & H & _ & H1 & _). vm_compute in H.
    injection H as <- <- <-. discriminate H1. }
  split; vm_compute; reflexivity.
Qed.

(** *** The line selector *)

Lemma keep_all_space (s : string) :
  JS.forallb isSpace s = true -> keep (fun c => negb (isSpace c)) s = "".
Proof.
  induction s as [|c r IH]; simpl; [reflexivity | ].
  intros H. apply andb_prop in H as [Hc Hr].
  rewrite Hc. simpl. auto.
Qed.

Lemma keep_trim_start (s : string) :
  Spec.remove_whitespace (trim_start s) = Spec.remove_whitespace s.
Proof.
  unfold Spec.remove_whitespace.
  induction s as [|c r IH]; simpl; [reflexivity | ].
  destruct (isSpace c) eqn:Hc; simpl; [exact IH | ].
  rewrite Hc. reflexivity.
Qed.

Lemma keep_trim_end (s : string) :
  Spec.remove_whitespace (trim_end s) = Spec.remove_whitespace s.
Proof.
  unfold Spec.remove_whitespace.
  induction s as [|c r IH]; [reflexivity | ].
  cbn [trim_end].
  destruct (JS.forallb isSpace (String c r)) eqn:Hall.
  - symmetry. apply keep_all_space, Hall.
  - simpl. rewrite IH. reflexivity.
Qed.

Lemma remove_whitespace_trim (s : string) :
  Spec.remove_whitespace (trim s) = Spec.remove_whitespace s.
Proof. unfold trim. rewrite keep_trim_end. apply keep_trim_start. Qed.

(** The bounded repetition leaves nothing over exactly when the whole
    text is in the class and fits the budget; it has then counted it. *)
Lemma consume_all (p : ascii -> bool) (budget : nat) :
  forall s,
    snd (consume p budget s) = ""
    <-> JS.forallb p s = true /\ (String.length s <= budget)%nat.
Proof.
  induction budget as [|b IH]; intros s.
  - destruct s as [|c r]; simpl.
    + split; [intros _; split; [reflexivity | lia] | reflexivity].
    + split; [discriminate | intros [_ H]; lia].
  - destruct s as [|c r]; simpl.
    + split; [intros _; split; [reflexivity | lia] | reflexivity].
    + destruct (p c); simpl.
      * specialize (IH r). destruct (consume p b r) as [k rest]. simpl in *.
        rewrite IH. split; intros [H1 H2]; split; auto; lia.
      * split; [discriminate | intros [H _]; discriminate].
Qed.

Lemma consume_count (p : ascii -> bool) (budget : nat) :
  forall s,
    snd (consume p budget s) = "" ->
    fst (consume p budget s) = String.length s.
Proof.
  induction budget as [|b IH]; intros s.
  - destruct s; simpl; [reflexivity | discriminate].
  - destruct s as [|c r]; simpl; [reflexivity | ].
    destruct (p c); simpl; [ | discriminate].
    specialize (IH r). destruct (consume p b r) as [k rest]. simpl in *.
    intros H. rewrite IH by exact H. reflexivity.
Qed.

Lemma truthy_str_empty (s : string) : truthy_str s = false <-> s = "".
Proof. destruct s; simpl; split; congruence. Qed.

Lemma mrzPattern_qualifies (s : string) : mrzPattern s = Spec.qualifies s.
Proof.
  unfold mrzPattern, test_class_repeat, Spec.qualifies.
  pose proof (consume_all isMRZChar 44 s) as Hall.
  pose proof (consume_count isMRZChar 44 s) as Hcount.
  destruct (consume isMRZChar 44 s) as [k rest]. simpl in *.
  destruct (truthy_str rest) eqn:Hrest.
  - assert (rest <> "") as Hne
        by (intros ->; discriminate Hrest).
    rewrite andb_false_r. symmetry.
    destruct (JS.forallb isMRZChar s) eqn:Hf; [ | reflexivity].
    destruct (Nat.leb_spec (String.length s) 44) as [Hle | Hgt].
    + exfalso. apply Hne, Hall. auto.
    + apply andb_false_r.
  - apply truthy_str_empty in Hrest. subst rest.
    destruct Hall as [Hall _]. destruct (Hall eq_refl) as [Hf Hle].
    rewrite Hf, (Hcount eq_refl). simpl.
    apply Nat.leb_le in Hle. rewrite Hle, andb_true_r. reflexivity.
Qed.

Lemma select_lines (lines : list string) :
  forall acc,
    fold_left select_line lines acc
    = (acc ++ List.filter Spec.qualifies
                (List.map Spec.remove_whitespace lines))%list.
Proof.
  induction lines as [|l ls IH]; intros acc; simpl.
  - rewrite app_nil_r. reflexivity.
  - rewrite IH. unfold select_line.
    fold (Spec.remove_whitespace l). rewrite mrzPattern_qualifies.
    destruct (Spec.qualifies (Spec.remove_whitespace l)).
    + rewrite <- app_assoc. reflexivity.
    + reflexivity.
Qed.

Lemma filter_none (lines : list string) :
  (forall line, In line lines ->
     Spec.qualifies (Spec.remove_whitespace line) = false) ->
  List.filter Spec.qualifies (List.map Spec.remove_whitespace lines) = [].
Proof.
  induction lines as [|l ls IH]; simpl; [reflexivity | ].
  intros Hnone. rewrite (Hnone l) by (left; reflexivity).
  apply IH. intros line Hin. apply Hnone. right. exact Hin.
Qed.

(** C8: the selector returns, in the order of the text, the lines that
    once freed of white space consist of characters of [[A-Z0-9<]] only
    and have 28 to 44 of them; when no line qualifies the result is the
    empty sequence. *)
Theorem extractMRZFromText_selects (text : string) :
  extractMRZFromText text
  = List.filter Spec.qualifies
      (List.map Spec.remove_whitespace (split_char "010" text))
  /\ ((forall line, In line (split_char "010" text) ->
         Spec.qualifies (Spec.remove_whitespace line) = false) ->
      extractMRZFromText text = []).
Proof.
  assert (extractMRZFromText text
          = List.filter Spec.qualifies
              (List.map Spec.remove_whitespace (split_char "010" text)))
    as Heq.
  { unfold extractMRZFromText. rewrite select_lines. simpl.
    rewrite List.map_map. f_equal.
    apply List.map_ext, remove_whitespace_trim. }
  split; [exact Heq | ].
  intros Hnone. rewrite Heq. apply filter_none, Hnone.
Qed.

Lemma extractMRZFromText_selects_witness :
  extractMRZFromText "Passport of Utopia" = [].
Proof.
  apply (proj2 (extractMRZFromText_selects "Passport of Utopia")).
  intros line [<- | []]. reflexivity.
Defined.

End MRZ.

Section Validator.
Import DocumentValidator Spec.
Local Open Scope string_scope.
Local Open Scope Z_scope.

Variable Zone : Type.
Variable parseISO : Zone -> string -> outcome Date.
Variable differenceInYears : Zone -> Date -> Date -> outcome jsnum.
Variable differenceInMonths : Zone -> Date -> Date -> outcome jsnum.
Variable toUpperCase : string -> string.
Variable zone : Zone.

Local Abbreviation validate :=
  (validateDocument parseISO differenceInYears differenceInMonths toUpperCase
     zone).

(** *** Bounds that are zero *)

Lemma rule_minAge_zero (p : EligibilityPolicy) (age : jsnum)
  (checks : list ValidationCheck) :
  rule_minAge (Spec.with_minAge (Some 0) p) age checks = checks.
Proof. reflexivity. Qed.

Lemma rule_maxAge_zero (p : EligibilityPolicy) (age : jsnum)
  (checks : list ValidationCheck) :
  rule_maxAge (Spec.with_maxAge (Some 0) p) age checks = checks.
Proof. reflexivity. Qed.

Lemma rule_validity_zero (e : ExtractedData) (p : EligibilityPolicy)
  (checks : list ValidationCheck) (w : World) :
  rule_validity parseISO differenceInMonths zone e
    (Some (Spec.with_minPassportValidity (Some 0) p)) checks w
  = (Returned checks, w).
Proof. reflexivity. Qed.

(** C10: a bound of a policy that is the number 0 has the effect of an
    absent one: the rule of the minimum age, of the maximum age or of the
    remaining validity pushes no check, and the validator returns what it
    returns for the policy without that bound. *)
Theorem zero_bound_is_absent (e : ExtractedData) (mrz : option MRZData)
  (form : option ApplicantForm) (p : EligibilityPolicy)
  (age : jsnum) (checks : list ValidationCheck) (w : World) :
  (rule_minAge (Spec.with_minAge (Some 0) p) age checks = checks
   /\ validate e mrz form (Some (Spec.with_minAge (Some 0) p)) w
      = validate e mrz form (Some (Spec.with_minAge None p)) w)
  /\ (rule_maxAge (Spec.with_maxAge (Some 0) p) age checks = checks
      /\ validate e mrz form (Some (Spec.with_maxAge (Some 0) p)) w
         = validate e mrz form (Some (Spec.with_maxAge None p)) w)
  /\ (rule_validity parseISO differenceInMonths zone e
        (Some (Spec.with_minPassportValidity (Some 0) p)) checks w
      = (Returned checks, w)
      /\ validate e mrz form (Some (Spec.with_minPassportValidity (Some 0) p)) w
         = validate e mrz form (Some (Spec.with_minPassportValidity None p)) w).
Proof. repeat split; reflexivity. Qed.

(** *** Reading the clock *)

Lemma later_add (j k : nat) (w : World) :
  later j (later k w) = later (j + k) w.
Proof. unfold later. symmetry. apply Nat.iter_add. Qed.

Lemma later_at (j : nat) : forall (w : World) (i : nat), later j w i = w (j + i)%nat.
Proof.
  induction j as [|j IH]; intros w i; [reflexivity | ].
  change (later (S j) w i) with (later j w (S i)).
  rewrite IH. f_equal. lia.
Qed.

Lemma reads_ret {A} (a : A) : reads_at_most 0 (ret a).
Proof.
  intros w1 w2 _. split; [reflexivity | ].
  exists 0%nat. repeat split. lia.
Qed.

Lemma reads_lift {A} (o : outcome A) : reads_at_most 0 (lift o).
Proof.
  intros w1 w2 _. split; [reflexivity | ].
  exists 0%nat. repeat split. lia.
Qed.

Lemma reads_newDate : reads_at_most 1 newDate.
Proof.
  intros w1 w2 H. split.
  - simpl. rewrite (H 0%nat) by lia. reflexivity.
  - exists 1%nat. repeat split. lia.
Qed.

Lemma reads_more {A} (n n' : nat) (m : M A) :
  (n <= n')%nat -> reads_at_most n m -> reads_at_most n' m.
Proof.
  intros Hle Hm w1 w2 H.
  destruct (Hm w1 w2) as (Hfst & j & Hj & H1 & H2).
  { intros k Hk. apply H. lia. }
  split; [exact Hfst | ]. exists j. repeat split; auto. lia.
Qed.

Lemma reads_bind {A B} (n k : nat) (m : M A) (f : A -> M B) :
  reads_at_most n m -> (forall a, reads_at_most k (f a)) ->
  reads_at_most (n + k) (bind m f).
Proof.
  intros Hm Hf w1 w2 H. unfold bind.
  destruct (Hm w1 w2) as (Hfst & j & Hj & H1 & H2).
  { intros i Hi. apply H. lia. }
  destruct (m w1) as [o1 w1'], (m w2) as [o2 w2']. simpl in *. subst.
  destruct o2 as [a | ].
  - destruct (Hf a (later j w1) (later j w2)) as (Hfst' & j' & Hj' & H1' & H2').
    { intros i Hi. rewrite !later_at. apply H. lia. }
    split; [exact Hfst' | ].
    exists (j' + j)%nat. rewrite <- !later_add. repeat split; auto. lia.
  - split; [reflexivity | ]. exists j. repeat split. lia.
Qed.

Lemma reads_try_catch {A} (n k : nat) (m h : M A) :
  reads_at_most n m -> reads_at_most k h ->
  reads_at_most (n + k) (try_catch m h).
Proof.
  intros Hm Hh w1 w2 H. unfold try_catch.
  destruct (Hm w1 w2) as (Hfst & j & Hj & H1 & H2).
  { intros i Hi. apply H. lia. }
  destruct (m w1) as [o1 w1'], (m w2) as [o2 w2']. simpl in *. subst.
  destruct o2 as [a | ].
  - split; [reflexivity | ]. exists j. repeat split. lia.
  - destruct (Hh (later j w1) (later j w2)) as (Hfst' & j' & Hj' & H1' & H2').
    { intros i Hi. rewrite !later_at. apply H. lia. }
    split; [exact Hfst' | ].
    exists (j' + j)%nat. rewrite <- !later_add. repeat split; auto. lia.
Qed.

Lemma reads_validateExpiryDate (v : string) :
  reads_at_most 1 (validateExpiryDate parseISO zone v).
Proof.
  unfold validateExpiryDate.
  apply (reads_try_catch 1 0); [ | apply reads_ret].
  apply (reads_bind 0 1); [apply reads_lift | intros expiry].
  apply (reads_bind 1 0); [apply reads_newDate | intros now].
  apply reads_ret.
Qed.

Lemma reads_calculateAge (v : string) :
  reads_at_most 1 (calculateAge parseISO differenceInYears zone v).
Proof.
  unfold calculateAge.
  apply (reads_try_catch 1 0); [ | apply reads_ret].
  apply (reads_bind 1 0); [apply reads_newDate | intros now].
  apply (reads_bind 0 0); [apply reads_lift | intros birth].
  apply reads_lift.
Qed.

Lemma reads_rule_expiryDate (e : ExtractedData) (checks : list ValidationCheck) :
  reads_at_most 1 (rule_expiryDate parseISO zone e checks).
Proof.
  unfold rule_expiryDate.
  destruct (value_of (ex_expiryDate e)) as [v | ].
  - apply (reads_bind 1 0); [apply reads_validateExpiryDate | intros c].
    apply reads_ret.
  - apply (reads_more 0 1); [lia | apply reads_ret].
Qed.

Lemma reads_rule_age (e : ExtractedData) (policy : option EligibilityPolicy)
  (checks : list ValidationCheck) :
  reads_at_most 1 (rule_age parseISO differenceInYears zone e policy checks).
Proof.
  unfold rule_age.
  destruct policy as [p | ], (value_of (ex_dateOfBirth e)) as [v | ];
    try (apply (reads_more 0 1); [lia | apply reads_ret]).
  apply (reads_bind 1 0); [apply reads_calculateAge | intros age].
  apply reads_ret.
Qed.

Lemma reads_rule_validity (e : ExtractedData)
  (policy : option EligibilityPolicy) (checks : list ValidationCheck) :
  reads_at_most 1 (rule_validity parseISO differenceInMonths zone e policy checks).
Proof.
  unfold rule_validity.
  destruct policy as [p | ];
    [ | apply (reads_more 0 1); [lia | apply reads_ret]].
  destruct (bound (minPassportValidity p)) as [b | ],
    (value_of (ex_expiryDate e)) as [v | ];
    try (apply (reads_more 0 1); [lia | apply reads_ret]).
  apply (reads_bind 0 1); [apply reads_lift | intros expiry].
  apply (reads_bind 1 0); [apply reads_newDate | intros now].
  apply (reads_bind 0 0); [apply reads_lift | intros monthsValid].
  destruct (num_lt monthsValid (Num b)); apply reads_ret.
Qed.

Lemma reads_validateDocument (e : ExtractedData) (mrz : option MRZData)
  (form : option ApplicantForm) (policy : option EligibilityPolicy) :
  reads_at_most 3 (validate e mrz form policy).
Proof.
  unfold validate, validateDocument.
  apply (reads_bind 1 2); [apply reads_rule_expiryDate | intros c1].
  apply (reads_bind 0 2); [apply reads_lift | intros c2].
  apply (reads_bind 1 1); [apply reads_rule_age | intros c3].
  apply (reads_bind 0 1); [apply reads_lift | intros c4].
  apply reads_rule_validity.
Qed.

(** C9, as the code has it: the validator is no function of its four
    arguments alone.  It has two more inputs: the time zone of the
    process ([zone], any zone), in which the date library reads a date
    and takes its differences, and the clock, which it reads at most
    three times.  Two invocations on the same arguments in the same time
    zone return the same checks, or both throw, whenever the clock gives
    them the same three readings. *)
Theorem validateDocument_same_clock_same_checks (e : ExtractedData)
  (mrz : option MRZData) (form : option ApplicantForm)
  (policy : option EligibilityPolicy) (w1 w2 : World) :
  w1 0%nat = w2 0%nat -> w1 1%nat = w2 1%nat -> w1 2%nat = w2 2%nat ->
  fst (validateDocument parseISO differenceInYears differenceInMonths
         toUpperCase zone e mrz form policy w1)
  = fst (validateDocument parseISO differenceInYears differenceInMonths
           toUpperCase zone e mrz form policy w2).
Proof.
  intros H0 H1 H2.
  apply (reads_validateDocument e mrz form policy w1 w2).
  intros k Hk.
  destruct k as [|[|[|k]]]; auto. lia.
Qed.

(** Without an expiry date and without a date of birth in the extracted
    data, no rule reads the clock. *)
Lemma validateDocument_without_dates (e : ExtractedData)
  (mrz : option MRZData) (form : option ApplicantForm)
  (policy : option EligibilityPolicy) (w1 w2 : World) :
  value_of (ex_expiryDate e) = None ->
  value_of (ex_dateOfBirth e) = None ->
  fst (validate e mrz form policy w1) = fst (validate e mrz form policy w2).
Proof.
  intros He Hb.
  unfold validate, validateDocument, rule_expiryDate, rule_age, rule_validity.
  rewrite He, Hb. unfold mbind, M_bind, mret, M_ret, bind, ret, lift.
  destruct (rule_form_passport toUpperCase e form
              (rule_mrz toUpperCase e mrz (rule_dateOfBirth_format e [])))
    as [c | ]; [ | reflexivity].
  destruct policy as [p | ];
    [ | destruct (rule_nationality e None (rule_form_dateOfBirth e form c));
        reflexivity].
  destruct (rule_nationality e (Some p) (rule_form_dateOfBirth e form c))
    as [c' | ]; [ | reflexivity].
  destruct (bound (minPassportValidity p)); reflexivity.
Qed.

(** *** The name rule *)

Lemma rule_mrz_name (e : ExtractedData) (mrz : MRZData)
  (checks : list ValidationCheck) (v : string) :
  value_of (ex_fullName e) = Some v ->
  let similarity :=
    calculateSimilarity (normalizeString toUpperCase v)
      (normalizeString toUpperCase
         (mrz_givenNames mrz ++ " " ++ mrz_surname mrz)) in
  last (rule_mrz toUpperCase e (Some mrz) checks)
  = Some (mkCheck "Name" (name_status similarity)
            ("Name similarity: "
             ++ toFixed0 (Double.mul similarity 100) ++ "%")).
Proof.
  intros Hv. unfold rule_mrz. rewrite Hv. unfold push.
  apply last_snoc.
Qed.

(** *** The expiry rule *)

(** The rule always returns a check; which one is decided by what
    [parseISO] does: the check for a date that cannot be parsed is
    returned only if [parseISO] throws. *)
Lemma validateExpiryDate_cases (v : string) (w : World) :
  fst (validateExpiryDate parseISO zone v w)
  = Returned
      match parseISO zone v with
      | Thrown => unparsed_check
      | Returned None => valid_check
      | Returned (Some t) => if t <? w 0%nat then expired_check else valid_check
      end.
Proof.
  unfold validateExpiryDate, try_catch, bind, lift, newDate, ret.
  destruct (parseISO zone v) as [[t | ] | ]; simpl; try reflexivity.
  destruct (t <? w 0%nat); reflexivity.
Qed.

End Validator.

Section Runs.
Import Spec.
Local Open Scope string_scope.
Local Open Scope Z_scope.

(** C9, as stated, fails: the validator is called twice on the same
    arguments, the second call in the world the first one leaves.  The
    document expires on 2030-06-15; the clock reads 2030-06-14 for the
    first call and 2030-06-16 for the second. *)
Lemma validateDocument_depends_on_clock :
  let e := only_expiryDate "2030-06-15" in
  let w := DateFns.ticking (DateFns.midnight 2030 6 14)
             (DateFns.midnight 2030 6 16) in
  let first := DateFns.validateDocument e None None None w in
  let second := DateFns.validateDocument e None None None (snd first) in
  fst first
  = Returned [mkCheck "Expiry Date" Pass "Date format is valid (ISO 8601)";
              valid_check]
  /\ fst second
     = Returned [mkCheck "Expiry Date" Pass "Date format is valid (ISO 8601)";
                 expired_check]
  /\ fst first <> fst second.
Proof. vm_compute. repeat split. discriminate. Qed.

Lemma validateDocument_same_clock_same_checks_witness :
  fst (DateFns.validateDocument (only_expiryDate "2030-06-15") None None None
         (three_then (DateFns.midnight 2030 6 14) 0))
  = fst (DateFns.validateDocument (only_expiryDate "2030-06-15") None None None
           (three_then (DateFns.midnight 2030 6 14) 1)).
Proof.
  unfold DateFns.validateDocument.
  apply validateDocument_same_clock_same_checks; reflexivity.
Defined.

(** The time zone is an input as well: the same arguments and the same
    clock, at 20:00 UTC of 2030-06-14, in two zones.  The document
    expires on 2030-06-15, a day that has begun in Tokyo and not in
    UTC. *)
Lemma validateDocument_depends_on_time_zone :
  let e := only_expiryDate "2030-06-15" in
  let w := DateFns.frozen (DateFns.midnight 2030 6 14 + 20 * 3600000) in
  fst (DateFns.validateDocument_in DateFns.UTC e None None None w)
  = Returned [mkCheck "Expiry Date" Pass "Date format is valid (ISO 8601)";
              valid_check]
  /\ fst (DateFns.validateDocument_in DateFns.Tokyo e None None None w)
     = Returned [mkCheck "Expiry Date" Pass "Date format is valid (ISO 8601)";
                 expired_check].
Proof. vm_compute. split; reflexivity. Qed.

(** C4, at an input where the rule departs from it: an expiry field of
    fillers decodes to a text that is no date; [parseISO] returns the
    invalid date for it and does not throw, the comparison with the
    clock is false, and the rule reports a valid document. *)
Theorem validateExpiryDate_unparseable_is_valid :
  MRZParser.parseDate "<<<<<<" = "NaN-<<-<<"
  /\ DateFns.parseISO "NaN-<<-<<" = Returned None
  /\ fst (DateFns.validateExpiryDate "NaN-<<-<<"
            (DateFns.frozen (DateFns.midnight 2026 11 1)))
     = Returned valid_check
  /\ fst (DateFns.validateExpiryDate "next year"
            (DateFns.frozen (DateFns.midnight 2026 11 1)))
     = Returned valid_check.
Proof. vm_compute. repeat split. Qed.

End Runs.

Section Eligibility.
Import Double DoubleFacts DocumentValidator.
Local Open Scope Z_scope.

Lemma status_partition (checks : list ValidationCheck) :
  Spec.count Pass checks + Spec.count Warning checks + Spec.count Fail checks
  = len checks.
Proof.
  unfold Spec.count, with_status, len.
  induction checks as [|c cs IH]; [reflexivity | ].
  simpl. destruct (status c); simpl in *; lia.
Qed.

Lemma count_nonneg (s : Status) (checks : list ValidationCheck) :
  0 <= Spec.count s checks.
Proof. unfold Spec.count, len. lia. Qed.

Lemma no_fail_iff (checks : list ValidationCheck) :
  Spec.count Fail checks = 0
  <-> forall c, In c checks -> status c <> Fail.
Proof.
  unfold Spec.count, with_status, len.
  induction checks as [|c cs IH]; simpl.
  - split; [intros _ ? [] | reflexivity].
  - destruct (status c) eqn:Hs; simpl.
    + rewrite IH. split.
      * intros H c' [<- | Hin]; [congruence | auto].
      * intros H c' Hin. apply H. right. exact Hin.
    + split; [lia | ].
      intros H. exfalso. apply (H c); [left; reflexivity | exact Hs].
    + rewrite IH. split.
      * intros H c' [<- | Hin]; [congruence | auto].
      * intros H c' Hin. apply H. right. exact Hin.
Qed.

Lemma confidence_of_range (p w t : Z) :
  0 <= p -> 0 <= w -> p + w <= t -> 1 <= t ->
  0 <= confidence_of p w t <= 100.
Proof.
  intros Hp Hw Hsum Ht. unfold confidence_of, Math_round, mul, div.
  set (x := (inject_Z p + inject_Z w * (1 # 2))%Q).
  assert (0 <= inject_Z p)%Q as Hp' by (rewrite <- (Zle_Qle 0); exact Hp).
  assert (0 <= inject_Z w)%Q as Hw' by (rewrite <- (Zle_Qle 0); exact Hw).
  assert (inject_Z p + inject_Z w <= inject_Z t)%Q as Hs'.
  { rewrite <- inject_Z_plus, <- Zle_Qle. exact Hsum. }
  assert (0 < inject_Z t)%Q as Ht'.
  { rewrite <- (Zlt_Qlt 0). lia. }
  assert (0 <= x / inject_Z t)%Q as Hq0.
  { apply Qle_shift_div_l; [exact Ht' | unfold x; lra]. }
  assert (x / inject_Z t <= 1)%Q as Hq1.
  { apply Qle_shift_div_r; [exact Ht' | unfold x; lra]. }
  pose proof (fl_nonneg _ Hq0) as Hy0.
  pose proof (fl_le_1 _ Hq0 Hq1) as Hy1.
  set (y := fl (x / inject_Z t)) in *.
  assert (0 <= y * 100)%Q as Hz0 by lra.
  assert (y * 100 <= 100)%Q as Hz1 by lra.
  pose proof (fl_nonneg _ Hz0) as Hr0.
  pose proof (fl_le_100 _ Hz0 Hz1) as Hr1.
  set (z := fl (y * 100)) in *.
  split.
  - rewrite <- (Qfloor_Z 0). apply Qfloor_resp_le.
    change (inject_Z 0) with 0%Q. lra.
  - assert (Qfloor (z + (1 # 2)) <= Qfloor (201 # 2)) as H
        by (apply Qfloor_resp_le; lra).
    exact H.
Qed.

Lemma agree_below_20 : Spec.agree_below 20 = true.
Proof. vm_compute. reflexivity. Qed.

Lemma confidence_of_exact_below_20 (p w t : nat) :
  (p + w <= t)%nat -> (1 <= t < 20)%nat ->
  confidence_of (Z.of_nat p) (Z.of_nat w) (Z.of_nat t)
  = Spec.exact_confidence (Z.of_nat p) (Z.of_nat w) (Z.of_nat t).
Proof.
  intros Hsum Ht.
  pose proof agree_below_20 as H. unfold Spec.agree_below in H.
  rewrite List.forallb_forall in H.
  specialize (H t ltac:(apply in_seq; lia)).
  rewrite List.forallb_forall in H.
  specialize (H p ltac:(apply in_seq; lia)).
  rewrite List.forallb_forall in H.
  specialize (H w ltac:(apply in_seq; lia)).
  unfold Spec.agrees in H.
  apply Nat.leb_le in Hsum. rewrite Hsum in H. simpl in H.
  apply Z.eqb_eq, H.
Qed.


(** C1, as the code has it: the decision is "no check failed"; the
    confidence is [Math.round] of the double [((pass + warning * 0.5) /
    total) * 100], the quotient being rounded before it is multiplied; it
    is an integer from 0 to 100, and it is the exactly rounded percentage
    for every list of fewer than 20 checks; the empty list is eligible
    with confidence 0. *)
Theorem assessEligibility_decision_and_confidence
  (checks : list ValidationCheck) (form : option ApplicantForm)
  (policy : option EligibilityPolicy) :
  (eligible (assessEligibility checks form policy) = true
   <-> forall c, In c checks -> status c <> Fail)
  /\ confidence (assessEligibility checks form policy)
     = Math_round
         (mul (div (inject_Z (Spec.count Pass checks)
                    + inject_Z (Spec.count Warning checks) * (1 # 2))%Q
                   (inject_Z (or_one (len checks))))
              100)
  /\ 0 <= confidence (assessEligibility checks form policy) <= 100
  /\ ((List.length checks < 20)%nat ->
      confidence (assessEligibility checks form policy)
      = Spec.exact_confidence (Spec.count Pass checks)
          (Spec.count Warning checks) (or_one (len checks)))
  /\ assessEligibility [] form policy = mkEligibility true 0 [].
Proof.
  pose proof (status_partition checks) as Hpart.
  pose proof (count_nonneg Pass checks) as Hp.
  pose proof (count_nonneg Warning checks) as Hw.
  pose proof (count_nonneg Fail checks) as Hf.
  assert (Spec.count Pass checks + Spec.count Warning checks
          <= or_one (len checks) /\ 1 <= or_one (len checks)) as [Hsum Hone].
  { unfold or_one. destruct (Z.eqb_spec (len checks) 0); lia. }
  split; [ | split; [ | split; [ | split]]].
  - rewrite <- no_fail_iff. unfold assessEligibility. simpl.
    apply Z.eqb_eq.
  - reflexivity.
  - apply confidence_of_range; assumption.
  - intros Hlen. unfold assessEligibility. simpl.
    fold (Spec.count Pass checks). fold (Spec.count Warning checks).
    assert (exists t, or_one (len checks) = Z.of_nat t /\ (1 <= t < 20)%nat)
      as (t & Ht & Hrange).
    { exists (Z.to_nat (or_one (len checks))). unfold or_one, len in *.
      destruct (Z.eqb_spec (Z.of_nat (List.length checks)) 0); lia. }
    rewrite Ht in *.
    unfold Spec.count, len in *.
    apply confidence_of_exact_below_20; lia.
  - reflexivity.
Qed.

End Eligibility.

Section EligibilityRuns.
Import Spec DocumentValidator.
Local Open Scope Z_scope.

(** C1, as stated, fails: with 11 checks passed, 1 warning and 8 failed
    the percentage is 57.5, which rounds to 58; the quotient 11.5 / 20 is
    rounded to a double first and its product with 100 falls below 57.5,
    so the confidence returned is 57. *)
Lemma confidence_differs_from_exact_rounding :
  let checks := some_checks Pass 11 ++ some_checks Warning 1
                ++ some_checks Fail 8 in
  count Pass checks = 11 /\ count Warning checks = 1 /\ len checks = 20
  /\ exact_confidence 11 1 20 = 58
  /\ confidence (assessEligibility checks None None) = 57
  /\ confidence (assessEligibility checks None None)
     <> exact_confidence (count Pass checks) (count Warning checks)
          (or_one (len checks)).
Proof. vm_compute. repeat split. discriminate. Qed.

Lemma assessEligibility_decision_and_confidence_witness :
  confidence (assessEligibility (some_checks Pass 2 ++ some_checks Warning 1)
                None None)
  = 83.
Proof.
  destruct (assessEligibility_decision_and_confidence
              (some_checks Pass 2 ++ some_checks Warning 1) None None)
    as (_ & _ & _ & Hexact & _).
  rewrite Hexact; [vm_compute; reflexivity | simpl; lia].
Defined.

End EligibilityRuns.

(** *** The edit distance and the similarity of names *)

Section Levenshtein.
Import DocumentValidator.
Local Open Scope nat_scope.

Lemma array_set_push {A} (hole v : A) (a : list A) :
  array_set hole (List.length a) v a = a ++ [v].
Proof.
  unfold array_set. rewrite Nat.ltb_irrefl, Nat.sub_diag. reflexivity.
Qed.

Lemma init_rows_from (k : nat) :
  forall (a : nat) (acc : list (list nat)),
    List.length acc = a ->
    fold_left (fun matrix i => array_set [] i [i] matrix) (seq a k) acc
    = acc ++ ((fun i => [i]) <$> seq a k).
Proof.
  induction k as [|k IH]; intros a acc Hlen; simpl.
  - rewrite app_nil_r. reflexivity.
  - subst a. rewrite array_set_push.
    rewrite IH by (rewrite length_app; simpl; lia).
    rewrite <- app_assoc. reflexivity.
Qed.

Lemma init_rows_spec (n : nat) :
  init_rows n = (fun i => [i]) <$> seq 0 (S n).
Proof. unfold init_rows. rewrite (init_rows_from (S n) 0 []); reflexivity. Qed.

Lemma set_cell_push (top bot : list (list nat)) (cur : list nat)
  (i j v : nat) :
  i = List.length top -> j = List.length cur ->
  set_cell (top ++ cur :: bot) i j v = top ++ (cur ++ [v]) :: bot.
Proof.
  intros -> ->. unfold set_cell, row.
  rewrite list_lookup_middle by reflexivity. simpl.
  rewrite array_set_push.
  rewrite insert_app_r_alt by lia. rewrite Nat.sub_diag. reflexivity.
Qed.

Lemma init_cols_from (rest : list (list nat)) (k : nat) :
  forall (a : nat) (r0 : list nat),
    List.length r0 = a ->
    fold_left (fun matrix j => set_cell matrix 0 j j) (seq a k) (r0 :: rest)
    = (r0 ++ seq a k) :: rest.
Proof.
  induction k as [|k IH]; intros a r0 Hlen; simpl.
  - rewrite app_nil_r. reflexivity.
  - subst a.
    rewrite (set_cell_push [] rest r0 0 (List.length r0) (List.length r0)
               eq_refl eq_refl : set_cell (r0 :: rest) _ _ _ = _).
    simpl.
    rewrite IH by (rewrite length_app; simpl; lia).
    rewrite <- app_assoc. reflexivity.
Qed.

Lemma init_cols_spec (n : nat) (rest : list (list nat)) :
  init_cols n ([0] :: rest) = seq 0 (S n) :: rest.
Proof.
  unfold init_cols. simpl.
  change (set_cell ([0] :: rest) 0 0 0) with ([0] :: rest).
  rewrite (init_cols_from rest n 1 [0]); reflexivity.
Qed.

Variables str1 str2 : string.

Local Abbreviation n1 := (String.length str1).
Local Abbreviation n2 := (String.length str2).
Local Abbreviation D := (Spec.distance str2 str1).

Lemma distance_S_S (i j : nat) :
  D (S i) (S j)
  = if charAt_eqb str2 i str1 j then D i j
    else min3 (D i j + 1) (D (S i) j + 1) (D i (S j) + 1).
Proof. reflexivity. Qed.

Lemma cell_at (top bot : list (list nat)) (r : list nat) (i j : nat) :
  i = List.length top ->
  cell (top ++ r :: bot) i j = default 0 (r !! j).
Proof.
  intros ->. unfold cell, row.
  rewrite list_lookup_middle by reflexivity. reflexivity.
Qed.

Lemma lookup_distance_row (i n j : nat) :
  j < n -> (D i <$> seq 0 n) !! j = Some (D i j).
Proof.
  intros H. rewrite list_lookup_fmap, lookup_seq_lt by exact H. reflexivity.
Qed.

(** One step of the inner loop: the row being filled gains the distance
    of the next column. *)
Lemma fill_cell_step (top bot : list (list nat)) (i j : nat) :
  List.length top = i -> j < n1 ->
  fill_cell str1 str2 (S i)
    (top ++ (D i <$> seq 0 (S n1)) :: (D (S i) <$> seq 0 (S j)) :: bot) (S j)
  = top ++ (D i <$> seq 0 (S n1)) :: (D (S i) <$> seq 0 (S (S j))) :: bot.
Proof.
  intros Htop Hj. subst i. unfold fill_cell.
  set (i := List.length top).
  replace (S i - 1) with i by lia. replace (S j - 1) with j by lia.
  set (prev := D i <$> seq 0 (S n1)). set (cur := D (S i) <$> seq 0 (S j)).
  assert (S i = List.length (top ++ [prev])) as Hi
      by (rewrite length_app; simpl; lia).
  assert (S j = List.length cur) as Hcur
      by (unfold cur; rewrite length_fmap, length_seq; reflexivity).
  assert (top ++ prev :: cur :: bot = (top ++ [prev]) ++ cur :: bot) as Hsplit
      by (rewrite <- app_assoc; reflexivity).
  assert (cell (top ++ prev :: cur :: bot) i j = D i j) as Hdiag.
  { rewrite cell_at by reflexivity. unfold prev.
    rewrite lookup_distance_row by lia. reflexivity. }
  assert (cell (top ++ prev :: cur :: bot) i (S j) = D i (S j)) as Hup.
  { rewrite cell_at by reflexivity. unfold prev.
    rewrite lookup_distance_row by lia. reflexivity. }
  assert (cell (top ++ prev :: cur :: bot) (S i) j = D (S i) j) as Hleft.
  { rewrite Hsplit, cell_at by exact Hi. unfold cur.
    rewrite lookup_distance_row by lia. reflexivity. }
  assert (forall v, set_cell (top ++ prev :: cur :: bot) (S i) (S j) v
                    = top ++ prev :: (cur ++ [v]) :: bot) as Hset.
  { intros v. rewrite Hsplit, set_cell_push, <- app_assoc by assumption.
    reflexivity. }
  rewrite Hdiag, Hup, Hleft, !Hset.
  assert (D (S i) <$> seq 0 (S (S j)) = cur ++ [D (S i) (S j)]) as ->.
  { rewrite (List.seq_S (S j) 0), fmap_app. reflexivity. }
  rewrite distance_S_S.
  destruct (charAt_eqb str2 i str1 j); reflexivity.
Qed.

Lemma fill_row_from (top bot : list (list nat)) (i : nat) (k : nat) :
  forall j,
    List.length top = i -> j + k = n1 ->
    fold_left (fill_cell str1 str2 (S i)) (seq (S j) k)
      (top ++ (D i <$> seq 0 (S n1)) :: (D (S i) <$> seq 0 (S j)) :: bot)
    = top ++ (D i <$> seq 0 (S n1)) :: (D (S i) <$> seq 0 (S n1)) :: bot.
Proof.
  induction k as [|k IH]; intros j Htop Hk.
  - replace j with n1 by lia. reflexivity.
  - rewrite <- cons_seq. cbn [fold_left].
    rewrite fill_cell_step by (auto; lia).
    apply IH; [exact Htop | lia].
Qed.

Lemma fill_row_step (top bot : list (list nat)) (i : nat) :
  List.length top = i ->
  fill_row str1 str2 (top ++ (D i <$> seq 0 (S n1)) :: [S i] :: bot) (S i)
  = top ++ (D i <$> seq 0 (S n1)) :: (D (S i) <$> seq 0 (S n1)) :: bot.
Proof.
  intros Htop. unfold fill_row.
  change [S i] with (D (S i) <$> seq 0 1).
  apply fill_row_from; [exact Htop | lia].
Qed.

Local Abbreviation filled := (Spec.filled str1 str2).

Lemma fill_from (k : nat) :
  forall i,
    i + k = n2 ->
    fold_left (fill_row str1 str2) (seq (S i) k)
      ((filled <$> seq 0 i) ++ filled i :: ((fun r => [r]) <$> seq (S i) k))
    = filled <$> seq 0 (S n2).
Proof.
  induction k as [|k IH]; intros i Hk.
  - replace n2 with i by lia.
    rewrite (List.seq_S i 0), fmap_app. reflexivity.
  - rewrite <- !cons_seq. cbn [fold_left]. rewrite fmap_cons.
    unfold Spec.filled at 2.
    rewrite fill_row_step
      by (rewrite length_fmap, length_seq; reflexivity).
    fold (filled i). fold (filled (S i)).
    replace ((filled <$> seq 0 i) ++ filled i
             :: filled (S i) :: ((fun r => [r]) <$> seq (S (S i)) k))
      with ((filled <$> seq 0 (S i)) ++ filled (S i)
            :: ((fun r => [r]) <$> seq (S (S i)) k)).
    + apply IH. lia.
    + rewrite (List.seq_S i 0), fmap_app, <- app_assoc. reflexivity.
Qed.

Lemma filled_0 : filled 0 = seq 0 (S n1).
Proof.
  unfold Spec.filled.
  change (Spec.distance str2 str1 0) with (fun j : nat => j).
  apply list_fmap_id.
Qed.

(** The matrix that the loops leave holds the distance of every pair of
    prefixes, and the function returns its last cell. *)
Lemma levenshteinDistance_recurrence :
  levenshteinDistance str1 str2 = D n2 n1.
Proof.
  unfold levenshteinDistance.
  rewrite init_rows_spec.
  change ((fun i => [i]) <$> seq 0 (S n2))
    with ([0] :: ((fun i => [i]) <$> seq 1 n2)).
  rewrite init_cols_spec, <- filled_0.
  unfold fill.
  pose proof (fill_from n2 0 eq_refl) as Hfill.
  change (filled <$> seq 0 0) with (@nil (list nat)) in Hfill.
  rewrite app_nil_l in Hfill. rewrite Hfill. clear Hfill.
  unfold cell, row.
  rewrite list_lookup_fmap, lookup_seq_lt by lia. simpl.
  unfold Spec.filled. rewrite lookup_distance_row by lia. reflexivity.
Qed.

End Levenshtein.

Section EditDistance.
Import DocumentValidator.
Local Open Scope nat_scope.

Variables a b : string.
Local Abbreviation E := (Spec.edit_distance a b).
Local Abbreviation D := (Spec.distance a b).

Lemma edit_distance_S_S (i j : nat) :
  E (S i) (S j)
  = min3 (E i j + (if charAt_eqb a i b j then 0 else 1))
      (E (S i) j + 1) (E i (S j) + 1).
Proof. reflexivity. Qed.

(** One more character of [b] costs at most one more edit. *)
Lemma edit_distance_right (i j : nat) : E i (S j) <= E i j + 1.
Proof.
  destruct i as [|i]; [simpl; lia | ].
  rewrite edit_distance_S_S. unfold min3. lia.
Qed.

Lemma edit_distance_down (i j : nat) : E (S i) j <= E i j + 1.
Proof.
  destruct j as [|j]; [destruct i; simpl; lia | ].
  rewrite edit_distance_S_S. unfold min3. lia.
Qed.

(** One character less of [a] saves at most one edit. *)
Lemma edit_distance_up (i : nat) : forall j, E i j <= E (S i) j + 1.
Proof.
  induction j as [|j IH].
  - destruct i; simpl; lia.
  - rewrite edit_distance_S_S.
    pose proof (edit_distance_right i j). unfold min3.
    destruct (charAt_eqb a i b j); lia.
Qed.

Lemma edit_distance_left (j : nat) : forall i, E i j <= E i (S j) + 1.
Proof.
  induction i as [|i IH].
  - simpl. lia.
  - rewrite edit_distance_S_S.
    pose proof (edit_distance_down i j). unfold min3.
    destruct (charAt_eqb a i b j); lia.
Qed.

(** The recurrence of the code, which copies the diagonal cell when the
    characters are equal, computes the edit distance. *)
Lemma distance_edit_distance : forall i j, D i j = E i j.
Proof.
  induction i as [|i IHi]; intros j; [reflexivity | ].
  induction j as [|j IHj]; [reflexivity | ].
  rewrite distance_S_S, edit_distance_S_S, (IHi j), (IHi (S j)), IHj.
  pose proof (edit_distance_up i j). pose proof (edit_distance_left j i).
  unfold min3. destruct (charAt_eqb a i b j); lia.
Qed.

Lemma distance_le_max : forall i j, D i j <= Nat.max i j.
Proof.
  induction i as [|i IHi]; intros j; [simpl; lia | ].
  induction j as [|j IHj]; [simpl; lia | ].
  rewrite distance_S_S. specialize (IHi j). unfold min3.
  destruct (charAt_eqb a i b j); lia.
Qed.

End EditDistance.


Section Thresholds.
Import Double DoubleFacts DocumentValidator.
Local Open Scope Q_scope.






End Thresholds.

Section Similarity.
Import DocumentValidator.
Local Open Scope nat_scope.

Lemma charAt_eqb_sym (a : string) (i : nat) (b : string) (j : nat) :
  charAt_eqb a i b j = charAt_eqb b j a i.
Proof.
  unfold charAt_eqb.
  destruct (String.get i a), (String.get j b); try reflexivity.
  apply Ascii.eqb_sym.
Qed.

Lemma min3_swap (x y z : nat) : min3 x y z = min3 x z y.
Proof. unfold min3. lia. Qed.

Lemma distance_sym (a b : string) :
  forall i j, Spec.distance a b i j = Spec.distance b a j i.
Proof.
  induction i as [|i IHi]; intros j.
  - destruct j; reflexivity.
  - induction j as [|j IHj]; [reflexivity | ].
    rewrite !distance_S_S.
    rewrite charAt_eqb_sym, (IHi j), (IHi (S j)), IHj.
    destruct (charAt_eqb b j a i); [reflexivity | apply min3_swap].
Qed.

Lemma levenshteinDistance_sym (a b : string) :
  levenshteinDistance a b = levenshteinDistance b a.
Proof. rewrite !levenshteinDistance_recurrence. apply distance_sym. Qed.


(** The ratio of the code, with the distance that the code computes. *)
Lemma calculateSimilarity_by_distance (a b : string) :
  calculateSimilarity a b
  = let longest := Nat.max (String.length a) (String.length b) in
    if (longest =? 0)%nat then 1%Q
    else
      Double.div
        (inject_Z (Z.of_nat longest - Z.of_nat (levenshteinDistance a b)))
        (inject_Z (Z.of_nat longest)).
Proof.
  unfold calculateSimilarity. cbv zeta.
  destruct (Nat.ltb_spec (String.length b) (String.length a)) as [Hlt | Hge].
  - rewrite Nat.max_l by lia. reflexivity.
  - rewrite Nat.max_r by lia.
    rewrite (levenshteinDistance_sym b a). reflexivity.
Qed.






End Similarity.

Section ExactStatus.
Import Double DocumentValidator.

Lemma levenshteinDistance_le_max (a b : string) :
  (levenshteinDistance a b
   <= Nat.max (String.length a) (String.length b))%nat.
Proof.
  rewrite levenshteinDistance_recurrence, Nat.max_comm.
  apply distance_le_max.
Qed.


Lemma levenshteinDistance_edit_distance (a b : string) :
  levenshteinDistance a b
  = Spec.edit_distance b a (String.length b) (String.length a).
Proof.
  rewrite levenshteinDistance_recurrence. apply distance_edit_distance.
Qed.



End ExactStatus.

(* ===================================================================== *)
(** ** Further properties of the code *)
(* ===================================================================== *)

(** *** Check digits, fields, dates and names of the MRZ *)

Section StringFacts.
Local Open Scope string_scope.

Lemma str_length_app (a b : string) :
  String.length (a ++ b) = (String.length a + String.length b)%nat.
Proof. induction a as [|c r IH]; simpl; [reflexivity | rewrite IH; reflexivity]. Qed.

Lemma str_app_nil_r (a : string) : a ++ "" = a.
Proof. induction a as [|c r IH]; simpl; [reflexivity | rewrite IH; reflexivity]. Qed.

Lemma str_app_assoc (a b c : string) : (a ++ b) ++ c = a ++ (b ++ c).
Proof. induction a as [|x r IH]; simpl; [reflexivity | rewrite IH; reflexivity]. Qed.

End StringFacts.


Section CheckDigit.
Import MRZParser Props.
Local Open Scope string_scope.
Local Open Scope Z_scope.

Lemma char_value_any (c : ascii) : char_value c = Num (value_of_char c).
Proof.
  unfold value_of_char.
  destruct (Spec.check_value c) as [v | ] eqn:Hv.
  - apply char_value_spec, Hv.
  - unfold Spec.check_value in Hv. unfold char_value.
    change (between "0" "9" c) with (isDigit c).
    change (between "A" "Z" c) with (isUpper c).
    destruct (isDigit c); [discriminate | ].
    destruct (isUpper c); [discriminate | reflexivity].
Qed.

Lemma value_of_char_range (c : ascii) : 0 <= value_of_char c <= 35.
Proof.
  unfold value_of_char, Spec.check_value.
  destruct (isDigit c) eqn:Hd.
  - unfold isDigit, between in Hd. apply andb_prop in Hd as [Hlo Hhi].
    apply N.leb_le in Hlo, Hhi. unfold Spec.digit. simpl in *.
    change (code "0") with 48%N in *. change (code "9") with 57%N in *. lia.
  - destruct (isUpper c) eqn:Hu.
    + unfold isUpper, between in Hu. apply andb_prop in Hu as [Hlo Hhi].
      apply N.leb_le in Hlo, Hhi. simpl.
      change (code "A") with 65%N in *. change (code "Z") with 90%N in *. lia.
    + destruct (isFiller c); simpl; lia.
Qed.

Lemma checksum_loop_any (data : string) :
  forall (i : nat) (acc : Z),
    checksum_loop data i (Num acc) = Num (acc + Spec.weighted_sum_from i data).
Proof.
  induction data as [|c r IH]; intros i acc.
  - simpl. f_equal. unfold Spec.weighted_sum_from. simpl. lia.
  - simpl. rewrite char_value_any. simpl. rewrite IH.
    rewrite weighted_sum_from_cons, weights_weight.
    fold (value_of_char c). f_equal. lia.
Qed.

Lemma weighted_sum_from_any_nonneg (data : string) :
  forall i, 0 <= Spec.weighted_sum_from i data.
Proof.
  induction data as [|c r IH]; intros i.
  - unfold Spec.weighted_sum_from. simpl. lia.
  - rewrite weighted_sum_from_cons. fold (value_of_char c).
    pose proof (value_of_char_range c). pose proof (weight_pos i).
    specialize (IH (S i)). nia.
Qed.

Lemma weighted_sum_from_app (pre : string) :
  forall (i : nat) (s : string),
    Spec.weighted_sum_from i (pre ++ s)
    = Spec.weighted_sum_from i pre
      + Spec.weighted_sum_from (i + String.length pre) s.
Proof.
  induction pre as [|c r IH]; intros i s.
  - simpl. rewrite Nat.add_0_r. unfold Spec.weighted_sum_from at 2. simpl. lia.
  - simpl. rewrite !weighted_sum_from_cons, IH.
    replace (S i + String.length r)%nat with (i + S (String.length r))%nat
      by lia.
    lia.
Qed.

Lemma validateChecksum_check_digit (data chk : string) :
  validateChecksum data chk = String.eqb (Z_toString (check_digit data)) chk.
Proof.
  unfold validateChecksum, check_digit.
  rewrite (checksum_loop_any data 0 0), weighted_sum_from_0. simpl.
  pose proof (weighted_sum_from_any_nonneg data 0%nat) as Hpos.
  rewrite weighted_sum_from_0 in Hpos.
  rewrite Z.rem_mod_nonneg by lia. reflexivity.
Qed.

Lemma Z_toString_digit (k : Z) :
  0 <= k < 10 ->
  Z_toString k = String (digit_char k) EmptyString
  /\ isDigit (digit_char k) = true.
Proof.
  intros H.
  assert (k = 0 \/ k = 1 \/ k = 2 \/ k = 3 \/ k = 4 \/ k = 5 \/ k = 6
          \/ k = 7 \/ k = 8 \/ k = 9) as Hk by lia.
  repeat (destruct Hk as [-> | Hk]; [split; reflexivity | ]).
  subst k. split; reflexivity.
Qed.

Lemma digit_char_inj (j k : Z) :
  0 <= j < 10 -> 0 <= k < 10 -> digit_char j = digit_char k -> j = k.
Proof.
  intros Hj Hk H. unfold digit_char in H.
  apply (f_equal N_of_ascii) in H.
  rewrite !N_ascii_embedding in H by lia. lia.
Qed.

(** X1: for every field there is exactly one check text that
    [validateChecksum] accepts, and it is one decimal digit; a filler or
    a letter in the place of the check digit is never accepted. *)
Theorem validateChecksum_one_digit (data : string) :
  exists d : ascii,
    isDigit d = true
    /\ forall chk : string,
         validateChecksum data chk = true <-> chk = String d EmptyString.
Proof.
  pose proof (Z.mod_pos_bound (Spec.weighted_sum data) 10 ltac:(lia)) as Hr.
  destruct (Z_toString_digit (check_digit data) Hr) as [Hs Hd].
  exists (digit_char (check_digit data)). split; [exact Hd | ].
  intros chk. rewrite validateChecksum_check_digit, Hs, String.eqb_eq.
  split; congruence.
Qed.

Lemma weight_cases (i : nat) :
  Spec.weight i = 7 \/ Spec.weight i = 3 \/ Spec.weight i = 1.
Proof.
  unfold Spec.weight.
  pose proof (Nat.mod_upper_bound i 3 ltac:(lia)) as H.
  destruct (i mod 3)%nat as [|[|[|k]]]; simpl; auto. lia.
Qed.

Lemma check_digit_replace (pre post : string) (c c' : ascii) :
  (check_digit (pre ++ String c post) - check_digit (pre ++ String c' post))
    mod 10
  = ((value_of_char c - value_of_char c')
     * Spec.weight (String.length pre)) mod 10.
Proof.
  unfold check_digit.
  rewrite <- (weighted_sum_from_0 (pre ++ String c post)),
    <- (weighted_sum_from_0 (pre ++ String c' post)).
  rewrite !weighted_sum_from_app, !weighted_sum_from_cons.
  fold (value_of_char c). fold (value_of_char c'). simpl Nat.add.
  rewrite <- Zminus_mod.
  f_equal. ring.
Qed.

Lemma validateChecksum_same_digit (a b chk : string) :
  validateChecksum a chk = true -> validateChecksum b chk = true ->
  check_digit a = check_digit b.
Proof.
  rewrite !validateChecksum_check_digit, !String.eqb_eq. intros Ha Hb.
  pose proof (Z.mod_pos_bound (Spec.weighted_sum a) 10 ltac:(lia)) as Ra.
  pose proof (Z.mod_pos_bound (Spec.weighted_sum b) 10 ltac:(lia)) as Rb.
  destruct (Z_toString_digit (check_digit a) Ra) as [Sa _].
  destruct (Z_toString_digit (check_digit b) Rb) as [Sb _].
  rewrite Sa in Ha. rewrite Sb in Hb. subst chk.
  injection Hb as Hb. symmetry. apply digit_char_inj; auto.
Qed.

(** X2: the check digit detects every error in one digit: when a field
    passes with its check digit, the same field with one digit replaced
    by another digit fails. *)
Theorem validateChecksum_detects_digit_error
  (pre post : string) (d d' : ascii) (chk : string) :
  isDigit d = true -> isDigit d' = true -> d <> d' ->
  validateChecksum (pre ++ String d post) chk = true ->
  validateChecksum (pre ++ String d' post) chk = false.
Proof.
  intros Hd Hd' Hne Hok.
  destruct (validateChecksum (pre ++ String d' post) chk) eqn:Hok';
    [exfalso | reflexivity].
  pose proof (validateChecksum_same_digit _ _ _ Hok Hok') as Heq.
  pose proof (check_digit_replace pre post d d') as Hrep.
  rewrite Heq, Z.sub_diag in Hrep. simpl in Hrep.
  assert (value_of_char d = Spec.digit d) as Vd
      by (unfold value_of_char, Spec.check_value; rewrite Hd; reflexivity).
  assert (value_of_char d' = Spec.digit d') as Vd'
      by (unfold value_of_char, Spec.check_value; rewrite Hd'; reflexivity).
  rewrite Vd, Vd' in Hrep.
  assert (0 <= Spec.digit d <= 9 /\ 0 <= Spec.digit d' <= 9) as [Rd Rd'].
  { unfold isDigit, between in Hd, Hd'.
    apply andb_prop in Hd as [H1 H2]. apply andb_prop in Hd' as [H3 H4].
    apply N.leb_le in H1, H2, H3, H4. unfold Spec.digit.
    change (code "0") with 48%N in *. change (code "9") with 57%N in *. lia. }
  assert (Spec.digit d <> Spec.digit d') as Hdig.
  { intros E. apply Hne. unfold Spec.digit in E.
    assert (code d = code d') as Hc by lia.
    unfold code in Hc. rewrite <- (ascii_N_embedding d), <- (ascii_N_embedding d').
    congruence. }
  symmetry in Hrep. apply Z.mod_divide in Hrep; [ | lia].
  destruct Hrep as [q Hq].
  destruct (weight_cases (String.length pre)) as [W | [W | W]];
    rewrite W in Hq; lia.
Qed.

Lemma validateChecksum_detects_digit_error_witness :
  validateChecksum "L898912C3" "6" = false.
Proof.
  apply (validateChecksum_detects_digit_error "L8989" "2C3" "0" "1" "6");
    try reflexivity.
  discriminate.
Defined.

(** X3: the check digit does not see a character replaced by one whose
    value differs by a multiple of 10: the filler, [0], [A], [K] and [U]
    can stand for one another, and so can [1], [B], [L] and [V]. *)
Theorem validateChecksum_blind_to_tens
  (pre post : string) (c c' : ascii) (chk : string) :
  (value_of_char c - value_of_char c') mod 10 = 0 ->
  validateChecksum (pre ++ String c post) chk
  = validateChecksum (pre ++ String c' post) chk.
Proof.
  intros H. rewrite !validateChecksum_check_digit.
  assert (check_digit (pre ++ String c post)
          = check_digit (pre ++ String c' post)) as ->; [ | reflexivity].
  pose proof (check_digit_replace pre post c c') as Hrep.
  rewrite <- Z.mul_mod_idemp_l, H in Hrep by lia. simpl in Hrep.
  pose proof (Z.mod_pos_bound (Spec.weighted_sum (pre ++ String c post)) 10
                ltac:(lia)).
  pose proof (Z.mod_pos_bound (Spec.weighted_sum (pre ++ String c' post)) 10
                ltac:(lia)).
  unfold check_digit in *.
  apply Z.mod_divide in Hrep; [ | lia]. destruct Hrep as [q Hq]. lia.
Qed.

Lemma validateChecksum_blind_to_tens_witness :
  validateChecksum "D231<5890" "7" = validateChecksum "D231K5890" "7".
Proof.
  apply (validateChecksum_blind_to_tens "D231" "5890" "<" "K" "7").
  reflexivity.
Defined.

End CheckDigit.

Section Fields.
Import MRZParser Props.
Local Open Scope string_scope.

Lemma length_fillers (n : nat) : String.length (fillers n) = n.
Proof. induction n; simpl; auto. Qed.

Lemma forallb_fillers (n : nat) : JS.forallb isFiller (fillers n) = true.
Proof. induction n; simpl; auto. Qed.

Lemma strip_fillers (n : nat) : strip_trailing_fillers (fillers n) = "".
Proof.
  destruct n; [reflexivity | ].
  pose proof (forallb_fillers (S n)) as H.
  cbn [fillers strip_trailing_fillers] in *. rewrite H. reflexivity.
Qed.

Lemma str_forallb_app (p : ascii -> bool) (a b : string) :
  JS.forallb p (a ++ b) = JS.forallb p a && JS.forallb p b.
Proof.
  induction a as [|c r IH]; simpl; [reflexivity | ].
  rewrite IH, andb_assoc. reflexivity.
Qed.

Lemma ends_with_filler_not_all (v : string) :
  v <> "" -> ends_with_filler v = false -> JS.forallb isFiller v = false.
Proof.
  induction v as [|c r IH]; intros Hne H; [congruence | ].
  destruct r as [|c' r'].
  - simpl in *. rewrite H. reflexivity.
  - change (JS.forallb isFiller (String c (String c' r')))
      with (isFiller c && JS.forallb isFiller (String c' r')).
    rewrite IH; [apply andb_false_r | discriminate | exact H].
Qed.

(** Decoding a padded field gives the value back. *)
Lemma strip_pad (v : string) (k : nat) :
  ends_with_filler v = false ->
  strip_trailing_fillers (v ++ fillers k) = v.
Proof.
  induction v as [|c r IH]; intros H.
  - apply strip_fillers.
  - cbn [append strip_trailing_fillers].
    assert (JS.forallb isFiller (String c (r ++ fillers k)) = false) as ->.
    { change (String c (r ++ fillers k)) with (String c r ++ fillers k).
      rewrite str_forallb_app, (ends_with_filler_not_all (String c r));
        [reflexivity | discriminate | exact H]. }
    f_equal. destruct r as [|c' r'].
    + apply strip_fillers.
    + apply IH. exact H.
Qed.

Lemma strip_decompose (s : string) :
  exists k, s = strip_trailing_fillers s ++ fillers k
            /\ ends_with_filler (strip_trailing_fillers s) = false.
Proof.
  induction s as [|c r IH].
  - exists 0%nat. split; reflexivity.
  - cbn [strip_trailing_fillers].
    destruct (JS.forallb isFiller (String c r)) eqn:Hall.
    + exists (String.length (String c r)). split; [ | reflexivity].
      clear IH. revert Hall. generalize (String c r). intros s.
      induction s as [|a t IHt]; simpl; [reflexivity | ].
      intros H. apply andb_prop in H as [Ha Ht].
      unfold isFiller in Ha. apply Ascii.eqb_eq in Ha. subst a.
      f_equal. apply IHt, Ht.
    + destruct IH as (k & Hk & Hend). exists k. split.
      * simpl. f_equal. exact Hk.
      * destruct (strip_trailing_fillers r) as [|c' r'] eqn:Hs.
        -- simpl. simpl in Hall.
           destruct (isFiller c) eqn:Hc; [ | reflexivity].
           simpl in Hall. rewrite Hk in Hall. simpl in Hall.
           rewrite forallb_fillers in Hall. discriminate.
        -- exact Hend.
Qed.

(** X4: a field value padded with fillers comes back when the trailing
    fillers are removed, provided it does not end with a filler itself;
    a text freed of its trailing fillers and padded again to its length
    is the text; what is returned never ends with a filler. *)
Theorem strip_trailing_fillers_round_trip (v s : string) (width : nat) :
  ends_with_filler v = false ->
  strip_trailing_fillers (pad width v) = v
  /\ pad (String.length s) (strip_trailing_fillers s) = s
  /\ ends_with_filler (strip_trailing_fillers s) = false
  /\ strip_trailing_fillers (strip_trailing_fillers s)
     = strip_trailing_fillers s.
Proof.
  intros Hv.
  destruct (strip_decompose s) as (k & Hk & Hend).
  split; [apply strip_pad, Hv | ].
  split; [ | split; [exact Hend | ]].
  - unfold pad.
    assert (String.length s
            = (String.length (strip_trailing_fillers s) + k)%nat) as Hlen.
    { rewrite Hk at 1. rewrite str_length_app, length_fillers. reflexivity. }
    rewrite Hlen.
    replace (String.length (strip_trailing_fillers s) + k
             - String.length (strip_trailing_fillers s))%nat with k by lia.
    symmetry. exact Hk.
  - pose proof (strip_pad _ 0 Hend) as H. simpl in H.
    rewrite str_app_nil_r in H. exact H.
Qed.

Lemma strip_trailing_fillers_round_trip_witness :
  strip_trailing_fillers (pad 9 "D2314<89") = "D2314<89"
  /\ pad (String.length "D2314<89<") (strip_trailing_fillers "D2314<89<")
     = "D2314<89<"
  /\ ends_with_filler (strip_trailing_fillers "D2314<89<") = false
  /\ strip_trailing_fillers (strip_trailing_fillers "D2314<89<")
     = strip_trailing_fillers "D2314<89<".
Proof.
  apply (strip_trailing_fillers_round_trip "D2314<89" "D2314<89<" 9).
  reflexivity.
Defined.

End Fields.

Section Dates.
Import MRZParser Props DocumentValidator.
Local Open Scope string_scope.
Local Open Scope Z_scope.

Lemma isDigit_digit_range (c : ascii) :
  isDigit c = true -> 0 <= Spec.digit c <= 9.
Proof.
  intros H. unfold isDigit, between in H. apply andb_prop in H as [H1 H2].
  apply N.leb_le in H1, H2. unfold Spec.digit.
  change (code "0") with 48%N in *. change (code "9") with 57%N in *. lia.
Qed.

Lemma digit_inj (c c' : ascii) : Spec.digit c = Spec.digit c' -> c = c'.
Proof.
  unfold Spec.digit, code. intros H.
  rewrite <- (ascii_N_embedding c), <- (ascii_N_embedding c').
  f_equal. lia.
Qed.

(** The text of the full year of a two-digit year. *)
Lemma full_year_text (c d : ascii) :
  isDigit c = true -> isDigit d = true ->
  Z_toString (Spec.full_year (10 * Spec.digit c + Spec.digit d))
  = if Spec.digit c <? 5
    then String "2" (String "0" (String c (String d "")))
    else String "1" (String "9" (String c (String d ""))).
Proof.
  intros Hc Hd. apply isDigit_cases in Hc, Hd.
  unfold Spec.digit_chars in Hc, Hd. simpl in Hc, Hd.
  repeat (destruct Hc as [<- | Hc]; [ | ]); try contradiction;
    repeat (destruct Hd as [<- | Hd]; [ | ]); try contradiction;
    vm_compute; reflexivity.
Qed.

Lemma iso8601Pattern_shape (s : string) :
  iso8601Pattern s = true ->
  exists y1 y2 y3 y4 m1 m2 d1 d2 : ascii,
    s = iso_text y1 y2 y3 y4 m1 m2 d1 d2
    /\ isDigit y1 = true /\ isDigit y2 = true /\ isDigit y3 = true
    /\ isDigit y4 = true /\ isDigit m1 = true /\ isDigit m2 = true
    /\ isDigit d1 = true /\ isDigit d2 = true.
Proof.
  unfold iso8601Pattern. intros H.
  repeat (apply andb_prop in H as [H ?]).
  apply Nat.eqb_eq in H.
  destruct s as [|y1 [|y2 [|y3 [|y4 [|s1 [|m1 [|m2 [|s2 [|d1 [|d2 [|? ?]]]]]]]]]]];
    try discriminate H.
  cbn in *.
  repeat match goal with
         | Hx : _ && _ = true |- _ => apply andb_prop in Hx as [? ?]
         end.
  destruct (Ascii.eqb_spec s1 "-") as [-> | ]; [ | discriminate].
  destruct (Ascii.eqb_spec s2 "-") as [-> | ]; [ | discriminate].
  exists y1, y2, y3, y4, m1, m2, d1, d2. repeat split; assumption.
Qed.

Lemma parseDate_to_mrz_date (iso : string) :
  iso8601Pattern iso = true ->
  parseDate (to_mrz_date iso) = iso <-> 1950 <= year_of iso <= 2049.
Proof.
  intros H.
  destruct (iso8601Pattern_shape iso H)
    as (y1 & y2 & y3 & y4 & m1 & m2 & d1 & d2 & -> & H1 & H2 & H3 & H4 & _).
  change (to_mrz_date _)
    with (String y3 (String y4 (String m1 (String m2 (String d1 (String d2 "")))))).
  rewrite parseDate_year by (auto; reflexivity).
  rewrite full_year_text by assumption.
  unfold iso_text, year_of.
  cbn [substring take drop Nat.min Nat.max Nat.sub append].
  pose proof (isDigit_digit_range y1 H1). pose proof (isDigit_digit_range y2 H2).
  pose proof (isDigit_digit_range y3 H3). pose proof (isDigit_digit_range y4 H4).
  destruct (Z.ltb_spec (Spec.digit y3) 5) as [Hlt | Hge]; cbn [append]; split.
  - intros [= <- <-]. change (Spec.digit "2") with 2.
    change (Spec.digit "0") with 0. lia.
  - intros Hw. assert (Spec.digit y1 = Spec.digit "2") as E1
        by (change (Spec.digit "2") with 2; lia).
    assert (Spec.digit y2 = Spec.digit "0") as E2
        by (change (Spec.digit "0") with 0; lia).
    apply digit_inj in E1, E2. subst. reflexivity.
  - intros [= <- <-]. change (Spec.digit "1") with 1.
    change (Spec.digit "9") with 9. lia.
  - intros Hw. assert (Spec.digit y1 = Spec.digit "1") as E1
        by (change (Spec.digit "1") with 1; lia).
    assert (Spec.digit y2 = Spec.digit "9") as E2
        by (change (Spec.digit "9") with 9; lia).
    apply digit_inj in E1, E2. subst. reflexivity.
Qed.

End Dates.

Section Names.
Import MRZParser Props.
Local Open Scope string_scope.

Lemma isUpper_not_filler (c : ascii) : isUpper c = true -> isFiller c = false.
Proof.
  unfold isUpper, between, isFiller. intros H.
  apply andb_prop in H as [H _]. apply N.leb_le in H.
  destruct (Ascii.eqb_spec c "<") as [-> | ]; [ | reflexivity].
  vm_compute in H. contradiction H. reflexivity.
Qed.

Lemma isUpper_not_space (c : ascii) : isUpper c = true -> isSpace c = false.
Proof.
  unfold isUpper, between, isSpace. intros H.
  apply andb_prop in H as [H1 H2]. apply N.leb_le in H1, H2.
  change (code "A") with 65%N in H1. change (code "Z") with 90%N in H2.
  destruct (N.leb_spec 9 (code c)), (N.leb_spec (code c) 13),
    (N.eqb_spec (code c) 32), (N.eqb_spec (code c) 160); simpl; try reflexivity; lia.
Qed.

Lemma split_other (cur : string) (a : ascii) (r : string) :
  isFiller a = false ->
  split_pair_from "<" "<" cur (String a r)
  = split_pair_from "<" "<" (cur ++ String a "") r.
Proof.
  intros H. unfold isFiller in H. cbn [split_pair_from].
  rewrite H. destruct r; reflexivity.
Qed.

Lemma split_single (cur : string) (b : ascii) (r : string) :
  isFiller b = false ->
  split_pair_from "<" "<" cur (String "<" (String b r))
  = split_pair_from "<" "<" (cur ++ "<") (String b r).
Proof.
  intros H. unfold isFiller in H.
  change (split_pair_from "<" "<" cur (String "<" (String b r)))
    with (if Ascii.eqb "<" "<" && Ascii.eqb b "<"
          then cur :: split_pair_from "<" "<" "" r
          else split_pair_from "<" "<" (cur ++ "<") (String b r)).
  rewrite H. reflexivity.
Qed.

Lemma split_separator (cur r : string) :
  split_pair_from "<" "<" cur (String "<" (String "<" r))
  = cur :: split_pair_from "<" "<" "" r.
Proof. reflexivity. Qed.

Lemma split_word (w : string) :
  forall cur r,
    JS.forallb isUpper w = true ->
    split_pair_from "<" "<" cur (w ++ r)
    = split_pair_from "<" "<" (cur ++ w) r.
Proof.
  induction w as [|c t IH]; intros cur r H.
  - simpl. rewrite str_app_nil_r. reflexivity.
  - simpl in H. apply andb_prop in H as [Hc Ht].
    cbn [append]. rewrite split_other by (apply isUpper_not_filler, Hc).
    rewrite IH by exact Ht. rewrite str_app_assoc. reflexivity.
Qed.

Lemma split_words (words : list string) :
  forall cur r,
    Forall is_word words ->
    split_pair_from "<" "<" cur (join "<" words ++ r)
    = split_pair_from "<" "<" (cur ++ join "<" words) r.
Proof.
  induction words as [|w ws IH]; intros cur r Hw.
  - simpl. rewrite str_app_nil_r. reflexivity.
  - inversion Hw as [|? ? [Hne Hup] Hws]; subst.
    destruct ws as [|w2 ws'].
    + apply split_word, Hup.
    + change (join "<" (w :: w2 :: ws'))
        with (w ++ String "<" (join "<" (w2 :: ws'))).
      rewrite str_app_assoc. rewrite split_word by exact Hup.
      inversion Hws as [|? ? [Hne2 Hup2] _]; subst.
      assert (exists b t, join "<" (w2 :: ws') = String b t
                          /\ isFiller b = false) as (b & t & Hj & Hb).
      { destruct w2 as [|b t]; [congruence | ].
        simpl in Hup2. apply andb_prop in Hup2 as [Hb _].
        destruct ws'; simpl; eexists _, _;
          (split; [reflexivity | apply isUpper_not_filler, Hb]). }
      cbn [append]. rewrite Hj. cbn [append].
      rewrite split_single by exact Hb.
      change (String b (t ++ r)) with (String b t ++ r). rewrite <- Hj.
      rewrite IH by exact Hws.
      rewrite !str_app_assoc. reflexivity.
Qed.

Lemma split_fillers (cur : string) (k : nat) :
  exists j tail,
    split_pair_from "<" "<" cur (fillers k) = (cur ++ fillers j) :: tail
    /\ (j <= 1)%nat.
Proof.
  destruct k as [|[|k]].
  - exists 0%nat, []. simpl. rewrite str_app_nil_r. split; [reflexivity | lia].
  - exists 1%nat, []. split; [reflexivity | lia].
  - exists 0%nat, (split_pair_from "<" "<" "" (fillers k)).
    rewrite str_app_nil_r. split; [reflexivity | lia].
Qed.

Lemma map_chars_app (f : ascii -> ascii) (a b : string) :
  map_chars f (a ++ b) = map_chars f a ++ map_chars f b.
Proof. induction a as [|c r IH]; simpl; [reflexivity | rewrite IH; reflexivity]. Qed.

Lemma map_chars_word (w : string) :
  JS.forallb isUpper w = true -> map_chars filler_to_space w = w.
Proof.
  induction w as [|c r IH]; simpl; [reflexivity | ].
  intros H. apply andb_prop in H as [Hc Hr].
  unfold filler_to_space at 1. rewrite (isUpper_not_filler c Hc), IH by exact Hr.
  reflexivity.
Qed.

Lemma map_chars_join (words : list string) :
  Forall is_word words ->
  map_chars filler_to_space (join "<" words) = join " " words.
Proof.
  induction words as [|w ws IH]; intros Hw; [reflexivity | ].
  inversion Hw as [|? ? [_ Hup] Hws]; subst.
  destruct ws as [|w2 ws'].
  - apply map_chars_word, Hup.
  - change (join "<" (w :: w2 :: ws'))
      with (w ++ String "<" (join "<" (w2 :: ws'))).
    change (join " " (w :: w2 :: ws'))
      with (w ++ String " " (join " " (w2 :: ws'))).
    rewrite map_chars_app, map_chars_word by exact Hup.
    cbn [map_chars]. rewrite IH by exact Hws. reflexivity.
Qed.

Lemma ends_with_space_not_all (v : string) :
  v <> "" -> ends_with_space v = false -> JS.forallb isSpace v = false.
Proof.
  induction v as [|c r IH]; intros Hne H; [congruence | ].
  destruct r as [|c' r'].
  - simpl in *. rewrite H. reflexivity.
  - change (JS.forallb isSpace (String c (String c' r')))
      with (isSpace c && JS.forallb isSpace (String c' r')).
    rewrite IH; [apply andb_false_r | discriminate | exact H].
Qed.

Lemma trim_end_spaces (t : string) :
  JS.forallb isSpace t = true -> trim_end t = "".
Proof. destruct t; [reflexivity | ]. intros H. cbn [trim_end]. rewrite H. reflexivity. Qed.

Lemma trim_end_pad (v t : string) :
  ends_with_space v = false -> JS.forallb isSpace t = true ->
  trim_end (v ++ t) = v.
Proof.
  induction v as [|c r IH]; intros H Ht.
  - apply trim_end_spaces, Ht.
  - cbn [append trim_end].
    assert (JS.forallb isSpace (String c (r ++ t)) = false) as ->.
    { change (String c (r ++ t)) with (String c r ++ t).
      rewrite str_forallb_app, (ends_with_space_not_all (String c r));
        [reflexivity | discriminate | exact H]. }
    f_equal. destruct r as [|c' r'].
    + apply trim_end_spaces, Ht.
    + apply IH; [exact H | exact Ht].
Qed.

Lemma ends_with_space_app (a b : string) :
  b <> "" -> ends_with_space (a ++ b) = ends_with_space b.
Proof.
  intros Hb. induction a as [|c r IH]; [reflexivity | ].
  cbn [append]. destruct (r ++ b) eqn:E.
  - destruct r; [simpl in E; congruence | discriminate].
  - exact IH.
Qed.

Lemma word_no_end_space (w : string) :
  JS.forallb isUpper w = true -> ends_with_space w = false.
Proof.
  induction w as [|c r IH]; [reflexivity | ].
  simpl. intros H. apply andb_prop in H as [Hc Hr].
  destruct r; [apply isUpper_not_space, Hc | apply IH, Hr].
Qed.

Lemma join_no_end_space (words : list string) :
  Forall is_word words -> ends_with_space (join " " words) = false.
Proof.
  induction words as [|w ws IH]; intros Hw; [reflexivity | ].
  inversion Hw as [|? ? [_ Hup] Hws]; subst.
  destruct ws as [|w2 ws'].
  - apply word_no_end_space, Hup.
  - change (join " " (w :: w2 :: ws'))
      with (w ++ String " " (join " " (w2 :: ws'))).
    rewrite ends_with_space_app by discriminate.
    specialize (IH Hws).
    inversion Hws as [|? ? [Hne2 _] _]; subst.
    destruct (join " " (w2 :: ws')) eqn:E.
    + destruct w2; [congruence | destruct ws'; discriminate E].
    + exact IH.
Qed.

Lemma join_trim_start (words : list string) (t : string) :
  Forall is_word words -> JS.forallb isSpace t = true ->
  trim_start (join " " words ++ t)
  = match words with [] => "" | _ => join " " words ++ t end.
Proof.
  intros Hw Ht. destruct words as [|w ws].
  - simpl. clear Hw. induction t as [|c r IH]; [reflexivity | ].
    simpl in *. apply andb_prop in Ht as [Hc Hr]. rewrite Hc. auto.
  - inversion Hw as [|? ? [Hne Hup] _]; subst.
    destruct w as [|c r]; [congruence | ].
    simpl in Hup. apply andb_prop in Hup as [Hc _].
    assert (exists rest, join " " (String c r :: ws) ++ t = String c rest)
      as [rest ->].
    { destruct ws; simpl; eexists; reflexivity. }
    simpl. rewrite (isUpper_not_space c Hc). reflexivity.
Qed.

Lemma decode_segment (words : list string) (j : nat) :
  Forall is_word words ->
  trim (map_chars filler_to_space (join "<" words ++ fillers j))
  = join " " words.
Proof.
  intros Hw. rewrite map_chars_app, map_chars_join by exact Hw.
  assert (JS.forallb isSpace (map_chars filler_to_space (fillers j)) = true)
    as Hsp by (induction j; simpl; auto).
  unfold trim. rewrite join_trim_start by assumption.
  destruct words as [|w ws]; [reflexivity | ].
  apply trim_end_pad; [apply join_no_end_space, Hw | exact Hsp].
Qed.

Lemma name_block_decoded (surname given : list string) (k : nat) :
  Forall is_word surname -> Forall is_word given ->
  let names := split_pair "<" "<" (name_block surname given k) in
  name_part names 0 = join " " surname
  /\ name_part names 1 = join " " given.
Proof.
  intros Hs Hg names. subst names. unfold split_pair, name_block.
  rewrite split_words by exact Hs. cbn [append].
  rewrite split_separator, split_words by exact Hg. cbn [append].
  destruct (split_fillers (join "<" given) k) as (j & tail & -> & _).
  unfold name_part. cbn [nth_error].
  split.
  - pose proof (decode_segment surname 0 Hs) as H. simpl in H.
    rewrite str_app_nil_r in H. exact H.
  - apply decode_segment, Hg.
Qed.

End Names.

(** *** The lines of a passport *)

Section TD3RoundTrip.
Import MRZParser Props DocumentValidator.
Local Open Scope string_scope.
Local Open Scope Z_scope.

Lemma length_pad (width : nat) (v : string) :
  (String.length v <= width)%nat -> String.length (pad width v) = width.
Proof.
  intros H. unfold pad. rewrite str_length_app, length_fillers. lia.
Qed.

Lemma str_drop_app (pre s : string) : drop (String.length pre) (pre ++ s) = s.
Proof. induction pre as [|c r IH]; simpl; auto. Qed.

Lemma str_take_app (mid post : string) : take (String.length mid) (mid ++ post) = mid.
Proof.
  induction mid as [|c r IH]; simpl; [destruct post; reflexivity | ].
  rewrite IH. reflexivity.
Qed.

(** The field between two indices of a line. *)
Lemma field_at (pre mid post : string) (a b : nat) :
  String.length pre = a -> (a + String.length mid = b)%nat ->
  substring a b (pre ++ mid ++ post) = mid.
Proof.
  intros Ha Hb. unfold substring.
  rewrite Nat.min_l, Nat.max_r by lia.
  replace (b - a)%nat with (String.length mid) by lia.
  subst a. rewrite str_drop_app. apply str_take_app.
Qed.

Lemma str_drop_drop (n : nat) : forall (m : nat) (s : string),
  drop m (drop n s) = drop (n + m) s.
Proof.
  induction n as [|n IH]; intros m s; [reflexivity | ].
  destruct s as [|c r]; simpl; [destruct m; reflexivity | apply IH].
Qed.

(** Past a prefix, the indices count from its end. *)
Lemma substring_skip (pre s : string) (a b n : nat) :
  String.length pre = n -> (n <= a)%nat -> (a <= b)%nat ->
  substring a b (pre ++ s) = substring (a - n) (b - n) s.
Proof.
  intros Hn Ha Hb. unfold substring.
  rewrite !Nat.min_l, !Nat.max_r by lia.
  replace (b - n - (a - n))%nat with (b - a)%nat by lia.
  f_equal. replace a with (n + (a - n))%nat at 1 by lia.
  rewrite <- str_drop_drop. subst n. rewrite str_drop_app. reflexivity.
Qed.

Lemma field_first (mid post : string) (b : nat) :
  String.length mid = b -> substring 0 b (mid ++ post) = mid.
Proof. intros H. apply (field_at "" mid post 0 b); [reflexivity | exact H]. Qed.

Lemma keep_all (p : ascii -> bool) (s : string) :
  JS.forallb p s = true -> keep p s = s.
Proof.
  induction s as [|c r IH]; simpl; [reflexivity | ].
  intros H. apply andb_prop in H as [Hc Hr]. rewrite Hc, IH by exact Hr.
  reflexivity.
Qed.

Lemma fillers_alphabet (n : nat) : JS.forallb isMRZChar (fillers n) = true.
Proof. induction n; simpl; auto. Qed.

Lemma pad_alphabet (width : nat) (v : string) :
  JS.forallb isMRZChar v = true -> JS.forallb isMRZChar (pad width v) = true.
Proof.
  intros H. unfold pad. rewrite str_forallb_app, H, fillers_alphabet. reflexivity.
Qed.

Lemma isDigit_alphabet (c : ascii) : isDigit c = true -> isMRZChar c = true.
Proof. intros H. unfold isMRZChar. rewrite H. apply orb_true_r || (destruct (isUpper c); reflexivity). Qed.

Lemma isUpper_alphabet (c : ascii) : isUpper c = true -> isMRZChar c = true.
Proof. intros H. unfold isMRZChar. rewrite H. reflexivity. Qed.

Lemma word_alphabet (w : string) :
  JS.forallb isUpper w = true -> JS.forallb isMRZChar w = true.
Proof.
  induction w as [|c r IH]; simpl; [reflexivity | ].
  intros H. apply andb_prop in H as [Hc Hr].
  rewrite (isUpper_alphabet c Hc), IH by exact Hr. reflexivity.
Qed.

Lemma join_alphabet (words : list string) :
  Forall is_word words -> JS.forallb isMRZChar (join "<" words) = true.
Proof.
  induction words as [|w ws IH]; intros Hw; [reflexivity | ].
  inversion Hw as [|? ? [_ Hup] Hws]; subst.
  destruct ws as [|w2 ws'].
  - apply word_alphabet, Hup.
  - change (join "<" (w :: w2 :: ws'))
      with (w ++ String "<" (join "<" (w2 :: ws'))).
    rewrite str_forallb_app, (word_alphabet w Hup). simpl. apply IH, Hws.
Qed.

Lemma check_char_digit (data : string) : isDigit (check_char data) = true.
Proof.
  unfold check_char.
  apply (Z_toString_digit (check_digit data)).
  apply Z.mod_pos_bound. lia.
Qed.

Lemma validateChecksum_check_char (data : string) :
  validateChecksum data (String (check_char data) "") = true.
Proof.
  rewrite validateChecksum_check_digit. apply String.eqb_eq.
  apply (Z_toString_digit (check_digit data)).
  apply Z.mod_pos_bound. lia.
Qed.

Lemma to_mrz_date_shape (iso : string) :
  iso8601Pattern iso = true ->
  String.length (to_mrz_date iso) = 6%nat
  /\ JS.forallb isMRZChar (to_mrz_date iso) = true.
Proof.
  intros H.
  destruct (iso8601Pattern_shape iso H)
    as (y1 & y2 & y3 & y4 & m1 & m2 & d1 & d2 & -> & _ & _ & H3 & H4 & H5
        & H6 & H7 & H8).
  split; [reflexivity | ].
  change (to_mrz_date _)
    with (String y3 (String y4 (String m1 (String m2 (String d1 (String d2 "")))))).
  simpl.
  rewrite !isDigit_alphabet by assumption. reflexivity.
Qed.

Section Lines.

Variables docType country number nationality dateOfBirth sex expiryDate
  unread : string.
Variables surname given : list string.

Hypothesis docType_fits :
  (String.length docType <= 2)%nat /\ ends_with_filler docType = false
  /\ JS.forallb isMRZChar docType = true.
Hypothesis country_fits :
  (String.length country <= 3)%nat /\ ends_with_filler country = false
  /\ JS.forallb isMRZChar country = true.
Hypothesis number_fits :
  (String.length number <= 9)%nat /\ ends_with_filler number = false
  /\ JS.forallb isMRZChar number = true.
Hypothesis nationality_fits :
  (String.length nationality <= 3)%nat /\ ends_with_filler nationality = false
  /\ JS.forallb isMRZChar nationality = true.
Hypothesis names_fit :
  Forall is_word surname /\ Forall is_word given
  /\ (String.length (join "<" surname ++ "<<" ++ join "<" given) <= 39)%nat.
Hypothesis dateOfBirth_fits :
  iso8601Pattern dateOfBirth = true /\ 1950 <= year_of dateOfBirth <= 2049.
Hypothesis expiryDate_fits :
  iso8601Pattern expiryDate = true /\ 1950 <= year_of expiryDate <= 2049.
Hypothesis sex_fits :
  String.length sex = 1%nat /\ JS.forallb isMRZChar sex = true.
Hypothesis unread_fits :
  String.length unread = 16%nat /\ JS.forallb isMRZChar unread = true.

Let line1 := encode_line1 docType country surname given.
Let line2 :=
  encode_line2 number nationality dateOfBirth sex expiryDate unread.

Lemma line1_shape :
  String.length line1 = 44%nat /\ JS.forallb isMRZChar line1 = true.
Proof.
  destruct docType_fits as (L1 & _ & A1), country_fits as (L2 & _ & A2),
    names_fit as (Hs & Hg & L3).
  unfold line1, encode_line1. split.
  - rewrite !str_length_app, !length_pad by assumption. reflexivity.
  - rewrite !str_forallb_app, !pad_alphabet; auto.
    rewrite !str_forallb_app, !join_alphabet by assumption. reflexivity.
Qed.

Lemma line2_shape :
  String.length line2 = 44%nat /\ JS.forallb isMRZChar line2 = true.
Proof.
  destruct number_fits as (L1 & _ & A1), nationality_fits as (L2 & _ & A2),
    dateOfBirth_fits as (B & _), expiryDate_fits as (E & _),
    sex_fits as (L3 & A3), unread_fits as (L4 & A4).
  destruct (to_mrz_date_shape _ B) as (LB & AB).
  destruct (to_mrz_date_shape _ E) as (LE & AE).
  unfold line2, encode_line2. split.
  - cbn zeta. rewrite !str_length_app. simpl String.length.
    rewrite !length_pad, LB, LE, L3, L4 by assumption. reflexivity.
  - cbn zeta. rewrite !str_forallb_app. simpl JS.forallb.
    rewrite !pad_alphabet, AB, AE, A3, A4 by assumption.
    rewrite !(isDigit_alphabet _ (check_char_digit _)). reflexivity.
Qed.

Lemma decode_line1 :
  strip_trailing_fillers (substring 0 2 line1) = docType
  /\ strip_trailing_fillers (substring 2 5 line1) = country
  /\ substring 5 44 line1
     = name_block surname given
         (39 - String.length (join "<" surname ++ "<<" ++ join "<" given)).
Proof.
  destruct docType_fits as (L1 & E1 & _), country_fits as (L2 & E2 & _),
    names_fit as (_ & _ & L3).
  pose proof (length_pad 2 docType L1) as P1.
  pose proof (length_pad 3 country L2) as P2.
  pose proof (length_pad 39 _ L3) as P3.
  unfold line1, encode_line1. repeat split.
  - rewrite field_first by exact P1.
    apply strip_pad, E1.
  - rewrite (field_at (pad 2 docType) (pad 3 country) _ 2 5) by lia.
    apply strip_pad, E2.
  - rewrite <- str_app_assoc.
    rewrite <- (str_app_nil_r (pad 39 _)).
    rewrite (field_at (pad 2 docType ++ pad 3 country) (pad 39 _) "" 5 44)
      by (rewrite ?str_length_app; lia).
    unfold pad, name_block. rewrite !str_app_assoc. reflexivity.
Qed.

Lemma decode_line2 :
  let number9 := pad 9 number in
  let birth := to_mrz_date dateOfBirth in
  let expiry := to_mrz_date expiryDate in
  substring 0 9 line2 = number9
  /\ substring 9 10 line2 = String (check_char number9) ""
  /\ substring 10 13 line2 = pad 3 nationality
  /\ substring 13 19 line2 = birth
  /\ substring 19 20 line2 = String (check_char birth) ""
  /\ substring 20 21 line2 = sex
  /\ substring 21 27 line2 = expiry
  /\ substring 27 28 line2 = String (check_char expiry) "".
Proof.
  destruct number_fits as (L1 & _ & _), nationality_fits as (L2 & _ & _),
    dateOfBirth_fits as (B & _), expiryDate_fits as (E & _),
    sex_fits as (L3 & _).
  destruct (to_mrz_date_shape _ B) as (LB & _).
  destruct (to_mrz_date_shape _ E) as (LE & _).
  pose proof (length_pad 9 number L1) as P1.
  pose proof (length_pad 3 nationality L2) as P2.
  unfold line2, encode_line2. cbn zeta.
  set (n9 := pad 9 number) in *. set (n3 := pad 3 nationality) in *.
  set (b := to_mrz_date dateOfBirth) in *.
  set (e := to_mrz_date expiryDate) in *.
  set (cn := String (check_char n9) ""). set (cb := String (check_char b) "").
  set (ce := String (check_char e) "").
  assert (String.length cn = 1%nat) as C1 by reflexivity.
  assert (String.length cb = 1%nat) as C2 by reflexivity.
  assert (String.length ce = 1%nat) as C3 by reflexivity.
  repeat split.
  - apply field_first, P1.
  - rewrite (substring_skip n9 _ 9 10 9) by lia. apply field_first, C1.
  - rewrite (substring_skip n9 _ 10 13 9) by lia.
    rewrite (substring_skip cn _ _ _ 1) by lia. apply field_first, P2.
  - rewrite (substring_skip n9 _ 13 19 9) by lia.
    rewrite (substring_skip cn _ _ _ 1) by lia.
    rewrite (substring_skip n3 _ _ _ 3) by lia. apply field_first, LB.
  - rewrite (substring_skip n9 _ 19 20 9) by lia.
    rewrite (substring_skip cn _ _ _ 1) by lia.
    rewrite (substring_skip n3 _ _ _ 3) by lia.
    rewrite (substring_skip b _ _ _ 6) by lia. apply field_first, C2.
  - rewrite (substring_skip n9 _ 20 21 9) by lia.
    rewrite (substring_skip cn _ _ _ 1) by lia.
    rewrite (substring_skip n3 _ _ _ 3) by lia.
    rewrite (substring_skip b _ _ _ 6) by lia.
    rewrite (substring_skip cb _ _ _ 1) by lia. apply field_first, L3.
  - rewrite (substring_skip n9 _ 21 27 9) by lia.
    rewrite (substring_skip cn _ _ _ 1) by lia.
    rewrite (substring_skip n3 _ _ _ 3) by lia.
    rewrite (substring_skip b _ _ _ 6) by lia.
    rewrite (substring_skip cb _ _ _ 1) by lia.
    rewrite (substring_skip sex _ _ _ 1) by lia. apply field_first, LE.
  - rewrite (substring_skip n9 _ 27 28 9) by lia.
    rewrite (substring_skip cn _ _ _ 1) by lia.
    rewrite (substring_skip n3 _ _ _ 3) by lia.
    rewrite (substring_skip b _ _ _ 6) by lia.
    rewrite (substring_skip cb _ _ _ 1) by lia.
    rewrite (substring_skip sex _ _ _ 1) by lia.
    rewrite (substring_skip e _ _ _ 6) by lia. apply field_first, C3.
Qed.

Lemma parseTD3_encoded :
  parseTD3 line1 line2
  = mkMRZData docType country number dateOfBirth expiryDate nationality
      (join " " surname) (join " " given) sex true.
Proof.
  destruct decode_line1 as (D1 & D2 & D3).
  destruct decode_line2 as (E1 & E2 & E3 & E4 & E5 & E6 & E7 & E8).
  destruct names_fit as (Hs & Hg & _).
  destruct (name_block_decoded surname given
              (39 - String.length (join "<" surname ++ "<<" ++ join "<" given))
              Hs Hg) as (N1 & N2).
  destruct number_fits as (_ & F1 & _), nationality_fits as (_ & F2 & _).
  destruct dateOfBirth_fits as (B1 & B2), expiryDate_fits as (X1 & X2).
  unfold parseTD3.
  rewrite D1, D2, D3, N1, N2, E1, E2, E3, E4, E5, E6, E7, E8.
  rewrite (proj2 (parseDate_to_mrz_date dateOfBirth B1) B2).
  rewrite (proj2 (parseDate_to_mrz_date expiryDate X1) X2).
  rewrite !validateChecksum_check_char.
  unfold pad. rewrite !strip_pad by assumption. reflexivity.
Qed.

Lemma parseMRZ_encoded :
  parseMRZ [line1; line2]
  = Some (mkMRZData docType country number dateOfBirth expiryDate nationality
            (join " " surname) (join " " given) sex true).
Proof.
  destruct line1_shape as (L1 & A1), line2_shape as (L2 & A2).
  unfold parseMRZ. cbn [len List.length List.map].
  unfold clean. rewrite !keep_all by assumption.
  unfold strlen. rewrite L1, L2. simpl. f_equal. apply parseTD3_encoded.
Qed.

End Lines.

End TD3RoundTrip.

(** *** Round trips through the decoder; the handler's use of it *)

Section RoundTrips.
Import MRZParser Props DocumentValidator.
Local Open Scope string_scope.
Local Open Scope Z_scope.

(** X5: a date [YYYY-MM-DD] written as the six characters [YYMMDD] of the
    MRZ is decoded to itself exactly when its year is one of 1950 to
    2049; any other year comes back moved into that window. *)
Theorem parseDate_round_trip (iso : string) :
  iso8601Pattern iso = true ->
  parseDate (to_mrz_date iso) = iso <-> 1950 <= year_of iso <= 2049.
Proof. apply parseDate_to_mrz_date. Qed.

Lemma parseDate_round_trip_witness :
  parseDate (to_mrz_date "1974-08-12") = "1974-08-12"
  <-> 1950 <= year_of "1974-08-12" <= 2049.
Proof. apply parseDate_round_trip. reflexivity. Defined.

(** X6: a name block holds the words of the surname, two fillers, the
    words of the given names and fillers up to its width, the words
    separated by one filler; the decoder returns the surname and the
    given names with one space between the words. *)
Theorem name_block_round_trip (surname given : list string) (k : nat) :
  Forall is_word surname -> Forall is_word given ->
  let names := split_pair "<" "<" (name_block surname given k) in
  name_part names 0 = join " " surname
  /\ name_part names 1 = join " " given.
Proof. apply name_block_decoded. Qed.

Lemma name_block_round_trip_witness :
  let names :=
    split_pair "<" "<" (name_block ["VAN"; "DER"; "BERG"] ["ANNA"; "MARIA"] 9)
  in
  name_part names 0 = join " " ["VAN"; "DER"; "BERG"]
  /\ name_part names 1 = join " " ["ANNA"; "MARIA"].
Proof.
  apply name_block_round_trip;
    repeat (apply List.Forall_cons; [split; [discriminate | reflexivity] | ]);
    apply List.Forall_nil.
Defined.

(** X7: the two lines of a passport that are written from a record are
    decoded to that record, with the check digits found valid: type,
    country, number and nationality of at most 2, 3, 9 and 3 characters,
    names that fit the 39 characters of their block, and dates from
    1950 to 2049. *)
Theorem parseMRZ_td3_round_trip
  (docType country number nationality dateOfBirth sex expiryDate
   unread : string) (surname given : list string) :
  field_fits 2 docType -> field_fits 3 country -> field_fits 9 number ->
  field_fits 3 nationality -> names_fit 39 surname given ->
  date_fits dateOfBirth -> date_fits expiryDate ->
  text_fits 1 sex -> text_fits 16 unread ->
  parseMRZ
    [encode_line1 docType country surname given;
     encode_line2 number nationality dateOfBirth sex expiryDate unread]
  = Some (mkMRZData docType country number dateOfBirth expiryDate nationality
            (join " " surname) (join " " given) sex true).
Proof. intros. apply parseMRZ_encoded; assumption. Qed.

Lemma parseMRZ_td3_round_trip_witness :
  parseMRZ
    [encode_line1 "P" "UTO" ["ERIKSSON"] ["ANNA"; "MARIA"];
     encode_line2 "L898902C3" "UTO" "1974-08-12" "F" "2012-04-15"
       "ZE184226B<<<<<10"]
  = Some (mkMRZData "P" "UTO" "L898902C3" "1974-08-12" "2012-04-15" "UTO"
            (join " " ["ERIKSSON"]) (join " " ["ANNA"; "MARIA"]) "F" true).
Proof.
  apply parseMRZ_td3_round_trip.
  - split; [simpl; lia | split; reflexivity].
  - split; [simpl; lia | split; reflexivity].
  - split; [simpl; lia | split; reflexivity].
  - split; [simpl; lia | split; reflexivity].
  - split; [ | split; [ | simpl; lia]];
      repeat (apply List.Forall_cons;
              [split; [discriminate | reflexivity] | ]);
      apply List.Forall_nil.
  - split; [reflexivity | split; vm_compute; discriminate].
  - split; [reflexivity | split; vm_compute; discriminate].
  - split; reflexivity.
  - split; reflexivity.
Defined.

End RoundTrips.

Section TD1RoundTrip.
Import MRZParser Props DocumentValidator.
Local Open Scope string_scope.
Local Open Scope Z_scope.

Variables docType country number nationality dateOfBirth sex expiryDate
  unread1 unread2 : string.
Variables check1 check2 : ascii.
Variables surname given : list string.
Variable k : nat.

Hypothesis docType_fits : field_fits 2 docType.
Hypothesis country_fits : field_fits 3 country.
Hypothesis number_fits : field_fits 9 number.
Hypothesis nationality_fits : field_fits 3 nationality.
Hypothesis words : Forall is_word surname /\ Forall is_word given.
Hypothesis dateOfBirth_fits : date_fits dateOfBirth.
Hypothesis expiryDate_fits : date_fits expiryDate.
Hypothesis sex_fits : text_fits 1 sex.
Hypothesis unread1_fits : text_fits 16 unread1.
Hypothesis unread2_fits : JS.forallb isMRZChar unread2 = true.
Hypothesis check1_fits : isMRZChar check1 = true.
Hypothesis check2_fits : isMRZChar check2 = true.

Let line1 := encode_td1_line1 docType country number unread1.
Let line2 :=
  encode_td1_line2 dateOfBirth check1 sex expiryDate check2 nationality
    unread2.
Let line3 := name_block surname given k.

Lemma td1_shapes :
  String.length line1 = 30%nat /\ JS.forallb isMRZChar line1 = true
  /\ JS.forallb isMRZChar line2 = true /\ JS.forallb isMRZChar line3 = true.
Proof.
  destruct docType_fits as (L1 & _ & A1), country_fits as (L2 & _ & A2),
    number_fits as (L3 & _ & A3), nationality_fits as (L4 & _ & A4),
    words as (Hs & Hg), dateOfBirth_fits as (B & _),
    expiryDate_fits as (E & _), sex_fits as (L5 & A5),
    unread1_fits as (L6 & A6).
  destruct (to_mrz_date_shape _ B) as (LB & AB).
  destruct (to_mrz_date_shape _ E) as (LE & AE).
  unfold line1, line2, line3, encode_td1_line1, encode_td1_line2, name_block.
  repeat split.
  - rewrite !str_length_app, !length_pad, L6 by assumption. reflexivity.
  - rewrite !str_forallb_app, !pad_alphabet, A6 by assumption. reflexivity.
  - rewrite !str_forallb_app. simpl JS.forallb.
    rewrite !pad_alphabet, AB, AE, A5, check1_fits, check2_fits,
      unread2_fits by assumption.
    reflexivity.
  - rewrite !str_forallb_app, !join_alphabet, fillers_alphabet by assumption.
    reflexivity.
Qed.

Lemma decode_td1_line1 :
  substring 0 2 line1 = pad 2 docType
  /\ substring 2 5 line1 = pad 3 country
  /\ substring 5 14 line1 = pad 9 number.
Proof.
  destruct docType_fits as (L1 & _), country_fits as (L2 & _),
    number_fits as (L3 & _).
  pose proof (length_pad 2 docType L1) as P1.
  pose proof (length_pad 3 country L2) as P2.
  pose proof (length_pad 9 number L3) as P3.
  unfold line1, encode_td1_line1.
  set (a := pad 2 docType) in *. set (b := pad 3 country) in *.
  set (c := pad 9 number) in *.
  repeat split.
  - apply field_first, P1.
  - rewrite (substring_skip a _ 2 5 2) by lia. apply field_first, P2.
  - rewrite (substring_skip a _ 5 14 2) by lia.
    rewrite (substring_skip b _ _ _ 3) by lia. apply field_first, P3.
Qed.

Lemma decode_td1_line2 :
  substring 0 6 line2 = to_mrz_date dateOfBirth
  /\ substring 7 8 line2 = sex
  /\ substring 8 14 line2 = to_mrz_date expiryDate
  /\ substring 15 18 line2 = pad 3 nationality.
Proof.
  destruct nationality_fits as (L4 & _), dateOfBirth_fits as (B & _),
    expiryDate_fits as (E & _), sex_fits as (L5 & _).
  destruct (to_mrz_date_shape _ B) as (LB & _).
  destruct (to_mrz_date_shape _ E) as (LE & _).
  pose proof (length_pad 3 nationality L4) as P4.
  unfold line2, encode_td1_line2.
  set (b := to_mrz_date dateOfBirth) in *.
  set (e := to_mrz_date expiryDate) in *.
  set (n := pad 3 nationality) in *.
  set (c1 := String check1 ""). set (c2 := String check2 "").
  assert (String.length c1 = 1%nat) as C1 by reflexivity.
  assert (String.length c2 = 1%nat) as C2 by reflexivity.
  repeat split.
  - apply field_first, LB.
  - rewrite (substring_skip b _ 7 8 6) by lia.
    rewrite (substring_skip c1 _ _ _ 1) by lia. apply field_first, L5.
  - rewrite (substring_skip b _ 8 14 6) by lia.
    rewrite (substring_skip c1 _ _ _ 1) by lia.
    rewrite (substring_skip sex _ _ _ 1) by lia. apply field_first, LE.
  - rewrite (substring_skip b _ 15 18 6) by lia.
    rewrite (substring_skip c1 _ _ _ 1) by lia.
    rewrite (substring_skip sex _ _ _ 1) by lia.
    rewrite (substring_skip e _ _ _ 6) by lia.
    rewrite (substring_skip c2 _ _ _ 1) by lia. apply field_first, P4.
Qed.

Lemma parseMRZ_td1_encoded :
  parseMRZ [line1; line2; line3]
  = Some (mkMRZData docType country number dateOfBirth expiryDate nationality
            (join " " surname) (join " " given) sex true).
Proof.
  destruct td1_shapes as (L1 & A1 & A2 & A3).
  destruct decode_td1_line1 as (D1 & D2 & D3).
  destruct decode_td1_line2 as (E1 & E2 & E3 & E4).
  destruct words as (Hs & Hg).
  destruct (name_block_decoded surname given k Hs Hg) as (N1 & N2).
  destruct docType_fits as (_ & F1 & _), country_fits as (_ & F2 & _),
    number_fits as (_ & F3 & _), nationality_fits as (_ & F4 & _).
  destruct dateOfBirth_fits as (B1 & B2), expiryDate_fits as (X1 & X2).
  unfold parseMRZ. cbn [len List.length List.map].
  unfold clean. rewrite !keep_all by assumption.
  unfold strlen. rewrite L1. simpl. f_equal.
  unfold parseTD1. rewrite D1, D2, D3, E1, E2, E3, E4.
  unfold line3. rewrite N1, N2.
  rewrite (proj2 (parseDate_to_mrz_date dateOfBirth B1) B2).
  rewrite (proj2 (parseDate_to_mrz_date expiryDate X1) X2).
  unfold pad. rewrite !strip_pad by assumption. reflexivity.
Qed.

End TD1RoundTrip.

Section RoundTripTD1.
Import MRZParser Props DocumentValidator.
Local Open Scope string_scope.
Local Open Scope Z_scope.

(** X8: the three lines of an identity card that are written from a
    record are decoded to that record; the two characters that follow
    the dates, where the card carries its check digits, may be any
    characters of the alphabet: the record is reported with valid check
    digits all the same. *)
Theorem parseMRZ_td1_round_trip
  (docType country number nationality dateOfBirth sex expiryDate
   unread1 unread2 : string) (check1 check2 : ascii)
  (surname given : list string) (k : nat) :
  field_fits 2 docType -> field_fits 3 country -> field_fits 9 number ->
  field_fits 3 nationality ->
  Forall is_word surname /\ Forall is_word given ->
  date_fits dateOfBirth -> date_fits expiryDate ->
  text_fits 1 sex -> text_fits 16 unread1 ->
  JS.forallb isMRZChar unread2 = true ->
  isMRZChar check1 = true -> isMRZChar check2 = true ->
  parseMRZ
    [encode_td1_line1 docType country number unread1;
     encode_td1_line2 dateOfBirth check1 sex expiryDate check2 nationality
       unread2;
     name_block surname given k]
  = Some (mkMRZData docType country number dateOfBirth expiryDate nationality
            (join " " surname) (join " " given) sex true).
Proof. intros. apply parseMRZ_td1_encoded; assumption. Qed.

Lemma parseMRZ_td1_round_trip_witness :
  parseMRZ
    [encode_td1_line1 "I" "UTO" "D23145890" "7<<<<<<<<<<<<<<<";
     encode_td1_line2 "1974-08-12" "0" "F" "2012-04-15" "0" "UTO"
       "<<<<<<<<<<<6";
     name_block ["ERIKSSON"] ["ANNA"; "MARIA"] 6]
  = Some (mkMRZData "I" "UTO" "D23145890" "1974-08-12" "2012-04-15" "UTO"
            (join " " ["ERIKSSON"]) (join " " ["ANNA"; "MARIA"]) "F" true).
Proof.
  apply parseMRZ_td1_round_trip.
  - split; [simpl; lia | split; reflexivity].
  - split; [simpl; lia | split; reflexivity].
  - split; [simpl; lia | split; reflexivity].
  - split; [simpl; lia | split; reflexivity].
  - split;
      repeat (apply List.Forall_cons;
              [split; [discriminate | reflexivity] | ]);
      apply List.Forall_nil.
  - split; [reflexivity | split; vm_compute; discriminate].
  - split; [reflexivity | split; vm_compute; discriminate].
  - split; reflexivity.
  - split; reflexivity.
  - reflexivity.
  - reflexivity.
  - reflexivity.
Defined.

End RoundTripTD1.

Section DateFormat.
Import MRZParser Props DocumentValidator.
Local Open Scope string_scope.
Local Open Scope Z_scope.

Lemma isMRZChar_cases (c : ascii) : isMRZChar c = true -> In c mrz_chars.
Proof.
  destruct c as [b0 b1 b2 b3 b4 b5 b6 b7].
  destruct b0, b1, b2, b3, b4, b5, b6, b7; vm_compute;
    intros H; try discriminate H; tauto.
Qed.

Lemma year_texts_checked : year_texts_ok = true.
Proof. vm_compute. reflexivity. Qed.

Lemma year_text_cases (a b : ascii) :
  isMRZChar a = true -> isMRZChar b = true ->
  year_text_ok a b = true.
Proof.
  intros Ha Hb. apply isMRZChar_cases in Ha, Hb.
  pose proof year_texts_checked as H. unfold year_texts_ok in H.
  rewrite List.forallb_forall in H. specialize (H a Ha).
  rewrite List.forallb_forall in H. exact (H b Hb).
Qed.

Lemma parseDate_year_text (a b c d e f : ascii) :
  parseDate (String a (String b (String c (String d (String e (String f ""))))))
  = year_text a b ++ "-" ++ String c (String d "") ++ "-"
    ++ String e (String f "").
Proof. reflexivity. Qed.

Lemma iso8601Pattern_parts (y : string) (c d e f : ascii) :
  String.length y = 4%nat ->
  iso8601Pattern
    (y ++ "-" ++ String c (String d "") ++ "-" ++ String e (String f ""))
  = JS.forallb isDigit y
    && JS.forallb isDigit (String c (String d (String e (String f "")))).
Proof.
  intros Hy.
  destruct y as [|y1 [|y2 [|y3 [|y4 [|? ?]]]]]; try discriminate Hy.
  unfold iso8601Pattern.
  cbn [append substring take drop Nat.min Nat.max Nat.sub String.length
       Nat.eqb JS.forallb String.eqb Ascii.eqb Bool.eqb andb].
  destruct (isDigit y1), (isDigit y2), (isDigit y3), (isDigit y4),
    (isDigit c), (isDigit d), (isDigit e), (isDigit f); reflexivity.
Qed.

(** X9: on six characters of the MRZ alphabet, [parseDate] returns a text
    of the form [YYYY-MM-DD] exactly when the month and the day are
    digits and the year field can be read as a number: it begins with a
    digit and is not [0X].  So a year field such as [7<] is read as a
    one-digit year. *)
Theorem parseDate_format (s : string) :
  String.length s = 6%nat -> JS.forallb isMRZChar s = true ->
  iso8601Pattern (parseDate s)
  = year_readable s && JS.forallb isDigit (substring 2 6 s).
Proof.
  intros Hlen Halpha.
  destruct s as [|a [|b [|c [|d [|e [|f [|? ?]]]]]]]; try discriminate Hlen.
  cbn [JS.forallb] in Halpha.
  apply andb_prop in Halpha as [Ha Halpha].
  apply andb_prop in Halpha as [Hb _].
  rewrite parseDate_year_text.
  pose proof (year_text_cases a b Ha Hb) as Hy. unfold year_text_ok in Hy.
  change (year_readable (String a (String b (String c (String d (String e (String f "")))))))
    with (year_readable (String a (String b ""))).
  change (substring 2 6 (String a (String b (String c (String d (String e (String f "")))))))
    with (String c (String d (String e (String f "")))).
  destruct (year_readable (String a (String b ""))).
  - apply andb_prop in Hy as [Hl Hd]. apply Nat.eqb_eq in Hl.
    rewrite iso8601Pattern_parts by exact Hl. rewrite Hd. reflexivity.
  - apply String.eqb_eq in Hy. rewrite Hy. reflexivity.
Qed.

Lemma parseDate_format_witness :
  iso8601Pattern (parseDate "7<0812")
  = year_readable "7<0812" && JS.forallb isDigit (substring 2 6 "7<0812").
Proof. apply parseDate_format; reflexivity. Defined.

End DateFormat.

Section Handler.
Import MRZParser Props.
Local Open Scope string_scope.
Local Open Scope Z_scope.

Lemma extractMRZFromText_filter (text : string) :
  extractMRZFromText text
  = List.filter Spec.qualifies
      (List.map Spec.remove_whitespace (split_char "010" text)).
Proof.
  unfold extractMRZFromText. rewrite select_lines. simpl.
  rewrite List.map_map. f_equal.
  apply List.map_ext, remove_whitespace_trim.
Qed.

Lemma clean_selected (lines : list string) :
  List.map clean (List.filter Spec.qualifies lines)
  = List.filter Spec.qualifies lines.
Proof.
  induction lines as [|l ls IH]; [reflexivity | ].
  cbn [List.filter]. destruct (Spec.qualifies l) eqn:Hq; [ | exact IH].
  cbn [List.map]. rewrite IH. f_equal.
  unfold Spec.qualifies in Hq.
  apply andb_prop in Hq as [Hq _]. apply andb_prop in Hq as [Hq _].
  apply keep_all, Hq.
Qed.

(** X10: the handler decodes the lines that the selector returns.  On
    these the decoder's own cleaning changes nothing, and a record comes
    back exactly when the selector found two lines of 44 characters, or
    three lines the first of which has 30; no other number of candidate
    lines gives a record. *)
Theorem parseMRZ_of_selected_lines (text : string) :
  let lines := extractMRZFromText text in
  List.map clean lines = lines
  /\ (is_Some (parseMRZ lines)
      <-> Spec.td3_shape lines \/ Spec.td1_dispatch lines)
  /\ (List.length lines <> 2%nat -> List.length lines <> 3%nat ->
      parseMRZ lines = None).
Proof.
  cbv zeta.
  assert (List.map clean (extractMRZFromText text) = extractMRZFromText text)
    as Hclean by (rewrite extractMRZFromText_filter; apply clean_selected).
  split; [exact Hclean | split].
  - rewrite parseMRZ_dispatch, Hclean. reflexivity.
  - intros H2 H3.
    destruct (parseMRZ (extractMRZFromText text)) as [m | ] eqn:Hm;
      [exfalso | reflexivity].
    assert (is_Some (parseMRZ (extractMRZFromText text))) as Hs
        by (rewrite Hm; eexists; reflexivity).
    apply parseMRZ_dispatch in Hs. rewrite Hclean in Hs.
    destruct Hs as [(a & b & E & _) | (a & b & c & E & _)];
      rewrite E in *; simpl in *; congruence.
Qed.

Lemma parseMRZ_of_selected_lines_witness :
  parseMRZ (extractMRZFromText "Passport of Utopia") = None.
Proof.
  apply (proj2 (proj2 (parseMRZ_of_selected_lines "Passport of Utopia")));
    vm_compute; discriminate.
Defined.

End Handler.

(** *** The edit distance as a distance *)

(** *** The edit distance as a distance *)

Section Metric.
Import DocumentValidator.
Local Open Scope nat_scope.

Lemma charAt_eqb_refl (a : string) (k : nat) : charAt_eqb a k a k = true.
Proof.
  unfold charAt_eqb. destruct (String.get k a); [apply Ascii.eqb_refl | reflexivity].
Qed.

(** Two strings of one length that agree at every index are equal. *)
Lemma string_ext (a : string) : forall b : string,
  String.length a = String.length b ->
  (forall k, k < String.length a -> charAt_eqb a k b k = true) ->
  a = b.
Proof.
  induction a as [|c r IH]; intros [|c' r'] Hlen Hget; try discriminate Hlen.
  - reflexivity.
  - simpl in Hlen.
    pose proof (Hget 0 ltac:(simpl; lia)) as H0. unfold charAt_eqb in H0.
    simpl in H0. apply Ascii.eqb_eq in H0. subst c'. f_equal.
    apply IH; [lia | ]. intros k Hk.
    apply (Hget (S k)). simpl. lia.
Qed.

Lemma distance_zero (a b : string) : forall i j,
  Spec.distance a b i j = 0 ->
  i = j /\ forall k, k < i -> charAt_eqb a k b k = true.
Proof.
  induction i as [|i IH]; intros j H.
  - simpl in H. subst j. split; [reflexivity | intros k Hk; lia].
  - destruct j as [|j]; [simpl in H; discriminate H | ].
    rewrite distance_S_S in H.
    destruct (charAt_eqb a i b j) eqn:Hc.
    + destruct (IH j H) as [-> Hk]. split; [reflexivity | ].
      intros k Hlt. destruct (Nat.eq_dec k j) as [-> | Hne]; [exact Hc | ].
      apply Hk. lia.
    + unfold min3 in H. lia.
Qed.

Lemma distance_diag (a b : string) : forall i,
  (forall k, k < i -> charAt_eqb a k b k = true) ->
  Spec.distance a b i i = 0.
Proof.
  induction i as [|i IH]; intros H; [reflexivity | ].
  rewrite distance_S_S, (H i) by lia. apply IH. intros k Hk. apply H. lia.
Qed.

Lemma distance_ge_diff (a b : string) : forall i j,
  Nat.max i j - Nat.min i j <= Spec.distance a b i j.
Proof.
  induction i as [|i IHi]; intros j; [simpl; lia | ].
  induction j as [|j IHj]; [simpl; lia | ].
  rewrite distance_S_S.
  pose proof (IHi j). pose proof (IHi (S j)). unfold min3.
  destruct (charAt_eqb a i b j); lia.
Qed.

Lemma levenshteinDistance_zero (a b : string) :
  levenshteinDistance a b = 0 <-> a = b.
Proof.
  rewrite levenshteinDistance_recurrence. split.
  - intros H. apply distance_zero in H as [Hlen Hk]. symmetry.
    apply string_ext; [exact Hlen | exact Hk].
  - intros ->. apply distance_diag. intros k _. apply charAt_eqb_refl.
Qed.

(** X11: the number returned by [levenshteinDistance] is the edit distance of
    the textbooks (insertions, deletions and substitutions, each of cost
    one), although the loop copies the diagonal cell without a minimum when
    two characters are equal; it does not depend on the order of the
    arguments. *)
Theorem levenshteinDistance_textbook (a b : string) :
  levenshteinDistance a b
  = Spec.edit_distance a b (String.length a) (String.length b)
  /\ levenshteinDistance a b = levenshteinDistance b a.
Proof.
  split; [ | apply levenshteinDistance_sym].
  rewrite levenshteinDistance_sym, levenshteinDistance_recurrence.
  apply distance_edit_distance.
Qed.

(** X12: the distance of two strings is 0 exactly when they are equal. *)
Theorem levenshteinDistance_zero_iff (a b : string) :
  levenshteinDistance a b = 0 <-> a = b.
Proof. apply levenshteinDistance_zero. Qed.

(** X13: the distance is at least the difference of the two lengths and at
    most the longer length. *)
Theorem levenshteinDistance_bounds (a b : string) :
  Nat.max (String.length a) (String.length b)
  - Nat.min (String.length a) (String.length b)
  <= levenshteinDistance a b
  <= Nat.max (String.length a) (String.length b).
Proof.
  split; [ | apply levenshteinDistance_le_max].
  rewrite levenshteinDistance_recurrence.
  pose proof (distance_ge_diff b a (String.length b) (String.length a)). lia.
Qed.

End Metric.

Section Unit.
Import Double DoubleFacts DocumentValidator.
Local Open Scope Q_scope.

Lemma similarity_cases (a b : string) :
  let l := Nat.max (String.length a) (String.length b) in
  let d := levenshteinDistance a b in
  (l = 0%nat /\ a = b /\ calculateSimilarity a b = 1)
  \/ ((0 < l)%nat /\ (d <= l)%nat
      /\ calculateSimilarity a b
         = fl (inject_Z (Z.of_nat l - Z.of_nat d) / inject_Z (Z.of_nat l))).
Proof.
  cbv zeta. rewrite calculateSimilarity_by_distance. cbv zeta.
  pose proof (levenshteinDistance_le_max a b) as Hd.
  destruct (Nat.eqb_spec (Nat.max (String.length a) (String.length b)) 0)
    as [H0 | Hpos].
  - left. split; [exact H0 | split; [ | reflexivity]].
    destruct a, b; simpl in H0; try lia. reflexivity.
  - right. split; [lia | split; [exact Hd | reflexivity]].
Qed.

Lemma calculateSimilarity_range (a b : string) :
  0 <= calculateSimilarity a b <= 1.
Proof.
  destruct (similarity_cases a b) as [(_ & _ & ->) | (Hl & Hd & ->)];
    [split; lra | ].
  set (l := Nat.max _ _) in *. set (d := levenshteinDistance a b) in *.
  assert (0 < inject_Z (Z.of_nat l)) as HL
      by (rewrite <- (Zlt_Qlt 0); lia).
  assert (0 <= inject_Z (Z.of_nat l - Z.of_nat d)) as HN
      by (rewrite <- (Zle_Qle 0); lia).
  assert (inject_Z (Z.of_nat l - Z.of_nat d) <= inject_Z (Z.of_nat l)) as HNL
      by (rewrite <- Zle_Qle; lia).
  assert (0 <= inject_Z (Z.of_nat l - Z.of_nat d) / inject_Z (Z.of_nat l))
    as H0 by (apply Qle_shift_div_l; lra).
  assert (inject_Z (Z.of_nat l - Z.of_nat d) / inject_Z (Z.of_nat l) <= 1)
    as H1 by (apply Qle_shift_div_r; lra).
  split; [apply fl_nonneg, H0 | apply fl_le_1; assumption].
Qed.

Lemma calculateSimilarity_same (a : string) : calculateSimilarity a a = 1.
Proof.
  destruct (similarity_cases a a) as [(_ & _ & ->) | (Hl & Hd & ->)];
    [reflexivity | ].
  rewrite (proj2 (levenshteinDistance_zero a a) eq_refl).
  set (l := Nat.max _ _) in *. rewrite Nat2Z.inj_0, Z.sub_0_r.
  assert (0 < inject_Z (Z.of_nat l)) as HL
      by (rewrite <- (Zlt_Qlt 0); lia).
  rewrite (fl_proper _ 1); [reflexivity | ]. field. lra.
Qed.

Lemma calculateSimilarity_one (a b : string) :
  (Z.of_nat (Nat.max (String.length a) (String.length b)) < 2 ^ 50)%Z ->
  calculateSimilarity a b = 1 -> a = b.
Proof.
  intros Hlen H.
  destruct (similarity_cases a b) as [(_ & E & _) | (Hl & Hd & E)];
    [exact E | ].
  rewrite E in H. clear E.
  set (l := Nat.max _ _) in *. set (d := levenshteinDistance a b) in *.
  destruct (Nat.eq_dec d 0) as [H0 | Hne];
    [apply levenshteinDistance_zero, H0 | exfalso].
  assert (0 < inject_Z (Z.of_nat l)) as HL
      by (rewrite <- (Zlt_Qlt 0); lia).
  assert (0 <= inject_Z (Z.of_nat l - Z.of_nat d)) as HN
      by (rewrite <- (Zle_Qle 0); lia).
  assert (inject_Z (Z.of_nat l - Z.of_nat d) + 1 <= inject_Z (Z.of_nat l))
    as HNL.
  { change 1 with (inject_Z 1). rewrite <- inject_Z_plus, <- Zle_Qle. lia. }
  assert (inject_Z (Z.of_nat l) <= inject_Z (2 ^ 50)) as HB
      by (rewrite <- Zle_Qle; lia).
  change (inject_Z (2 ^ 50)) with (1125899906842624 # 1) in HB.
  set (x := inject_Z (Z.of_nat l - Z.of_nat d) / inject_Z (Z.of_nat l)) in *.
  assert (0 <= x) as Hx0 by (apply Qle_shift_div_l; lra).
  assert (x <= inject_Z (2 ^ 53 - 1) * 2 ^ (-53)) as Hx1.
  { apply Qle_shift_div_r; [exact HL | ].
    change (inject_Z (2 ^ 53 - 1) * 2 ^ (-53))
      with (9007199254740991 # 9007199254740992). lra. }
  pose proof (fl_le x (2 ^ 53 - 1) (-53) Hx0 Hx1 ltac:(lia)) as Hfl.
  rewrite H in Hfl.
  change (inject_Z (2 ^ 53 - 1) * 2 ^ (-53))
    with (9007199254740991 # 9007199254740992) in Hfl. lra.
Qed.

(** X14: the similarity of two names lies between 0 and 1; a name is fully
    similar to itself; two different names (of fewer than [2 ^ 50]
    characters) are never fully similar. *)
Theorem calculateSimilarity_unit (a b : string) :
  (Z.of_nat (Nat.max (String.length a) (String.length b)) < 2 ^ 50)%Z ->
  0 <= calculateSimilarity a b <= 1
  /\ (calculateSimilarity a b = 1 <-> a = b).
Proof.
  intros Hlen. split; [apply calculateSimilarity_range | ].
  split; [apply calculateSimilarity_one, Hlen | ].
  intros ->. apply calculateSimilarity_same.
Qed.

Lemma calculateSimilarity_unit_witness :
  0 <= calculateSimilarity "ANNA" "ANNE" <= 1
  /\ (calculateSimilarity "ANNA" "ANNE" = 1 <-> "ANNA"%string = "ANNE"%string).
Proof. apply calculateSimilarity_unit. simpl. lia. Defined.

End Unit.

(** *** The shape of the validator's result *)

Section ValidatorShape.
Import DocumentValidator Spec Props.
Local Open Scope string_scope.
Local Open Scope Z_scope.

Variable Zone : Type.
Variable parseISO : Zone -> string -> outcome Date.
Variable differenceInYears : Zone -> Date -> Date -> outcome jsnum.
Variable differenceInMonths : Zone -> Date -> Date -> outcome jsnum.
Variable toUpperCase : string -> string.
Variable zone : Zone.

Local Abbreviation validate :=
  (validateDocument parseISO differenceInYears differenceInMonths toUpperCase
     zone).

(** Every rule appends to the checks it is given. *)

Lemma rule_dateOfBirth_format_app (e : ExtractedData)
  (checks : list ValidationCheck) :
  rule_dateOfBirth_format e checks
  = (checks ++ rule_dateOfBirth_format e [])%list.
Proof.
  unfold rule_dateOfBirth_format, push.
  destruct (value_of (ex_dateOfBirth e)); [reflexivity | ].
  rewrite app_nil_r. reflexivity.
Qed.

Lemma rule_mrz_app (e : ExtractedData) (mrz : option MRZData)
  (checks : list ValidationCheck) :
  rule_mrz toUpperCase e mrz checks
  = (checks ++ rule_mrz toUpperCase e mrz [])%list.
Proof.
  unfold rule_mrz, push.
  destruct mrz as [m | ]; [ | rewrite app_nil_r; reflexivity].
  destruct (value_of (ex_documentNumber e)), (truthy_str (mrz_documentNumber m)),
    (value_of (ex_fullName e)); cbn [app]; rewrite <- ?app_assoc; reflexivity.
Qed.

Lemma rule_form_passport_app (e : ExtractedData) (form : option ApplicantForm)
  (checks : list ValidationCheck) :
  rule_form_passport toUpperCase e form checks
  = prepend_to checks (rule_form_passport toUpperCase e form []).
Proof.
  unfold rule_form_passport, prepend_to, push.
  destruct form as [f | ], (value_of (ex_documentNumber e));
    rewrite ?app_nil_r; try reflexivity.
  destruct (normalizeValue toUpperCase (form_passportNumber f)); reflexivity.
Qed.

Lemma rule_form_dateOfBirth_app (e : ExtractedData)
  (form : option ApplicantForm) (checks : list ValidationCheck) :
  rule_form_dateOfBirth e form checks
  = (checks ++ rule_form_dateOfBirth e form [])%list.
Proof.
  unfold rule_form_dateOfBirth, push.
  destruct form, (value_of (ex_dateOfBirth e));
    rewrite ?app_nil_r; reflexivity.
Qed.

Lemma rule_allowed_app (p : EligibilityPolicy) (n : string)
  (checks : list ValidationCheck) :
  rule_allowed p n checks = prepend_to checks (rule_allowed p n []).
Proof.
  unfold rule_allowed, prepend_to, push.
  destruct (listed (allowedNationalities p)) as [l | ];
    [ | rewrite app_nil_r; reflexivity].
  destruct (includes l n) as [[|] | ]; simpl; rewrite ?app_nil_r; reflexivity.
Qed.

Lemma rule_blocked_app (p : EligibilityPolicy) (n : string)
  (checks : list ValidationCheck) :
  rule_blocked p n checks = prepend_to checks (rule_blocked p n []).
Proof.
  unfold rule_blocked, prepend_to, push.
  destruct (listed (blockedNationalities p)) as [l | ];
    [ | rewrite app_nil_r; reflexivity].
  destruct (includes l n) as [[|] | ]; simpl; rewrite ?app_nil_r; reflexivity.
Qed.

Lemma rule_nationality_app (e : ExtractedData)
  (policy : option EligibilityPolicy) (checks : list ValidationCheck) :
  rule_nationality e policy checks
  = prepend_to checks (rule_nationality e policy []).
Proof.
  unfold rule_nationality.
  destruct policy as [p | ], (value_of (ex_nationality e)) as [n | ];
    try (unfold prepend_to; rewrite app_nil_r; reflexivity).
  rewrite (rule_allowed_app p n checks).
  destruct (rule_allowed p n []) as [c | ]; [ | reflexivity].
  cbn [prepend_to].
  rewrite (rule_blocked_app p n (checks ++ c)), (rule_blocked_app p n c).
  destruct (rule_blocked p n []) as [c' | ]; [ | reflexivity].
  cbn [prepend_to]. rewrite app_assoc. reflexivity.
Qed.

Lemma rule_ages_app (p : EligibilityPolicy) (age : jsnum)
  (checks : list ValidationCheck) :
  rule_maxAge p age (rule_minAge p age checks)
  = (checks ++ rule_maxAge p age (rule_minAge p age []))%list.
Proof.
  unfold rule_maxAge, rule_minAge, push.
  destruct (bound (minAge p)), (bound (maxAge p));
    repeat match goal with
           | |- context [if ?b then _ else _] => destruct b
           end;
    cbn [app]; rewrite <- ?app_assoc, ?app_nil_r; reflexivity.
Qed.

Lemma rule_expiryDate_app (e : ExtractedData) (checks : list ValidationCheck)
  (w : World) :
  rule_expiryDate parseISO zone e checks w
  = prepend checks (rule_expiryDate parseISO zone e [] w).
Proof.
  unfold rule_expiryDate, prepend, prepend_to, push.
  destruct (value_of (ex_expiryDate e)) as [v | ];
    [ | unfold mret, M_ret, ret; simpl; rewrite app_nil_r; reflexivity].
  unfold mbind, M_bind, bind, mret, M_ret, ret.
  destruct (validateExpiryDate parseISO zone v w) as [[c | ] w1]; simpl;
    rewrite <- ?app_assoc; reflexivity.
Qed.

Lemma rule_age_app (e : ExtractedData) (policy : option EligibilityPolicy)
  (checks : list ValidationCheck) (w : World) :
  rule_age parseISO differenceInYears zone e policy checks w
  = prepend checks (rule_age parseISO differenceInYears zone e policy [] w).
Proof.
  unfold rule_age, prepend, prepend_to.
  destruct policy as [p | ], (value_of (ex_dateOfBirth e)) as [v | ];
    try (unfold mret, M_ret, ret; simpl; rewrite app_nil_r; reflexivity).
  unfold mbind, M_bind, bind, mret, M_ret, ret.
  destruct (calculateAge parseISO differenceInYears zone v w) as [[age | ] w1];
    simpl; [ | reflexivity].
  rewrite rule_ages_app. reflexivity.
Qed.

Lemma rule_validity_app (e : ExtractedData) (policy : option EligibilityPolicy)
  (checks : list ValidationCheck) (w : World) :
  rule_validity parseISO differenceInMonths zone e policy checks w
  = prepend checks
      (rule_validity parseISO differenceInMonths zone e policy [] w).
Proof.
  unfold rule_validity, prepend, prepend_to, push.
  destruct policy as [p | ];
    [ | unfold mret, M_ret, ret; simpl; rewrite app_nil_r; reflexivity].
  destruct (bound (minPassportValidity p)) as [b | ],
    (value_of (ex_expiryDate e)) as [v | ];
    try (unfold mret, M_ret, ret; simpl; rewrite app_nil_r; reflexivity).
  unfold mbind, M_bind, bind, lift, newDate, mret, M_ret, ret.
  destruct (parseISO zone v) as [expiry | ]; [ | reflexivity].
  destruct (differenceInMonths zone expiry (Some (w 0%nat))) as [months | ];
    [ | reflexivity].
  destruct (num_lt months (Num b)); simpl; rewrite ?app_nil_r; reflexivity.
Qed.

(** The rules guarded by [try] and [catch] return. *)
Lemma validateExpiryDate_returns (v : string) (w : World) :
  exists c,
    validateExpiryDate parseISO zone v w
    = (Returned c, snd (validateExpiryDate parseISO zone v w))
    /\ field c = "Expiry Date".
Proof.
  unfold validateExpiryDate, try_catch, mbind, M_bind, bind, lift, newDate,
    mret, M_ret, ret.
  destruct (parseISO zone v) as [expiry | ]; simpl; eexists; split;
    reflexivity.
Qed.

Lemma calculateAge_returns (v : string) (w : World) :
  exists age,
    calculateAge parseISO differenceInYears zone v w
    = (Returned age, advance w).
Proof.
  unfold calculateAge, try_catch, mbind, M_bind, bind, lift, newDate, ret.
  destruct (parseISO zone v) as [birth | ]; simpl; [ | eexists; reflexivity].
  destruct (differenceInYears zone (Some (w 0%nat)) birth); eexists;
    reflexivity.
Qed.

(** The checks that each rule adds: how many, and under which labels. *)
Ltac labels :=
  repeat (apply List.Forall_cons;
          [unfold labelled; cbn [field In]; tauto | ]);
  apply List.Forall_nil.

Lemma part_dateOfBirth_format (e : ExtractedData) :
  (List.length (rule_dateOfBirth_format e []) <= 1)%nat
  /\ Forall (labelled other_labels) (rule_dateOfBirth_format e []).
Proof.
  unfold rule_dateOfBirth_format, push, validateDateFormat, other_labels.
  destruct (value_of (ex_dateOfBirth e)); simpl; split; try lia; labels.
Qed.

Lemma part_expiryDate (e : ExtractedData) (w : World) :
  exists c w1,
    rule_expiryDate parseISO zone e [] w = (Returned c, w1)
    /\ (List.length c <= 2)%nat /\ Forall (labelled other_labels) c.
Proof.
  unfold rule_expiryDate, push, validateDateFormat, other_labels.
  destruct (value_of (ex_expiryDate e)) as [v | ].
  - destruct (validateExpiryDate_returns v w) as (c & Hc & Hf).
    unfold mbind, M_bind, bind, mret, M_ret, ret. rewrite Hc.
    eexists _, _. split; [reflexivity | ]. simpl. split; [lia | ].
    repeat (apply List.Forall_cons;
            [unfold labelled; cbn [field In]; rewrite ?Hf; tauto | ]);
      apply List.Forall_nil.
  - eexists _, _. split; [reflexivity | ]. simpl.
    split; [lia | apply List.Forall_nil].
Qed.

Lemma part_mrz (e : ExtractedData) (mrz : option MRZData) :
  (List.length (rule_mrz toUpperCase e mrz []) <= 3)%nat
  /\ Forall (labelled mrz_labels) (rule_mrz toUpperCase e mrz []).
Proof.
  unfold rule_mrz, push, mrz_labels.
  destruct mrz as [m | ]; [ | simpl; split; [lia | apply List.Forall_nil]].
  destruct (value_of (ex_documentNumber e)), (truthy_str (mrz_documentNumber m)),
    (value_of (ex_fullName e)); simpl; split; try lia; labels.
Qed.

Lemma part_form_passport (e : ExtractedData) (form : option ApplicantForm)
  (c : list ValidationCheck) :
  rule_form_passport toUpperCase e form [] = Returned c ->
  (List.length c <= 1)%nat /\ Forall (labelled other_labels) c.
Proof.
  unfold rule_form_passport, push, other_labels.
  destruct form as [f | ], (value_of (ex_documentNumber e));
    try (intros [= <-]; simpl; split; [lia | apply List.Forall_nil]).
  destruct (normalizeValue toUpperCase (form_passportNumber f));
    [ | discriminate].
  intros [= <-]. simpl. split; [lia | labels].
Qed.

Lemma part_form_dateOfBirth (e : ExtractedData) (form : option ApplicantForm) :
  (List.length (rule_form_dateOfBirth e form []) <= 1)%nat
  /\ Forall (labelled other_labels) (rule_form_dateOfBirth e form []).
Proof.
  unfold rule_form_dateOfBirth, push, other_labels.
  destruct form, (value_of (ex_dateOfBirth e)); simpl; split; try lia; labels.
Qed.

Lemma part_ages (p : EligibilityPolicy) (age : jsnum) :
  (List.length (rule_maxAge p age (rule_minAge p age [])) <= 2)%nat
  /\ Forall (labelled other_labels)
       (rule_maxAge p age (rule_minAge p age [])).
Proof.
  unfold rule_maxAge, rule_minAge, push, other_labels.
  destruct (bound (minAge p)), (bound (maxAge p));
    repeat match goal with
           | |- context [if ?b then _ else _] => destruct b
           end;
    simpl; split; try lia; labels.
Qed.

Lemma part_age (e : ExtractedData) (policy : option EligibilityPolicy)
  (w : World) :
  exists c w1,
    rule_age parseISO differenceInYears zone e policy [] w = (Returned c, w1)
    /\ (List.length c <= 2)%nat /\ Forall (labelled other_labels) c.
Proof.
  unfold rule_age.
  destruct policy as [p | ], (value_of (ex_dateOfBirth e)) as [v | ];
    try (eexists _, _; split; [reflexivity | ]; simpl; split;
         [lia | apply List.Forall_nil]).
  destruct (calculateAge_returns v w) as (age & Hage).
  unfold mbind, M_bind, bind, mret, M_ret, ret. rewrite Hage.
  eexists _, _. split; [reflexivity | apply part_ages].
Qed.

Lemma part_nationality (e : ExtractedData) (policy : option EligibilityPolicy)
  (c : list ValidationCheck) :
  rule_nationality e policy [] = Returned c ->
  (List.length c <= 2)%nat /\ Forall (labelled other_labels) c.
Proof.
  unfold rule_nationality, rule_allowed, rule_blocked, push, other_labels.
  destruct policy as [p | ], (value_of (ex_nationality e)) as [n | ];
    try (intros [= <-]; simpl; split; [lia | apply List.Forall_nil]).
  destruct (listed (allowedNationalities p)) as [allowed | ],
    (listed (blockedNationalities p)) as [blocked | ];
    repeat match goal with
           | |- context [includes ?l ?s] => destruct (includes l s) as [[|] | ]
           end;
    simpl; try discriminate; intros [= <-]; simpl; split; try lia; labels.
Qed.

Lemma part_validity (e : ExtractedData) (policy : option EligibilityPolicy)
  (w w1 : World) (c : list ValidationCheck) :
  rule_validity parseISO differenceInMonths zone e policy [] w
  = (Returned c, w1) ->
  (List.length c <= 1)%nat /\ Forall (labelled other_labels) c.
Proof.
  unfold rule_validity, push, other_labels.
  destruct policy as [p | ];
    [ | intros [= <- _]; simpl; split; [lia | apply List.Forall_nil]].
  destruct (bound (minPassportValidity p)) as [b | ],
    (value_of (ex_expiryDate e)) as [v | ];
    try (intros [= <- _]; simpl; split; [lia | apply List.Forall_nil]).
  unfold mbind, M_bind, bind, lift, newDate, mret, M_ret, ret.
  destruct (parseISO zone v) as [expiry | ]; [ | discriminate].
  destruct (differenceInMonths zone expiry (Some (w 0%nat))) as [months | ];
    [ | discriminate].
  destruct (num_lt months (Num b)); intros [= <- _]; simpl; split; try lia;
    labels.
Qed.

(** What [validateDocument] does, rule by rule: the expiry rule and the
    age rule return; the rule of the passport number of the form, the
    nationality rule and the validity rule may throw, and what the rules
    before them have pushed is lost then. *)
Lemma validateDocument_parts (e : ExtractedData) (mrz : option MRZData)
  (form : option ApplicantForm) (policy : option EligibilityPolicy)
  (w : World) :
  exists c2 c6 w1 w2,
    rule_expiryDate parseISO zone e [] w = (Returned c2, w1)
    /\ rule_age parseISO differenceInYears zone e policy [] w1
       = (Returned c6, w2)
    /\ validate e mrz form policy w
       = match rule_form_passport toUpperCase e form [] with
         | Thrown => (Thrown, w1)
         | Returned c4 =>
             match rule_nationality e policy [] with
             | Thrown => (Thrown, w2)
             | Returned c7 =>
                 prepend
                   (rule_dateOfBirth_format e [] ++ c2
                    ++ rule_mrz toUpperCase e mrz [] ++ c4
                    ++ rule_form_dateOfBirth e form [] ++ c6 ++ c7)%list
                   (rule_validity parseISO differenceInMonths zone e policy
                      [] w2)
             end
         end
    /\ (List.length c2 <= 2)%nat /\ Forall (labelled other_labels) c2
    /\ (List.length c6 <= 2)%nat /\ Forall (labelled other_labels) c6.
Proof.
  destruct (part_expiryDate e w) as (c2 & w1 & H2 & L2 & F2).
  destruct (part_age e policy w1) as (c6 & w2 & H6 & L6 & F6).
  exists c2, c6, w1, w2. repeat split; try assumption.
  unfold validateDocument, mbind, M_bind, bind, lift.
  rewrite rule_expiryDate_app, H2. cbn [prepend prepend_to fst snd].
  rewrite rule_form_passport_app.
  destruct (rule_form_passport toUpperCase e form []) as [c4 | ];
    [ | reflexivity].
  cbn [prepend_to].
  rewrite rule_age_app, H6. cbn [prepend prepend_to fst snd].
  rewrite rule_nationality_app.
  destruct (rule_nationality e policy []) as [c7 | ]; [ | reflexivity].
  cbn [prepend_to].
  rewrite rule_validity_app. f_equal.
  rewrite (rule_form_dateOfBirth_app e form).
  rewrite (rule_mrz_app e mrz).
  rewrite <- !app_assoc. reflexivity.
Qed.

(** The checks returned are those of the MRZ rule, with at most three
    checks of other rules before them and at most seven after. *)
Lemma validateDocument_returned (e : ExtractedData) (mrz : option MRZData)
  (form : option ApplicantForm) (policy : option EligibilityPolicy)
  (w w' : World) (checks : list ValidationCheck) :
  validate e mrz form policy w = (Returned checks, w') ->
  exists before after,
    checks = (before ++ rule_mrz toUpperCase e mrz [] ++ after)%list
    /\ (List.length before <= 3)%nat /\ (List.length after <= 7)%nat
    /\ Forall (labelled other_labels) before
    /\ Forall (labelled other_labels) after.
Proof.
  intros H.
  destruct (validateDocument_parts e mrz form policy w)
    as (c2 & c6 & w1 & w2 & _ & _ & Hv & L2 & F2 & L6 & F6).
  rewrite Hv in H. clear Hv.
  destruct (rule_form_passport toUpperCase e form []) as [c4 | ] eqn:H4;
    [ | discriminate H].
  destruct (rule_nationality e policy []) as [c7 | ] eqn:H7;
    [ | discriminate H].
  unfold prepend, prepend_to in H.
  destruct (rule_validity parseISO differenceInMonths zone e policy [] w2)
    as [[c8 | ] w3] eqn:H8; [ | discriminate H].
  destruct (part_validity e policy w2 w3 c8 H8) as [L8 F8].
  destruct (part_dateOfBirth_format e) as [L1 F1].
  destruct (part_form_passport e form c4 H4) as [L4 F4].
  destruct (part_form_dateOfBirth e form) as [L5 F5].
  destruct (part_nationality e policy c7 H7) as [L7 F7].
  simpl in H. injection H as <- _.
  exists (rule_dateOfBirth_format e [] ++ c2)%list,
    (c4 ++ rule_form_dateOfBirth e form [] ++ c6 ++ c7 ++ c8)%list.
  split; [rewrite <- !app_assoc; reflexivity | ].
  split; [rewrite length_app; lia | ].
  split; [rewrite !length_app; lia | ].
  split; repeat (apply Forall_app; split); assumption.
Qed.

Lemma labelled_known (ls : list string) (l : list ValidationCheck) :
  incl ls check_labels -> Forall (labelled ls) l -> Forall known_label l.
Proof.
  intros Hincl H. induction H as [|c cs Hc _ IH]; constructor; [ | exact IH].
  apply Hincl, Hc.
Qed.

Lemma other_labels_known : incl other_labels check_labels.
Proof.
  intros x H. unfold other_labels, check_labels in *. simpl in *.
  repeat (destruct H as [<- | H]; [tauto | ]). contradiction.
Qed.

Lemma mrz_labels_known : incl mrz_labels check_labels.
Proof.
  intros x H. unfold mrz_labels, check_labels in *. simpl in *.
  repeat (destruct H as [<- | H]; [tauto | ]). contradiction.
Qed.

Lemma validateDocument_bounded (e : ExtractedData) (mrz : option MRZData)
  (form : option ApplicantForm) (policy : option EligibilityPolicy)
  (w w' : World) (checks : list ValidationCheck) :
  validate e mrz form policy w = (Returned checks, w') ->
  (List.length checks <= 13)%nat /\ Forall known_label checks.
Proof.
  intros H.
  destruct (validateDocument_returned _ _ _ _ _ _ _ H)
    as (before & after & -> & Lb & La & Fb & Fa).
  destruct (part_mrz e mrz) as [L3 F3].
  split.
  - rewrite !length_app. lia.
  - repeat (apply Forall_app; split).
    + apply (labelled_known _ _ other_labels_known Fb).
    + apply (labelled_known _ _ mrz_labels_known F3).
    + apply (labelled_known _ _ other_labels_known Fa).
Qed.

(** X15: whatever the documents and the policy, [validateDocument] returns
    at most 13 checks, each under one of its ten labels. *)
Theorem validateDocument_at_most_13_checks (e : ExtractedData)
  (mrz : option MRZData) (form : option ApplicantForm)
  (policy : option EligibilityPolicy) (w w' : World)
  (checks : list ValidationCheck) :
  validate e mrz form policy w = (Returned checks, w') ->
  (List.length checks <= 13)%nat
  /\ (forall c, In c checks -> In (field c) check_labels).
Proof.
  intros H. destruct (validateDocument_bounded _ _ _ _ _ _ _ H) as [L F].
  split; [exact L | ]. rewrite List.Forall_forall in F. exact F.
Qed.

Lemma rule_form_passport_throws (e : ExtractedData)
  (form : option ApplicantForm) :
  rule_form_passport toUpperCase e form [] = Thrown
  <-> form_number_missing e form = true.
Proof.
  unfold rule_form_passport, form_number_missing, normalizeValue.
  destruct form as [f | ], (value_of (ex_documentNumber e)) as [v | ];
    try (split; discriminate).
  destruct (form_passportNumber f); split; try discriminate; reflexivity.
Qed.

Lemma listed_not_a_list (l : option Nationalities) :
  is_not_a_list l = true <-> listed l = Some NotAList.
Proof.
  destruct l as [[l | [|c t] | ] | ]; simpl; split; try discriminate;
    reflexivity.
Qed.

Lemma rule_nationality_throws (e : ExtractedData)
  (policy : option EligibilityPolicy) :
  rule_nationality e policy [] = Thrown
  <-> nationality_list_broken e policy = true.
Proof.
  unfold rule_nationality, nationality_list_broken, rule_allowed,
    rule_blocked.
  destruct policy as [p | ], (value_of (ex_nationality e)) as [n | ];
    try (split; discriminate).
  rewrite orb_true_iff, !listed_not_a_list.
  destruct (listed (allowedNationalities p)) as [[l | t | ] | ],
    (listed (blockedNationalities p)) as [[l' | t' | ] | ]; cbn [includes];
    split; intros H; try discriminate H; try reflexivity;
    try (left; reflexivity); try (right; reflexivity);
    destruct H as [H | H]; discriminate H.
Qed.

(** X16: when [parseISO] and [differenceInMonths] return, whatever
    [differenceInYears] does (the library calls of the expiry rule and
    of [calculateAge] stand in a [try]), [validateDocument] throws in
    exactly two cases, both outside any [try] of its own (the handler
    catches the error and answers 500): a document number was
    extracted and the passport number of the form is no string, on which
    [normalizeString] calls [toUpperCase]; or a nationality was
    extracted and a list of nationalities of the policy is a truthy
    value that is neither an array nor a text, and has no [includes].
    In every other case it returns its checks.  This is for what the
    handler can pass: extracted values that are strings, a form and a
    policy parsed from the request, the numeric bounds of the policy
    being integers. *)
Theorem validateDocument_throws_iff (e : ExtractedData)
  (mrz : option MRZData) (form : option ApplicantForm)
  (policy : option EligibilityPolicy) (w : World) :
  (forall v, parseISO zone v <> Thrown) ->
  (forall a b, differenceInMonths zone a b <> Thrown) ->
  (fst (validate e mrz form policy w) = Thrown
   <-> form_number_missing e form || nationality_list_broken e policy = true)
  /\ (form_number_missing e form || nationality_list_broken e policy = false
      -> exists checks w',
           validate e mrz form policy w = (Returned checks, w')).
Proof.
  intros Hp Hm.
  destruct (validateDocument_parts e mrz form policy w)
    as (c2 & c6 & w1 & w2 & _ & _ & Hv & _).
  assert (exists c8 w3,
            rule_validity parseISO differenceInMonths zone e policy [] w2
            = (Returned c8, w3)) as (c8 & w3 & H8).
  { unfold rule_validity.
    destruct policy as [p | ]; [ | eexists _, _; reflexivity].
    destruct (bound (minPassportValidity p)) as [b | ],
      (value_of (ex_expiryDate e)) as [v | ];
      try (eexists _, _; reflexivity).
    unfold mbind, M_bind, bind, lift, newDate, mret, M_ret, ret.
    specialize (Hp v).
    destruct (parseISO zone v) as [expiry | ]; [ | congruence].
    specialize (Hm expiry (Some (w2 0%nat))).
    destruct (differenceInMonths zone expiry (Some (w2 0%nat)))
      as [months | ]; [ | congruence].
    destruct (num_lt months (Num b)); eexists _, _; reflexivity. }
  rewrite Hv, H8. clear Hv.
  pose proof (rule_form_passport_throws e form) as Hform.
  pose proof (rule_nationality_throws e policy) as Hnat.
  destruct (rule_form_passport toUpperCase e form []) as [c4 | ].
  - assert (form_number_missing e form = false) as ->.
    { destruct (form_number_missing e form); [ | reflexivity].
      destruct Hform as [_ Hform]. discriminate (Hform eq_refl). }
    cbn [orb].
    destruct (rule_nationality e policy []) as [c7 | ].
    + assert (nationality_list_broken e policy = false) as ->.
      { destruct (nationality_list_broken e policy); [ | reflexivity].
        destruct Hnat as [_ Hnat]. discriminate (Hnat eq_refl). }
      split; [split; discriminate | ].
      intros _. eexists _, _. reflexivity.
    + rewrite (proj1 Hnat eq_refl).
      split; [split; reflexivity | discriminate].
  - rewrite (proj1 Hform eq_refl). cbn [orb].
    split; [split; reflexivity | discriminate].
Qed.

(** The checks of the MRZ rule are among the checks returned, and they
    are the only ones under its three labels. *)
Lemma rule_mrz_in_checks (e : ExtractedData) (mrz : option MRZData)
  (form : option ApplicantForm) (policy : option EligibilityPolicy)
  (w w' : World) (checks : list ValidationCheck) (c : ValidationCheck) :
  validate e mrz form policy w = (Returned checks, w') ->
  In c (rule_mrz toUpperCase e mrz []) -> In c checks.
Proof.
  intros H Hin.
  destruct (validateDocument_returned _ _ _ _ _ _ _ H)
    as (before & after & -> & _).
  apply in_or_app. right. apply in_or_app. left. exact Hin.
Qed.

Lemma mrz_label_from_rule_mrz (e : ExtractedData) (mrz : option MRZData)
  (form : option ApplicantForm) (policy : option EligibilityPolicy)
  (w w' : World) (checks : list ValidationCheck) (c : ValidationCheck) :
  validate e mrz form policy w = (Returned checks, w') ->
  In c checks -> In (field c) mrz_labels ->
  In c (rule_mrz toUpperCase e mrz []).
Proof.
  intros H Hin Hlabel.
  destruct (validateDocument_returned _ _ _ _ _ _ _ H)
    as (before & after & -> & _ & _ & Fb & Fa).
  assert (forall l, Forall (labelled other_labels) l -> ~ In c l) as Hnot.
  { intros l Fl Hc. rewrite List.Forall_forall in Fl.
    specialize (Fl c Hc). unfold labelled, other_labels, mrz_labels in *.
    simpl in Fl, Hlabel.
    repeat (destruct Hlabel as [Hlabel | Hlabel];
            [rewrite <- Hlabel in Fl; clear Hlabel;
             repeat (destruct Fl as [Fl | Fl]; [discriminate Fl | ]);
             contradiction | ]).
    contradiction. }
  apply in_app_or in Hin as [Hin | Hin]; [exfalso; exact (Hnot _ Fb Hin) | ].
  apply in_app_or in Hin as [Hin | Hin]; [exact Hin | ].
  exfalso. exact (Hnot _ Fa Hin).
Qed.

End ValidatorShape.

Section ValidatedEligibility.
Import Double DocumentValidator Spec Props.
Local Open Scope string_scope.
Local Open Scope Z_scope.

Variable Zone : Type.
Variable parseISO : Zone -> string -> outcome Date.
Variable differenceInYears : Zone -> Date -> Date -> outcome jsnum.
Variable differenceInMonths : Zone -> Date -> Date -> outcome jsnum.
Variable toUpperCase : string -> string.
Variable zone : Zone.

Local Abbreviation validate :=
  (validateDocument parseISO differenceInYears differenceInMonths toUpperCase
     zone).

(** X17: on the checks of the validator the confidence is the exactly
    rounded percentage: there are too few checks for the rounding of the
    quotient to show. *)
Theorem validated_confidence_is_exact (e : ExtractedData)
  (mrz : option MRZData) (form : option ApplicantForm)
  (policy : option EligibilityPolicy) (w w' : World)
  (checks : list ValidationCheck) :
  validate e mrz form policy w = (Returned checks, w') ->
  confidence (assessEligibility checks form policy)
  = exact_confidence (count Pass checks) (count Warning checks)
      (or_one (len checks)).
Proof.
  intros H.
  destruct (validateDocument_bounded _ _ _ _ _ _ _ _ _ _ _ _ _ H) as [L _].
  pose proof (status_partition checks) as Hpart.
  pose proof (count_nonneg Pass checks) as Hp.
  pose proof (count_nonneg Warning checks) as Hw.
  pose proof (count_nonneg Fail checks) as Hf.
  unfold assessEligibility. cbn [confidence].
  fold (count Pass checks). fold (count Warning checks).
  assert (exists t, or_one (len checks) = Z.of_nat t /\ (1 <= t < 20)%nat)
    as (t & Ht & Hrange).
  { exists (Z.to_nat (or_one (len checks))). unfold or_one, len in *.
    destruct (Z.eqb_spec (Z.of_nat (List.length checks)) 0); lia. }
  assert (count Pass checks + count Warning checks <= or_one (len checks))
    as Hsum.
  { unfold or_one. destruct (Z.eqb_spec (len checks) 0); lia. }
  rewrite Ht in *.
  rewrite <- (Z2Nat.id (count Pass checks)) by exact Hp.
  rewrite <- (Z2Nat.id (count Warning checks)) by exact Hw.
  apply confidence_of_exact_below_20; lia.
Qed.

Lemma reason_not_warning (c : ValidationCheck) :
  known_label c ->
  String.prefix "Warning" (field c ++ ": " ++ message c) = false.
Proof.
  unfold known_label, check_labels. intros H. simpl in H.
  repeat (destruct H as [<- | H]; [reflexivity | ]). contradiction.
Qed.

Lemma failed_reasons_count (checks : list ValidationCheck) :
  Forall known_label checks ->
  List.filter (fun r => negb (String.prefix "Warning" r))
    (List.map (fun c => field c ++ ": " ++ message c) checks)
  = List.map (fun c => field c ++ ": " ++ message c) checks.
Proof.
  induction 1 as [|c cs Hc _ IH]; [reflexivity | ].
  cbn [List.map List.filter]. rewrite reason_not_warning by exact Hc.
  cbn [negb]. rewrite IH. reflexivity.
Qed.

Lemma warning_reasons_count (checks : list ValidationCheck) :
  List.filter (fun r => negb (String.prefix "Warning" r))
    (List.map (fun c => "Warning - " ++ field c ++ ": " ++ message c) checks)
  = [].
Proof. induction checks as [|c cs IH]; [reflexivity | exact IH]. Qed.

Lemma Forall_with_status (P : ValidationCheck -> Prop) (s : Status)
  (checks : list ValidationCheck) :
  Forall P checks -> Forall P (with_status s checks).
Proof.
  unfold with_status. induction 1 as [|c cs Hc _ IH]; [constructor | ].
  simpl. destruct (Status_eqb (status c) s); [constructor | ]; assumption.
Qed.

(** X18: when the validator's checks make the applicant not eligible, the
    number that the summary gives as "Failed checks" is the number of
    checks that failed: none of the validator's labels begins with
    "Warning", so the filter on the reasons removes the warnings and
    nothing else. *)
Theorem summary_counts_failed_checks (e : ExtractedData)
  (mrz : option MRZData) (form : option ApplicantForm)
  (policy : option EligibilityPolicy) (w w' : World)
  (checks : list ValidationCheck) :
  validate e mrz form policy w = (Returned checks, w') ->
  eligible (assessEligibility checks form policy) = false ->
  non_warning_reasons (reasons (assessEligibility checks form policy))
  = count Fail checks.
Proof.
  intros H Hel.
  destruct (validateDocument_bounded _ _ _ _ _ _ _ _ _ _ _ _ _ H) as [_ F].
  unfold assessEligibility in *. cbn [eligible reasons] in *.
  rewrite Hel. cbn [andb].
  unfold non_warning_reasons. rewrite !List.filter_app.
  destruct (0 <? len (with_status Fail checks)) eqn:Hfail.
  - rewrite failed_reasons_count by (apply Forall_with_status, F).
    destruct (0 <? len (with_status Warning checks));
      rewrite ?warning_reasons_count; cbn [List.filter];
      rewrite !app_nil_r; unfold count, len; rewrite length_map; reflexivity.
  - apply Z.eqb_neq in Hel. apply Z.ltb_ge in Hfail.
    unfold len in *. lia.
Qed.

End ValidatedEligibility.


Section ValidatedRuns.
Import DocumentValidator Spec Props.
Local Open Scope string_scope.
Local Open Scope Z_scope.

Lemma validateDocument_at_most_13_checks_witness :
  exists checks,
    fst (DateFns.validateDocument
           (page "L898902C3" "" "1974-08-12" "2012-04-15")
           (Some icao_record) None (Some adults_only) november_2026)
    = Returned checks
    /\ (List.length checks <= 13)%nat.
Proof.
  eexists. split; [vm_compute; reflexivity | ].
  apply (validateDocument_at_most_13_checks DateFns.Zone DateFns.parseISO_in
           DateFns.differenceInYears_in DateFns.differenceInMonths_in
           DateFns.toUpperCase DateFns.UTC
           (page "L898902C3" "" "1974-08-12" "2012-04-15")
           (Some icao_record) None (Some adults_only) november_2026
           (snd (DateFns.validateDocument
                   (page "L898902C3" "" "1974-08-12" "2012-04-15")
                   (Some icao_record) None (Some adults_only)
                   november_2026))).
  vm_compute. reflexivity.
Defined.

Lemma validateDocument_throws_iff_witness :
  fst (DateFns.validateDocument (page "L898902C3" "" "" "") None
         (Some empty_form) None november_2026)
  = Thrown
  /\ exists checks w',
       DateFns.validateDocument (only_expiryDate "NaN-<<-<<") None None
         (Some adults_only) november_2026
       = (Returned checks, w').
Proof.
  assert (forall v, DateFns.parseISO_in DateFns.UTC v <> Thrown) as Hp
    by (intros v; discriminate).
  assert (forall a b, DateFns.differenceInMonths_in DateFns.UTC a b <> Thrown)
    as Hm by (intros a b; discriminate).
  split.
  - apply (proj2 (proj1 (validateDocument_throws_iff DateFns.Zone
                           DateFns.parseISO_in DateFns.differenceInYears_in
                           DateFns.differenceInMonths_in DateFns.toUpperCase
                           DateFns.UTC (page "L898902C3" "" "" "") None
                           (Some empty_form) None november_2026 Hp Hm))).
    reflexivity.
  - apply (proj2 (validateDocument_throws_iff DateFns.Zone
                    DateFns.parseISO_in DateFns.differenceInYears_in
                    DateFns.differenceInMonths_in DateFns.toUpperCase
                    DateFns.UTC (only_expiryDate "NaN-<<-<<") None None
                    (Some adults_only) november_2026 Hp Hm)).
    reflexivity.
Defined.

Lemma validated_confidence_is_exact_witness :
  confidence
    (assessEligibility
       [mkCheck "Expiry Date" Pass "Date format is valid (ISO 8601)";
        expired_check] None None)
  = 50.
Proof.
  rewrite (validated_confidence_is_exact DateFns.Zone DateFns.parseISO_in
           DateFns.differenceInYears_in DateFns.differenceInMonths_in
           DateFns.toUpperCase DateFns.UTC (only_expiryDate "2012-04-15") None None None
             november_2026 (Nat.iter 1 advance november_2026));
    vm_compute; reflexivity.
Defined.

Lemma summary_counts_failed_checks_witness :
  non_warning_reasons
    (reasons
       (assessEligibility
          [mkCheck "Expiry Date" Pass "Date format is valid (ISO 8601)";
           expired_check] None None))
  = 1.
Proof.
  rewrite (summary_counts_failed_checks DateFns.Zone DateFns.parseISO_in
           DateFns.differenceInYears_in DateFns.differenceInMonths_in
           DateFns.toUpperCase DateFns.UTC (only_expiryDate "2012-04-15") None None None
             november_2026 (Nat.iter 1 advance november_2026));
    vm_compute; reflexivity.
Defined.

End ValidatedRuns.

(** *** Policies, recommendations and reasons *)

Section UnparseableDates.
Import DocumentValidator Spec Props.
Local Open Scope string_scope.
Local Open Scope Z_scope.

Variable Zone : Type.
Variable parseISO : Zone -> string -> outcome Date.
Variable differenceInYears : Zone -> Date -> Date -> outcome jsnum.
Variable differenceInMonths : Zone -> Date -> Date -> outcome jsnum.
Variable toUpperCase : string -> string.
Variable zone : Zone.

Local Abbreviation validate :=
  (validateDocument parseISO differenceInYears differenceInMonths toUpperCase
     zone).

Lemma rule_age_no_bounds (e : ExtractedData) (p : EligibilityPolicy)
  (checks : list ValidationCheck) (w : World) (v : string) :
  value_of (ex_dateOfBirth e) = Some v ->
  rule_age parseISO differenceInYears zone e
    (Some (with_minAge None (with_maxAge None p))) checks w
  = (Returned checks, advance w).
Proof.
  intros Hv. unfold rule_age. rewrite Hv.
  destruct (calculateAge_returns Zone parseISO differenceInYears zone v w)
    as (age & Hage).
  unfold mbind, M_bind, bind, mret, M_ret, ret. rewrite Hage. reflexivity.
Qed.

Lemma rule_age_not_a_number (e : ExtractedData) (p : EligibilityPolicy)
  (checks : list ValidationCheck) (w : World) (v : string) :
  value_of (ex_dateOfBirth e) = Some v ->
  parseISO zone v = Returned None ->
  (forall now, differenceInYears zone now None = Returned NaN) ->
  rule_age parseISO differenceInYears zone e (Some p) checks w
  = (Returned checks, advance w).
Proof.
  intros Hv Hp Hd. unfold rule_age. rewrite Hv.
  unfold calculateAge, try_catch, mbind, M_bind, bind, lift, newDate,
    mret, M_ret, ret.
  rewrite Hp, Hd. unfold rule_maxAge, rule_minAge.
  destruct (bound (minAge p)), (bound (maxAge p)); reflexivity.
Qed.

(** X19: a date of birth that [parseISO] cannot read gives the age [NaN],
    which is neither below the minimum nor above the maximum: the
    validator returns what it returns under the same policy without age
    bounds, so the applicant is never failed on age. *)
Theorem unreadable_birth_date_passes_age_policy (e : ExtractedData)
  (mrz : option MRZData) (form : option ApplicantForm)
  (p : EligibilityPolicy) (w : World) (v : string) :
  value_of (ex_dateOfBirth e) = Some v ->
  parseISO zone v = Returned None ->
  (forall now, differenceInYears zone now None = Returned NaN) ->
  validate e mrz form (Some p) w
  = validate e mrz form (Some (with_minAge None (with_maxAge None p))) w.
Proof.
  intros Hv Hp Hd. unfold validateDocument, mbind, M_bind, bind, lift.
  destruct (rule_expiryDate parseISO zone e (rule_dateOfBirth_format e []) w)
    as [[c | ] w1]; [ | reflexivity].
  destruct (rule_form_passport toUpperCase e form
              (rule_mrz toUpperCase e mrz c)) as [c4 | ]; [ | reflexivity].
  rewrite (rule_age_not_a_number e p _ w1 v Hv Hp Hd).
  rewrite (rule_age_no_bounds e p _ w1 v Hv).
  reflexivity.
Qed.

(** X20: an expiry date that [parseISO] cannot read gives [NaN] months of
    validity, which is not below the minimum: the validator returns the
    checks it returns under the same policy without a minimum validity. *)
Theorem unreadable_expiry_date_passes_validity_policy (e : ExtractedData)
  (mrz : option MRZData) (form : option ApplicantForm)
  (p : EligibilityPolicy) (w : World) (v : string) :
  value_of (ex_expiryDate e) = Some v ->
  parseISO zone v = Returned None ->
  (forall now, differenceInMonths zone None now = Returned NaN) ->
  fst (validate e mrz form (Some p) w)
  = fst (validate e mrz form (Some (with_minPassportValidity None p)) w).
Proof.
  intros Hv Hp Hd. unfold validateDocument, mbind, M_bind, bind, lift.
  destruct (rule_expiryDate parseISO zone e (rule_dateOfBirth_format e []) w)
    as [[c | ] w1]; [ | reflexivity].
  destruct (rule_form_passport toUpperCase e form
              (rule_mrz toUpperCase e mrz c)) as [c4 | ]; [ | reflexivity].
  change (rule_age parseISO differenceInYears zone e
            (Some (with_minPassportValidity None p)))
    with (rule_age parseISO differenceInYears zone e (Some p)).
  destruct (rule_age parseISO differenceInYears zone e (Some p)
              (rule_form_dateOfBirth e form c4) w1)
    as [[c' | ] w2]; [ | reflexivity].
  change (rule_nationality e (Some (with_minPassportValidity None p)))
    with (rule_nationality e (Some p)).
  destruct (rule_nationality e (Some p) c') as [c7 | ]; [ | reflexivity].
  unfold rule_validity. cbn [minPassportValidity with_minPassportValidity bound].
  rewrite Hv.
  destruct (bound (minPassportValidity p)) as [b | ]; [ | reflexivity].
  unfold mbind, M_bind, bind, lift, newDate, mret, M_ret, ret.
  rewrite Hp, Hd. reflexivity.
Qed.

(** X21: when the name read from the page and the name of the MRZ are the
    same once normalised, the validator's checks hold the name check with
    the status pass and the similarity 100%. *)
Theorem same_name_passes (e : ExtractedData) (m : MRZData)
  (form : option ApplicantForm) (policy : option EligibilityPolicy)
  (w w' : World) (checks : list ValidationCheck) (v : string) :
  value_of (ex_fullName e) = Some v ->
  normalizeString toUpperCase v
  = normalizeString toUpperCase (mrz_givenNames m ++ " " ++ mrz_surname m) ->
  validate e (Some m) form policy w = (Returned checks, w') ->
  In (mkCheck "Name" Pass "Name similarity: 100%") checks.
Proof.
  intros Hv Hn H.
  apply (rule_mrz_in_checks Zone parseISO differenceInYears differenceInMonths
           toUpperCase zone _ _ _ _ _ _ _ _ H).
  unfold rule_mrz. rewrite Hv, Hn, calculateSimilarity_same. unfold push.
  apply in_or_app. right. left. reflexivity.
Qed.

End UnparseableDates.

Section UnparseableRuns.
Import DocumentValidator Spec Props.
Local Open Scope string_scope.
Local Open Scope Z_scope.

Lemma unreadable_birth_date_passes_age_policy_witness :
  DateFns.validateDocument (page "" "" "12 May 2020" "") None None
    (Some adults_only) november_2026
  = DateFns.validateDocument (page "" "" "12 May 2020" "") None None
      (Some (with_minAge None (with_maxAge None adults_only))) november_2026.
Proof.
  apply (unreadable_birth_date_passes_age_policy DateFns.Zone DateFns.parseISO_in
           DateFns.differenceInYears_in DateFns.differenceInMonths_in
           DateFns.toUpperCase DateFns.UTC _ None None adults_only november_2026
           "12 May 2020").
  - reflexivity.
  - reflexivity.
  - intros [t | ]; reflexivity.
Defined.

Lemma unreadable_expiry_date_passes_validity_policy_witness :
  fst (DateFns.validateDocument (only_expiryDate "NaN-<<-<<") None None
         (Some adults_only) november_2026)
  = fst (DateFns.validateDocument (only_expiryDate "NaN-<<-<<") None None
           (Some (with_minPassportValidity None adults_only)) november_2026).
Proof.
  apply (unreadable_expiry_date_passes_validity_policy DateFns.Zone DateFns.parseISO_in
           DateFns.differenceInYears_in DateFns.differenceInMonths_in
           DateFns.toUpperCase DateFns.UTC _ None None adults_only november_2026
           "NaN-<<-<<").
  - reflexivity.
  - reflexivity.
  - intros now. reflexivity.
Defined.

Lemma same_name_passes_witness :
  exists checks,
    fst (DateFns.validateDocument (page "" "Anna-Maria Eriksson" "" "")
           (Some icao_record) None None november_2026)
    = Returned checks
    /\ In (mkCheck "Name" Pass "Name similarity: 100%") checks.
Proof.
  eexists. split; [vm_compute; reflexivity | ].
  apply (same_name_passes DateFns.Zone DateFns.parseISO_in
           DateFns.differenceInYears_in DateFns.differenceInMonths_in
           DateFns.toUpperCase DateFns.UTC
           (page "" "Anna-Maria Eriksson" "" "") icao_record None None
           november_2026 november_2026 _ "Anna-Maria Eriksson");
    vm_compute; reflexivity.
Defined.

End UnparseableRuns.

Section Recommendations.
Import Double DoubleFacts DocumentValidator Spec Props.
Local Open Scope string_scope.
Local Open Scope Z_scope.

Lemma with_status_all (s : Status) (checks : list ValidationCheck) :
  (forall c, In c checks -> status c = s) -> with_status s checks = checks.
Proof.
  unfold with_status. induction checks as [|c cs IH]; intros H;
    [reflexivity | ].
  simpl. rewrite (H c) by (left; reflexivity).
  assert (Status_eqb s s = true) as -> by (destruct s; reflexivity).
  f_equal. apply IH. intros c' Hin. apply H. right. exact Hin.
Qed.

Lemma with_status_none (s : Status) (checks : list ValidationCheck) :
  (forall c, In c checks -> status c <> s) -> with_status s checks = [].
Proof.
  unfold with_status. induction checks as [|c cs IH]; intros H;
    [reflexivity | ].
  simpl. pose proof (H c ltac:(left; reflexivity)) as Hc.
  assert (Status_eqb (status c) s = false) as ->
      by (destruct (status c), s; try reflexivity; congruence).
  apply IH. intros c' Hin. apply H. right. exact Hin.
Qed.

(** The confidence of [n] checks that all passed. *)
Lemma confidence_of_all (n : Z) : 0 < n -> confidence_of n 0 n = 100.
Proof.
  intros Hn. unfold confidence_of, div.
  assert (0 < inject_Z n)%Q as HN by (rewrite <- (Zlt_Qlt 0); exact Hn).
  rewrite (fl_proper _ 1); [reflexivity | ].
  change (inject_Z 0) with 0%Q. field. lra.
Qed.

(** The confidence when the warnings are not fewer than the passes. *)
Lemma confidence_of_many_warnings (p w : Z) :
  0 <= p <= w -> 0 < p + w -> confidence_of p w (p + w) <= 75.
Proof.
  intros [Hp Hpw] Ht. unfold confidence_of, Math_round, mul, div.
  set (x := ((inject_Z p + inject_Z w * (1 # 2)) / inject_Z (p + w))%Q).
  assert (0 <= inject_Z p)%Q as Hp' by (rewrite <- (Zle_Qle 0); exact Hp).
  assert (inject_Z p <= inject_Z w)%Q as Hw' by (rewrite <- Zle_Qle; exact Hpw).
  assert (0 < inject_Z (p + w))%Q as Ht' by (rewrite <- (Zlt_Qlt 0); exact Ht).
  assert (inject_Z (p + w) == inject_Z p + inject_Z w)%Q as Hs
      by (rewrite inject_Z_plus; reflexivity).
  assert (0 <= x)%Q as Hx0 by (apply Qle_shift_div_l; [exact Ht' | lra]).
  assert (inject_Z (3 * 2 ^ 51) * 2 ^ (-53) == 3 # 4)%Q as E34 by reflexivity.
  assert (inject_Z (75 * 2 ^ 46) * 2 ^ (-46) == 75)%Q as E75 by reflexivity.
  assert (x <= inject_Z (3 * 2 ^ 51) * 2 ^ (-53))%Q as Hx1.
  { rewrite E34. apply Qle_shift_div_r; [exact Ht' | lra]. }
  pose proof (fl_nonneg x Hx0) as Hy0.
  pose proof (fl_le x _ _ Hx0 Hx1 ltac:(lia)) as Hy1.
  rewrite E34 in Hy1.
  set (y := fl x) in *.
  assert (0 <= y * 100)%Q as Hz0 by lra.
  assert (y * 100 <= inject_Z (75 * 2 ^ 46) * 2 ^ (-46))%Q as Hz1
      by (rewrite E75; lra).
  pose proof (fl_le _ _ _ Hz0 Hz1 ltac:(lia)) as Hr.
  rewrite E75 in Hr.
  set (z := fl (y * 100)) in *.
  assert (Qfloor (z + (1 # 2)) <= Qfloor (151 # 2)) as H
      by (apply Qfloor_resp_le; lra).
  exact H.
Qed.

Lemma len_nil_iff {A} (l : list A) : len l = 0 <-> l = [].
Proof.
  unfold len. destruct l; simpl; split; try reflexivity; try discriminate; lia.
Qed.

(** X22: the recommendation to approve is given only when no check failed,
    the overall confidence is not below 80, and the checks that passed
    outnumber the warnings; in particular never when nothing was
    checked. *)
Theorem approval_requires_passed_checks (checks : list ValidationCheck)
  (form : option ApplicantForm) (policy : option EligibilityPolicy)
  (overallConfidence : jsnum) :
  In approve_header
    (generateRecommendations checks (assessEligibility checks form policy)
       overallConfidence) ->
  (forall c, In c checks -> status c <> Fail)
  /\ num_lt overallConfidence (Num 80) = false
  /\ count Warning checks < count Pass checks.
Proof.
  unfold generateRecommendations.
  pose proof (status_partition checks) as Hpart.
  pose proof (count_nonneg Pass checks) as Hp.
  pose proof (count_nonneg Warning checks) as Hw.
  destruct (eligible (assessEligibility checks form policy)) eqn:Hel;
    cbn [negb].
  2:{ intros [H | H]; [discriminate H | ].
      apply in_map_iff in H as (c & H & _). discriminate H. }
  destruct (num_lt overallConfidence (Num 60)) eqn:H60.
  { intros [H | [H | []]]; discriminate H. }
  destruct (num_lt overallConfidence (Num 80)) eqn:H80; cbn [orb].
  { intros [H | H]; [discriminate H | ].
    destruct (0 <? len (with_status Warning checks));
      [destruct H as [H | []]; discriminate H | destruct H]. }
  destruct (confidence (assessEligibility checks form policy) <? 80) eqn:Hc.
  { intros [H | H]; [discriminate H | ].
    destruct (0 <? len (with_status Warning checks));
      [destruct H as [H | []]; discriminate H | destruct H]. }
  intros _.
  unfold assessEligibility in Hel, Hc. cbn [eligible confidence] in Hel, Hc.
  fold (count Fail checks) in Hel. fold (count Pass checks) in Hc.
  fold (count Warning checks) in Hc.
  apply Z.eqb_eq in Hel. apply Z.ltb_ge in Hc.
  split; [apply no_fail_iff, Hel | split; [reflexivity | ]].
  destruct (Z_lt_le_dec (count Warning checks) (count Pass checks))
    as [Hlt | Hge]; [exact Hlt | exfalso].
  unfold or_one in Hc.
  destruct (Z.eqb_spec (len checks) 0) as [H0 | Hpos].
  - assert (count Pass checks = 0) as E1 by lia.
    assert (count Warning checks = 0) as E2 by lia.
    rewrite E1, E2 in Hc. vm_compute in Hc. apply Hc. reflexivity.
  - assert (len checks = count Pass checks + count Warning checks) as E by lia.
    rewrite E in Hc, Hpos.
    pose proof (confidence_of_many_warnings (count Pass checks)
                  (count Warning checks) ltac:(lia) ltac:(lia)).
    lia.
Qed.

(** X23: when there is at least one check, every check passed and the
    overall confidence is not below 80, the confidence is 100, the one
    reason says that all checks passed, and the recommendation is to
    approve. *)
Theorem all_passed_is_approved (checks : list ValidationCheck)
  (form : option ApplicantForm) (policy : option EligibilityPolicy)
  (overallConfidence : jsnum) :
  checks <> [] ->
  (forall c, In c checks -> status c = Pass) ->
  num_lt overallConfidence (Num 80) = false ->
  assessEligibility checks form policy
  = mkEligibility true 100 ["All validation checks passed"]
  /\ generateRecommendations checks (assessEligibility checks form policy)
       overallConfidence
     = [approve_header; "Proceed with visa processing"].
Proof.
  intros Hne Hall H80.
  assert (assessEligibility checks form policy
          = mkEligibility true 100 ["All validation checks passed"]) as E.
  { unfold assessEligibility.
    rewrite (with_status_all Pass checks Hall).
    rewrite (with_status_none Fail checks)
      by (intros c Hc; rewrite (Hall c Hc); discriminate).
    rewrite (with_status_none Warning checks)
      by (intros c Hc; rewrite (Hall c Hc); discriminate).
    assert (0 < len checks) as Hlen
        by (unfold len; destruct checks; [congruence | simpl; lia]).
    unfold or_one.
    destruct (Z.eqb_spec (len checks) 0) as [H0 | _]; [lia | ].
    change (len []) with 0. rewrite confidence_of_all by exact Hlen.
    apply Z.ltb_lt in Hlen. rewrite Hlen. reflexivity. }
  split; [exact E | ]. rewrite E. unfold generateRecommendations.
  cbn [eligible confidence negb].
  assert (num_lt overallConfidence (Num 60) = false) as H60.
  { destruct overallConfidence as [|n]; [reflexivity | ]. simpl in *.
    apply Z.ltb_ge in H80. apply Z.ltb_ge. lia. }
  rewrite H60, H80. reflexivity.
Qed.

(** X24: the list of reasons has one entry for each check that failed, one
    for each warning, and one more when no check failed and some check
    passed; it is empty exactly when there is no check at all. *)
Theorem assessEligibility_reasons (checks : list ValidationCheck)
  (form : option ApplicantForm) (policy : option EligibilityPolicy) :
  len (reasons (assessEligibility checks form policy))
  = count Fail checks + count Warning checks
    + (if (count Fail checks =? 0) && (0 <? count Pass checks) then 1 else 0)
  /\ (reasons (assessEligibility checks form policy) = [] <-> checks = []).
Proof.
  pose proof (status_partition checks) as Hpart.
  pose proof (count_nonneg Pass checks) as Hp.
  pose proof (count_nonneg Warning checks) as Hw.
  pose proof (count_nonneg Fail checks) as Hf.
  assert (len (reasons (assessEligibility checks form policy))
          = count Fail checks + count Warning checks
            + (if (count Fail checks =? 0) && (0 <? count Pass checks)
               then 1 else 0)) as Hlen.
  { unfold assessEligibility. cbn [reasons].
    fold (count Fail checks). fold (count Warning checks).
    fold (count Pass checks).
    unfold len. rewrite !length_app.
    assert (forall (f : ValidationCheck -> string) s,
              List.length (if 0 <? count s checks
                           then List.map f (with_status s checks) else [])
              = Z.to_nat (count s checks)) as Hmap.
    { intros f s. pose proof (count_nonneg s checks).
      destruct (Z.ltb_spec 0 (count s checks)).
      - rewrite length_map. unfold count, len. lia.
      - simpl. lia. }
    rewrite !Hmap.
    destruct ((count Fail checks =? 0) && (0 <? count Pass checks)); simpl;
      lia. }
  split; [exact Hlen | ].
  rewrite <- len_nil_iff, Hlen, <- (len_nil_iff checks), <- Hpart.
  destruct (Z.eqb_spec (count Fail checks) 0),
    (Z.ltb_spec 0 (count Pass checks)); simpl; lia.
Qed.

Lemma approval_requires_passed_checks_witness :
  count Warning (some_checks Pass 4 ++ some_checks Warning 1)
  < count Pass (some_checks Pass 4 ++ some_checks Warning 1).
Proof.
  apply (approval_requires_passed_checks
           (some_checks Pass 4 ++ some_checks Warning 1) None None (Num 90)).
  vm_compute. left. reflexivity.
Defined.

Lemma all_passed_is_approved_witness :
  generateRecommendations (some_checks Pass 3)
    (assessEligibility (some_checks Pass 3) None None) (Num 80)
  = [approve_header; "Proceed with visa processing"].
Proof.
  apply (all_passed_is_approved (some_checks Pass 3) None None (Num 80)).
  - discriminate.
  - intros c Hc. simpl in Hc.
    repeat (destruct Hc as [<- | Hc]; [reflexivity | ]). contradiction.
  - reflexivity.
Defined.

End Recommendations.

Section Extremes.
Import Double DoubleFacts DocumentValidator Spec Props.
Local Open Scope Z_scope.

(** The exactly rounded percentage, by its two bounds. *)
Lemma exact_confidence_bounds (p w t : Z) :
  0 < t ->
  (2 * exact_confidence p w t - 1) * t <= 100 * (2 * p + w)
  < (2 * exact_confidence p w t + 1) * t.
Proof.
  intros Ht. unfold exact_confidence, Math_round.
  set (x := (100 * (inject_Z p + (1 # 2) * inject_Z w) / inject_Z t)%Q).
  pose proof (Qfloor_le (x + (1 # 2))) as Hlo.
  pose proof (Qlt_floor (x + (1 # 2))) as Hhi.
  set (r := Qfloor (x + (1 # 2))) in *.
  assert (0 < inject_Z t)%Q as HT by (rewrite <- (Zlt_Qlt 0); exact Ht).
  assert (x * inject_Z t == 100 * (inject_Z p + (1 # 2) * inject_Z w))%Q
    as Hx by (unfold x; field; lra).
  rewrite inject_Z_plus in Hhi. change (inject_Z 1) with 1%Q in Hhi.
  assert (2 * r * t <= 100 * (2 * p + w) + t) as A.
  { rewrite Zle_Qle.
    rewrite !inject_Z_plus, !inject_Z_mult, inject_Z_plus, inject_Z_mult.
    change (inject_Z 2) with 2%Q. change (inject_Z 100) with 100%Q.
    set (R := inject_Z r) in *. set (T := inject_Z t) in *.
    set (P := inject_Z p) in *. set (W := inject_Z w) in *. nra. }
  assert (100 * (2 * p + w) < 2 * r * t + t) as B.
  { rewrite Zlt_Qlt.
    rewrite !inject_Z_plus, !inject_Z_mult, inject_Z_plus, inject_Z_mult.
    change (inject_Z 2) with 2%Q. change (inject_Z 100) with 100%Q.
    set (R := inject_Z r) in *. set (T := inject_Z t) in *.
    set (P := inject_Z p) in *. set (W := inject_Z w) in *. nra. }
  lia.
Qed.

Lemma all_of_status (s : Status) (checks : list ValidationCheck) :
  count s checks = len checks <-> forall c, In c checks -> status c = s.
Proof.
  unfold count, with_status, len.
  induction checks as [|c cs IH]; simpl.
  - split; [intros _ ? [] | reflexivity].
  - pose proof (List.filter_length_le
                  (fun c => Status_eqb (status c) s) cs) as Hle.
    destruct (Status_eqb (status c) s) eqn:Hs; simpl.
    + assert (status c = s) as Hc
          by (destruct (status c), s; try reflexivity; discriminate Hs).
      split.
      * intros H c' [<- | Hin]; [exact Hc | ]. apply IH; [lia | exact Hin].
      * intros H. assert (forall c', In c' cs -> status c' = s) as H'
            by (intros c' Hin; apply H; right; exact Hin).
        apply IH in H'. lia.
    + split; [lia | ]. intros H. exfalso.
      pose proof (H c ltac:(left; reflexivity)) as Hc. rewrite Hc in Hs.
      destruct s; discriminate Hs.
Qed.

(** X25: for fewer than 20 checks, and so for every result of the
    validator, the confidence is 100 exactly when every check passed and
    0 exactly when every check failed. *)
Theorem confidence_extremes (checks : list ValidationCheck)
  (form : option ApplicantForm) (policy : option EligibilityPolicy) :
  (0 < List.length checks < 20)%nat ->
  (confidence (assessEligibility checks form policy) = 100
   <-> forall c, In c checks -> status c = Pass)
  /\ (confidence (assessEligibility checks form policy) = 0
      <-> forall c, In c checks -> status c = Fail).
Proof.
  intros Hlen.
  pose proof (status_partition checks) as Hpart.
  pose proof (count_nonneg Pass checks) as Hp.
  pose proof (count_nonneg Warning checks) as Hw.
  pose proof (count_nonneg Fail checks) as Hf.
  assert (len checks = Z.of_nat (List.length checks)) as Hl by reflexivity.
  assert (confidence (assessEligibility checks form policy)
          = exact_confidence (count Pass checks) (count Warning checks)
              (len checks)) as ->.
  { unfold assessEligibility. cbn [confidence].
    fold (count Pass checks). fold (count Warning checks).
    unfold or_one. destruct (Z.eqb_spec (len checks) 0) as [H0 | _]; [lia | ].
    rewrite <- (Z2Nat.id (count Pass checks)) by exact Hp.
    rewrite <- (Z2Nat.id (count Warning checks)) by exact Hw.
    rewrite Hl. apply confidence_of_exact_below_20; lia. }
  pose proof (exact_confidence_bounds (count Pass checks)
                (count Warning checks) (len checks) ltac:(lia)) as Hb.
  set (r := exact_confidence _ _ _) in *.
  rewrite <- !all_of_status.
  split; split; intros H; nia.
Qed.

Lemma confidence_extremes_witness :
  confidence (assessEligibility (some_checks Pass 3) None None) = 100
  <-> forall c, In c (some_checks Pass 3) -> status c = Pass.
Proof.
  apply (confidence_extremes (some_checks Pass 3) None None). simpl. lia.
Defined.

End Extremes.

(** *** The functions of the request handler *)

Section NormalizeDate.
Import DocumentValidator Route Props.
Local Open Scope string_scope.

Lemma isDigit_not_hyphen (c : ascii) :
  isDigit c = true -> Ascii.eqb c "-" = false.
Proof.
  intros H. apply isDigit_cases in H. unfold Spec.digit_chars in H.
  simpl in H.
  repeat (destruct H as [<- | H]; [reflexivity | ]). contradiction.
Qed.

(** A match of the day-month-year pattern at the start of a text: the
    three groups are digits, two, two and four of them. *)
Lemma dmy_at_shape (s d m y : string) :
  dmy_at s = Some (d, m, y) ->
  exists d1 d2 m1 m2 y1 y2 y3 y4 : ascii,
    d = String d1 (String d2 "") /\ m = String m1 (String m2 "")
    /\ y = String y1 (String y2 (String y3 (String y4 "")))
    /\ isDigit d1 = true /\ isDigit d2 = true /\ isDigit m1 = true
    /\ isDigit m2 = true /\ isDigit y1 = true /\ isDigit y2 = true
    /\ isDigit y3 = true /\ isDigit y4 = true.
Proof.
  unfold dmy_at.
  destruct s as [|d1 [|d2 [|s1 [|m1 [|m2 [|s2 [|y1 [|y2 [|y3 [|y4 rest]]]]]]]]]];
    try (cbn; discriminate).
  cbn [substring take drop Nat.min Nat.max Nat.sub String.length Nat.eqb
       JS.forallb andb].
  intros H.
  destruct (isDigit d1) eqn:D1; [ | discriminate H].
  destruct (isDigit d2) eqn:D2; [ | discriminate H].
  cbn [andb] in H.
  destruct (isDateSeparator s1); [ | discriminate H].
  cbn [andb] in H.
  destruct (isDigit m1) eqn:M1; [ | discriminate H].
  destruct (isDigit m2) eqn:M2; [ | discriminate H].
  cbn [andb] in H.
  destruct (isDateSeparator s2); [ | discriminate H].
  cbn [andb] in H.
  destruct (isDigit y1) eqn:Y1; [ | discriminate H].
  destruct (isDigit y2) eqn:Y2; [ | discriminate H].
  destruct (isDigit y3) eqn:Y3; [ | discriminate H].
  destruct (isDigit y4) eqn:Y4; [ | discriminate H].
  cbn [andb] in H. injection H as <- <- <-.
  exists d1, d2, m1, m2, y1, y2, y3, y4.
  repeat split; solve [reflexivity | assumption].
Qed.

Lemma match_dmy_found (s d m y : string) :
  match_dmy s = Some (d, m, y) ->
  exists rest, dmy_at rest = Some (d, m, y).
Proof.
  induction s as [|c r IH]; cbn [match_dmy].
  - destruct (dmy_at "") as [g | ] eqn:E; [ | discriminate].
    intros [= ->]. exists "". exact E.
  - destruct (dmy_at (String c r)) as [g | ] eqn:E.
    + intros [= ->]. exists (String c r). exact E.
    + exact IH.
Qed.

Lemma iso8601Pattern_of_digits (y1 y2 y3 y4 m1 m2 d1 d2 : ascii) :
  isDigit y1 = true -> isDigit y2 = true -> isDigit y3 = true ->
  isDigit y4 = true -> isDigit m1 = true -> isDigit m2 = true ->
  isDigit d1 = true -> isDigit d2 = true ->
  iso8601Pattern
    (String y1 (String y2 (String y3 (String y4 "")))
     ++ "-" ++ String m1 (String m2 "") ++ "-" ++ String d1 (String d2 ""))
  = true.
Proof.
  intros Y1 Y2 Y3 Y4 M1 M2 D1 D2. unfold iso8601Pattern.
  cbn [append substring take drop Nat.min Nat.max Nat.sub String.length
       Nat.eqb JS.forallb String.eqb].
  rewrite Y1, Y2, Y3, Y4, M1, M2, D1, D2. reflexivity.
Qed.

Lemma normalizeDate_cases (s : string) :
  iso8601Pattern (normalizeDate s) = true \/ normalizeDate s = s.
Proof.
  unfold normalizeDate.
  destruct (iso8601Pattern s) eqn:Hs; [right; reflexivity | ].
  destruct (match_dmy s) as [[[d m] y] | ] eqn:Hm; [left | right; reflexivity].
  apply match_dmy_found in Hm as [rest Hm].
  apply dmy_at_shape in Hm
    as (d1 & d2 & m1 & m2 & y1 & y2 & y3 & y4 & -> & -> & ->
        & D1 & D2 & M1 & M2 & Y1 & Y2 & Y3 & Y4).
  apply iso8601Pattern_of_digits; assumption.
Qed.

(** X26: [normalizeDate] returns a text in the form [YYYY-MM-DD], or its
    argument unchanged; applied to its own result it changes nothing. *)
Theorem normalizeDate_idempotent (s : string) :
  (iso8601Pattern (normalizeDate s) = true \/ normalizeDate s = s)
  /\ normalizeDate (normalizeDate s) = normalizeDate s.
Proof.
  split; [apply normalizeDate_cases | ].
  destruct (normalizeDate_cases s) as [H | H].
  - unfold normalizeDate at 1. rewrite H. reflexivity.
  - rewrite H. exact H.
Qed.

(** X27: a date written day first, with two digits for the day and the
    month, four for the year and [/] or [-] between them, is rewritten to
    [YYYY-MM-DD], which passes the format check of the validator. *)
Theorem normalizeDate_day_first (d1 d2 s1 m1 m2 s2 y1 y2 y3 y4 : ascii) :
  JS.forallb isDigit
    (String d1 (String d2 (String m1 (String m2
       (String y1 (String y2 (String y3 (String y4 "")))))))) = true ->
  isDateSeparator s1 = true -> isDateSeparator s2 = true ->
  let iso :=
    String y1 (String y2 (String y3 (String y4
      (String "-" (String m1 (String m2
         (String "-" (String d1 (String d2 ""))))))))) in
  normalizeDate
    (String d1 (String d2 (String s1 (String m1 (String m2
       (String s2 (String y1 (String y2 (String y3 (String y4 ""))))))))))
  = iso
  /\ status (validateDateFormat iso "Date of Birth") = Pass.
Proof.
  intros H S1 S2. cbn [JS.forallb] in H.
  repeat match goal with
         | Hx : _ && _ = true |- _ => apply andb_prop in Hx as [? Hx]
         end.
  cbv zeta. split.
  - unfold normalizeDate.
    assert (iso8601Pattern
              (String d1 (String d2 (String s1 (String m1 (String m2
                 (String s2 (String y1 (String y2 (String y3
                    (String y4 "")))))))))) = false) as ->.
    { unfold iso8601Pattern.
      cbn [substring take drop Nat.min Nat.max Nat.sub String.length
           Nat.eqb JS.forallb String.eqb].
      rewrite (isDigit_not_hyphen m2) by assumption.
      rewrite !andb_false_r. reflexivity. }
    cbn [match_dmy]. unfold dmy_at.
    cbn [substring take drop Nat.min Nat.max Nat.sub String.length Nat.eqb
         JS.forallb].
    repeat match goal with
           | Hx : _ = true |- _ => rewrite Hx; clear Hx
           end.
    reflexivity.
  - unfold validateDateFormat. cbn [status].
    pose proof (iso8601Pattern_of_digits y1 y2 y3 y4 m1 m2 d1 d2) as Hiso.
    cbn [append] in Hiso. rewrite Hiso by assumption. reflexivity.
Qed.

Lemma normalizeDate_day_first_witness :
  normalizeDate "15/04/2012" = "2012-04-15"
  /\ status (validateDateFormat "2012-04-15" "Date of Birth") = Pass.
Proof.
  apply (normalizeDate_day_first "1" "5" "/" "0" "4" "/" "2" "0" "1" "2");
    reflexivity.
Defined.

End NormalizeDate.

Section Completion.
Import DocumentValidator Route Spec Props.
Local Open Scope string_scope.
Local Open Scope Z_scope.

Variable Zone : Type.
Variable parseISO : Zone -> string -> outcome Date.
Variable differenceInYears : Zone -> Date -> Date -> outcome jsnum.
Variable differenceInMonths : Zone -> Date -> Date -> outcome jsnum.
Variable toUpperCase : string -> string.
Variable zone : Zone.

Local Abbreviation validate :=
  (validateDocument parseISO differenceInYears differenceInMonths toUpperCase
     zone).

Lemma rule_mrz_completed (e : ExtractedData) (m : MRZData) :
  (forall s, normalizeString toUpperCase (trim s)
             = normalizeString toUpperCase s) ->
  ex_documentNumber e = None -> ex_fullName e = None ->
  rule_mrz toUpperCase (enhanceWithMRZ e (Some m)) (Some m) []
  = ([mkCheck "MRZ Checksum"
        (if mrz_checksumValid m then Pass else Fail)
        (if mrz_checksumValid m then "MRZ checksums are valid"
         else "MRZ checksum validation failed")]
     ++ (if truthy_str (mrz_documentNumber m)
         then [mkCheck "Document Number" Pass "Document number matches MRZ"]
         else [])
     ++ (if truthy_str (trim (mrz_givenNames m ++ " " ++ mrz_surname m))
         then [mkCheck "Name" Pass "Name similarity: 100%"]
         else []))%list.
Proof.
  intros Htrim Hnum Hname.
  unfold rule_mrz, enhanceWithMRZ.
  cbn [ex_documentNumber ex_fullName]. rewrite Hnum, Hname.
  unfold fill_name, fill_field, value_of.
  destruct (truthy_str (mrz_documentNumber m)) eqn:Tnum; cbn [value];
    rewrite ?Tnum, ?String.eqb_refl;
    destruct (truthy_str (trim (mrz_givenNames m ++ " " ++ mrz_surname m)));
    rewrite ?Htrim, ?calculateSimilarity_same; reflexivity.
Qed.

(** X28: when neither a document number nor a name was read from the
    page, the handler takes them from the MRZ (the number when the MRZ
    has one, the name in every case, trimmed), and the validator then
    checks them against the MRZ they come from.  Whatever the MRZ
    holds, the checks returned have no check labelled Document Number
    but the passing one, which is there exactly when the MRZ has a
    document number, and no check labelled Name but the passing one at
    100%, which is there exactly when the trimmed name of the MRZ is not
    empty: with an empty name the name is filled with the empty text and
    no name check is made. *)
Theorem completed_fields_match_the_mrz (e : ExtractedData) (m : MRZData)
  (form : option ApplicantForm) (policy : option EligibilityPolicy)
  (w w' : World) (checks : list ValidationCheck) :
  (forall s, normalizeString toUpperCase (trim s)
             = normalizeString toUpperCase s) ->
  ex_documentNumber e = None -> ex_fullName e = None ->
  validate (enhanceWithMRZ e (Some m)) (Some m) form policy w
  = (Returned checks, w') ->
  (forall c, In c checks -> field c = "Document Number" ->
             c = mkCheck "Document Number" Pass "Document number matches MRZ")
  /\ (forall c, In c checks -> field c = "Name" ->
                c = mkCheck "Name" Pass "Name similarity: 100%")
  /\ (In (mkCheck "Document Number" Pass "Document number matches MRZ") checks
      <-> truthy_str (mrz_documentNumber m) = true)
  /\ (In (mkCheck "Name" Pass "Name similarity: 100%") checks
      <-> truthy_str (trim (mrz_givenNames m ++ " " ++ mrz_surname m))
          = true).
Proof.
  intros Htrim Hnum Hname H.
  pose proof (rule_mrz_completed e m Htrim Hnum Hname) as Hrule.
  pose proof (fun c =>
                rule_mrz_in_checks Zone parseISO differenceInYears
                  differenceInMonths toUpperCase zone _ _ _ _ _ _ _ c H)
    as Hin.
  pose proof (fun c =>
                mrz_label_from_rule_mrz Zone parseISO differenceInYears
                  differenceInMonths toUpperCase zone _ _ _ _ _ _ _ c H)
    as Hfrom.
  rewrite Hrule in Hin, Hfrom. clear Hrule H.
  assert (forall c,
            In c checks ->
            field c = "Document Number" \/ field c = "Name" ->
            (c = mkCheck "Document Number" Pass "Document number matches MRZ"
             /\ truthy_str (mrz_documentNumber m) = true)
            \/ (c = mkCheck "Name" Pass "Name similarity: 100%"
                /\ truthy_str
                     (trim (mrz_givenNames m ++ " " ++ mrz_surname m))
                   = true)) as Hcase.
  { intros c Hc Hf.
    assert (In (field c) mrz_labels) as Hl
      by (unfold mrz_labels; simpl; destruct Hf as [-> | ->]; tauto).
    specialize (Hfrom c Hc Hl).
    apply in_app_or in Hfrom as [[<- | []] | Hrest];
      [destruct Hf as [Hf | Hf]; discriminate Hf | ].
    apply in_app_or in Hrest as [Hrest | Hrest].
    - destruct (truthy_str (mrz_documentNumber m));
        [ | destruct Hrest].
      destruct Hrest as [<- | []]. left. split; reflexivity.
    - destruct (truthy_str
                  (trim (mrz_givenNames m ++ " " ++ mrz_surname m)));
        [ | destruct Hrest].
      destruct Hrest as [<- | []]. right. split; reflexivity. }
  repeat split.
  - intros c Hc Hf.
    destruct (Hcase c Hc (or_introl Hf)) as [[-> _] | [-> _]];
      [reflexivity | discriminate Hf].
  - intros c Hc Hf.
    destruct (Hcase c Hc (or_intror Hf)) as [[-> _] | [-> _]];
      [discriminate Hf | reflexivity].
  - intros Hc.
    destruct (Hcase _ Hc (or_introl eq_refl)) as [[_ T] | [E _]];
      [exact T | discriminate E].
  - intros T. apply Hin. rewrite T. simpl. tauto.
  - intros Hc.
    destruct (Hcase _ Hc (or_intror eq_refl)) as [[E _] | [_ T]];
      [discriminate E | exact T].
  - intros T. apply Hin. rewrite T.
    apply in_or_app. right. apply in_or_app. right. left. reflexivity.
Qed.

End Completion.

Section CompletionRuns.
Import DocumentValidator Route Spec Props.
Local Open Scope string_scope.
Local Open Scope Z_scope.

Lemma keep_map_chars (p : ascii -> bool) (f : ascii -> ascii) (s : string) :
  keep p (map_chars f s) = map_chars f (keep (fun c => p (f c)) s).
Proof.
  induction s as [|c r IH]; [reflexivity | ].
  cbn [map_chars keep]. destruct (p (f c)); cbn [map_chars]; rewrite IH;
    reflexivity.
Qed.

Lemma keep_none (p : ascii -> bool) (s : string) :
  (forall c, isSpace c = true -> p c = false) ->
  JS.forallb isSpace s = true -> keep p s = "".
Proof.
  intros Hp. induction s as [|c r IH]; [reflexivity | ].
  cbn [JS.forallb keep]. intros H. apply andb_prop in H as [Hc Hr].
  rewrite (Hp c Hc). apply IH, Hr.
Qed.

(** White space that [trim] removes is removed by a filter that keeps no
    white space. *)
Lemma keep_trim (p : ascii -> bool) (s : string) :
  (forall c, isSpace c = true -> p c = false) ->
  keep p (trim s) = keep p s.
Proof.
  intros Hp. unfold trim.
  assert (forall t, keep p (trim_end t) = keep p t) as Hend.
  { induction t as [|c r IH]; [reflexivity | ].
    cbn [trim_end].
    destruct (JS.forallb isSpace (String c r)) eqn:Hall.
    - symmetry. apply keep_none; assumption.
    - cbn [keep]. rewrite IH. reflexivity. }
  rewrite Hend.
  induction s as [|c r IH]; [reflexivity | ].
  cbn [trim_start]. destruct (isSpace c) eqn:Hc; [ | reflexivity].
  cbn [keep]. rewrite (Hp c Hc). exact IH.
Qed.

Lemma space_not_alnum (c : ascii) :
  isSpace c = true -> isAlnumUpper (DateFns.upper_char c) = false.
Proof.
  destruct c as [b0 b1 b2 b3 b4 b5 b6 b7].
  destruct b0, b1, b2, b3, b4, b5, b6, b7; vm_compute;
    intros H; try discriminate H; reflexivity.
Qed.

Lemma normalizeString_trim (s : string) :
  normalizeString DateFns.toUpperCase (trim s)
  = normalizeString DateFns.toUpperCase s.
Proof.
  unfold normalizeString, DateFns.toUpperCase.
  rewrite !keep_map_chars. f_equal. apply keep_trim, space_not_alnum.
Qed.

Lemma completed_fields_match_the_mrz_witness :
  (exists checks,
     fst (DateFns.validateDocument
            (enhanceWithMRZ nothing_read (Some icao_record))
            (Some icao_record) None None november_2026)
     = Returned checks
     /\ In (mkCheck "Document Number" Pass "Document number matches MRZ")
          checks
     /\ In (mkCheck "Name" Pass "Name similarity: 100%") checks)
  /\ (exists checks,
        fst (DateFns.validateDocument
               (enhanceWithMRZ nothing_read (Some nameless_record))
               (Some nameless_record) None None november_2026)
        = Returned checks
        /\ forall c, In c checks -> field c <> "Name").
Proof.
  split.
  - eexists. split; [vm_compute; reflexivity | ].
    destruct (completed_fields_match_the_mrz DateFns.Zone DateFns.parseISO_in
                DateFns.differenceInYears_in DateFns.differenceInMonths_in
                DateFns.toUpperCase DateFns.UTC nothing_read icao_record None
                None november_2026
                (snd (DateFns.validateDocument
                        (enhanceWithMRZ nothing_read (Some icao_record))
                        (Some icao_record) None None november_2026))
                _ normalizeString_trim eq_refl eq_refl eq_refl)
      as (_ & _ & Hnumber & Hname).
    split; [apply Hnumber | apply Hname]; reflexivity.
  - eexists. split; [vm_compute; reflexivity | ].
    destruct (completed_fields_match_the_mrz DateFns.Zone DateFns.parseISO_in
                DateFns.differenceInYears_in DateFns.differenceInMonths_in
                DateFns.toUpperCase DateFns.UTC nothing_read nameless_record
                None None november_2026
                (snd (DateFns.validateDocument
                        (enhanceWithMRZ nothing_read (Some nameless_record))
                        (Some nameless_record) None None november_2026))
                _ normalizeString_trim eq_refl eq_refl eq_refl)
      as (_ & Honly & _ & Hname).
    intros c Hc Hf. rewrite (Honly c Hc Hf) in Hc.
    apply Hname in Hc. discriminate Hc.
Defined.

End CompletionRuns.

Section DocumentType.
Import MRZParser Route Props.
Local Open Scope string_scope.

Variable toLowerCase : string -> string.

Lemma parseMRZ_documentType (l0 : string) (rest : list string) (m : MRZData) :
  parseMRZ (l0 :: rest) = Some m ->
  mrz_documentType m = strip_trailing_fillers (substring 0 2 (clean l0)).
Proof.
  unfold parseMRZ.
  destruct (len (l0 :: rest) <? 2)%Z; [discriminate | ].
  destruct rest as [|l1 [|l2 [|l3 rest]]]; cbn [List.map]; try discriminate.
  - destruct ((strlen (clean l0) =? 44)%Z && (strlen (clean l1) =? 44)%Z);
      [ | discriminate].
    intros [= <-]. reflexivity.
  - destruct (strlen (clean l0) =? 30)%Z; [ | discriminate].
    intros [= <-]. reflexivity.
Qed.

Lemma documentType_first (c : ascii) (s : string) :
  isFiller c = false -> startsWith c s = true ->
  exists r, strip_trailing_fillers (substring 0 2 s) = String c r.
Proof.
  intros Hc Hs. destruct s as [|a r]; [discriminate Hs | ].
  simpl in Hs. apply Ascii.eqb_eq in Hs. subst a.
  change (substring 0 2 (String c r)) with (String c (take 1 r)).
  cbn [strip_trailing_fillers JS.forallb]. rewrite Hc. cbn [andb].
  eexists. reflexivity.
Qed.

(** X29: when the MRZ is decoded, the first character of its first line
    decides the type of the document, whatever words the text of the page
    holds: [P] gives a passport, [I] an identity card, [V] a visa. *)
Theorem mrz_decides_document_type (text l0 : string) (rest : list string)
  (m : MRZData) :
  parseMRZ (l0 :: rest) = Some m ->
  (startsWith "P" (clean l0) = true ->
   determineDocumentType toLowerCase text (Some m) = "Passport")
  /\ (startsWith "I" (clean l0) = true ->
      determineDocumentType toLowerCase text (Some m) = "ID Card")
  /\ (startsWith "V" (clean l0) = true ->
      determineDocumentType toLowerCase text (Some m) = "Visa").
Proof.
  intros H. apply parseMRZ_documentType in H.
  unfold determineDocumentType. rewrite H.
  repeat split; intros Hs;
    apply documentType_first in Hs as [r ->]; reflexivity.
Qed.

End DocumentType.

Section DocumentTypeRuns.
Import MRZParser Route Props.
Local Open Scope string_scope.

Lemma mrz_decides_document_type_witness :
  determineDocumentType toLowerCase "VISA" (Some icao_record) = "Passport".
Proof.
  apply (proj1 (mrz_decides_document_type toLowerCase "VISA" Spec.icao_line1
                  [Spec.icao_line2] icao_record eq_refl)).
  reflexivity.
Defined.

End DocumentTypeRuns.
